(** * OpenInference instrumentation: event-to-span normalisation

    A shallow embedding of the parts of the OpenInference Python
    instrumentors (LangChain tracer, LlamaIndex handler, LiteLLM
    instrumentor) that decide the specified properties, followed by the
    theorems about them.

    Conventions of the embedding:
    - Python values that flow through the extractors are [pyval]s: the
      JSON-like fragment (None, bool, int, str, list, dict with string
      keys).  Floats and arbitrary objects are outside the model.
    - A [str] is held as its UTF-8 encoding; its characters are the
      items of [chars].  Builtins that depend on the Unicode tables
      ([str.lower]) are parameters.
    - A Python [dict] is an association list in insertion order; lookups
      take the first binding (dict keys are unique).
    - A generator is the list of the items it yields, paired with a flag
      telling whether it ran to completion or raised.
    - The tracing backend handle (an OpenTelemetry span) is the log of the
      calls it received, oldest first.
    - The LlamaIndex handler is shared by the threads of the host and
      the sweep thread: the sweep thread is a machine that takes one
      step per access to the shared objects, and a run interleaves its
      steps with the moves of the host. *)

From Stdlib Require Import ZArith QArith String Ascii List Bool Lia Lqa DecimalString.
From stdpp Require Import gmap strings list fin_maps.

Local Set Warnings "-register-all".
Local Open Scope string_scope.
Local Open Scope list_scope.

(* ===================================================================== *)
(** * Part I: definitions                                                  *)
(* ===================================================================== *)

(** ** Python values *)

Module Py.

Inductive pyval :=
| PNone
| PBool (b : bool)
| PInt (z : Z)
| PStr (s : string)
| PList (l : list pyval)
| PDict (d : list (string * pyval)).

(** [bool(v)]: Python truthiness. *)
Definition truthy (v : pyval) : bool :=
  match v with
  | PNone => false
  | PBool b => b
  | PInt z => negb (z =? 0)%Z
  | PStr s => negb (String.eqb s "")
  | PList l => match l with [] => false | _ => true end
  | PDict d => match d with [] => false | _ => true end
  end.

Definition is_none (v : pyval) : bool :=
  match v with PNone => true | _ => false end.

Definition is_str (v : pyval) : bool :=
  match v with PStr _ => true | _ => false end.

(** [d.get(k)] on a dict: the first binding of [k], [None] when absent. *)
Fixpoint dict_get (d : list (string * pyval)) (k : string) : pyval :=
  match d with
  | [] => PNone
  | (k', v) :: d' => if String.eqb k' k then v else dict_get d' k
  end.

(** [k in d]. *)
Fixpoint dict_mem (d : list (string * pyval)) (k : string) : bool :=
  match d with
  | [] => false
  | (k', _) :: d' => String.eqb k' k || dict_mem d' k
  end.

(** [d.get(k, default)]. *)
Definition dict_get_default (d : list (string * pyval)) (k : string)
    (default : pyval) : pyval :=
  if dict_mem d k then dict_get d k else default.

(** [v.get(k)] on an arbitrary value: only mappings have [get]; the
    outer [None] is the [AttributeError] of every other value. *)
Definition py_get (v : pyval) (k : string) : option pyval :=
  match v with
  | PDict d => Some (dict_get d k)
  | _ => None
  end.

(** [hasattr(v, "get")]. *)
Definition has_get (v : pyval) : bool :=
  match v with PDict _ => true | _ => false end.

(** [s.startswith(p)] and [s.endswith(p)]. *)
Definition startswith (p s : string) : bool := String.prefix p s.

Definition endswith (p s : string) : bool :=
  String.prefix (String.rev p) (String.rev s).

(** [sub in s]. *)
Fixpoint contains (sub s : string) : bool :=
  String.prefix sub s ||
  match s with
  | EmptyString => false
  | String _ s' => contains sub s'
  end.

(** The first byte of a text ([NUL] for the empty one). *)
Definition hd_ascii (s : string) : ascii :=
  match s with String c _ => c | EmptyString => zero end.

(** The characters of a text.  A [str] is held as its UTF-8 encoding;
    [len], indexing and iteration go by character, and a byte
    [10xxxxxx] continues the character begun before it. *)
Definition is_continuation (c : ascii) : bool :=
  let n := nat_of_ascii c in (128 <=? n)%nat && (n <? 192)%nat.

Fixpoint chars (s : string) : list string :=
  match s with
  | EmptyString => []
  | String c s' =>
      match chars s' with
      | x :: xs =>
          if is_continuation (hd_ascii s') then String c x :: xs
          else String c "" :: x :: xs
      | [] => [String c ""]
      end
  end.

(** [d[k] = v] on a dict: an existing key keeps its place. *)
Fixpoint dict_set (d : list (string * pyval)) (k : string) (v : pyval)
    : list (string * pyval) :=
  match d with
  | [] => [(k, v)]
  | (k', v') :: d' =>
      if String.eqb k' k then (k', v) :: d' else (k', v') :: dict_set d' k v
  end.

(** [k, v = x]: unpacking a sequence of length 2; iterating a dict gives
    its keys.  [None] is the [TypeError] or [ValueError] of anything
    else. *)
Definition py_pair (x : pyval) : option (pyval * pyval) :=
  match x with
  | PList [k; v] => Some (k, v)
  | PStr s =>
      match chars s with
      | [k; v] => Some (PStr k, PStr v)
      | _ => None
      end
  | PDict [(k1, _); (k2, _)] => Some (PStr k1, PStr k2)
  | _ => None
  end.

(** [hash(k)] succeeds: lists and dicts are not hashable. *)
Definition hashable (k : pyval) : bool :=
  match k with PList _ | PDict _ => false | _ => true end.

(** [dict(v)], seen through its string keys (the only keys the code
    looks up): a copy of a mapping, or the dict built from an iterable
    of key/value pairs, the last value of a key winning.  [None] is the
    [TypeError] or [ValueError] that [dict] raises: on a value that is
    not iterable, on an item that is not a pair, on an unhashable key. *)
Fixpoint dict_of_pairs (items : list pyval) (d : list (string * pyval))
    : option (list (string * pyval)) :=
  match items with
  | [] => Some d
  | x :: items' =>
      match py_pair x with
      | Some (k, v) =>
          if hashable k then
            dict_of_pairs items'
              match k with PStr key => dict_set d key v | _ => d end
          else None
      | None => None
      end
  end.

Definition py_dict (v : pyval) : option (list (string * pyval)) :=
  match v with
  | PDict d => Some d
  | PList items => dict_of_pairs items []
  | PStr s => match chars s with [] => Some [] | _ => None end
  | _ => None
  end.

(** [str(i)] for a list index. *)
Definition str_nat (n : nat) : string :=
  NilZero.string_of_uint (Nat.to_uint n).

(** [str(z)] for an integer. *)
Definition str_Z (z : Z) : string :=
  NilZero.string_of_int (Z.to_int z).

(** *** The JSON encoder

    [json.dumps(v, ensure_ascii=False)] with the default separators
    [", "] and [": "], which is what both [_json_dumps] and
    [safe_json_dumps] produce on the JSON-like fragment. *)

Definition dquote : string := String (ascii_of_nat 34) "".

Definition hex_digit (n : nat) : ascii :=
  match n with
  | 0 => "0" | 1 => "1" | 2 => "2" | 3 => "3" | 4 => "4" | 5 => "5"
  | 6 => "6" | 7 => "7" | 8 => "8" | 9 => "9" | 10 => "a" | 11 => "b"
  | 12 => "c" | 13 => "d" | 14 => "e" | _ => "f"
  end%char.

(** The replacement of one character inside a JSON string literal. *)
Definition json_escape_char (c : ascii) : string :=
  let n := nat_of_ascii c in
  if (n =? 34)%nat then "\" +:+ dquote
  else if (n =? 92)%nat then "\\"
  else if (n =? 10)%nat then "\n"
  else if (n =? 13)%nat then "\r"
  else if (n =? 9)%nat then "\t"
  else if (n =? 8)%nat then "\b"
  else if (n =? 12)%nat then "\f"
  else if (n <? 32)%nat then
    "\u00" +:+ String (hex_digit (n / 16)) (String (hex_digit (n mod 16)) "")
  else String c "".

Fixpoint json_escape (s : string) : string :=
  match s with
  | EmptyString => EmptyString
  | String c s' => json_escape_char c +:+ json_escape s'
  end.

Definition json_quote (s : string) : string :=
  dquote +:+ json_escape s +:+ dquote.

Fixpoint json_dumps (v : pyval) : string :=
  match v with
  | PNone => "null"
  | PBool true => "true"
  | PBool false => "false"
  | PInt z => str_Z z
  | PStr s => json_quote s
  | PList l => "[" +:+ String.concat ", " (map json_dumps l) +:+ "]"
  | PDict d =>
      "{" +:+
      String.concat ", "
        (map (fun kv => json_quote (fst kv) +:+ ": " +:+ json_dumps (snd kv)) d)
      +:+ "}"
  end.

(** *** Generators

    The items yielded so far, and whether the generator returned
    ([true]) or raised ([false]). *)

Definition gen (A : Type) : Type := (list A * bool)%type.

Definition gret {A} : gen A := ([], true).
Definition gyield {A} (x : A) : gen A := ([x], true).
Definition graise {A} : gen A := ([], false).

(** Run [g1], then [g2] unless [g1] raised. *)
Definition gseq {A} (g1 g2 : gen A) : gen A :=
  if snd g1 then (fst g1 ++ fst g2, snd g2) else g1.

(** [for x in l: yield from f x]. *)
Fixpoint gfor {A B} (f : A -> gen B) (l : list A) : gen B :=
  match l with
  | [] => gret
  | x :: l' => gseq (f x) (gfor f l')
  end.

(** Re-key every yielded item. *)
Definition gmap_keys {V} (f : string -> string) (g : gen (string * V))
    : gen (string * V) :=
  (map (fun kv => (f (fst kv), snd kv)) (fst g), snd g).

(** [enumerate(l)]. *)
Fixpoint enumerate_from {A} (i : nat) (l : list A) : list (nat * A) :=
  match l with
  | [] => []
  | x :: l' => (i, x) :: enumerate_from (S i) l'
  end.

Definition enumerate {A} (l : list A) : list (nat * A) := enumerate_from 0 l.

End Py.

(** ** Attribute names

    Modelled from the spec: the flat dotted attribute keys of the
    OpenInference semantic conventions ([openinference.semconv.trace],
    a package of this repository that is not among the sources), as the
    specification and the instrumentors' module-level aliases name them. *)

Module Semconv.

Definition INPUT_VALUE : string := "input.value".
Definition INPUT_MIME_TYPE : string := "input.mime_type".
Definition OUTPUT_VALUE : string := "output.value".
Definition OUTPUT_MIME_TYPE : string := "output.mime_type".
Definition JSON : string := "application/json".
Definition OPENINFERENCE_SPAN_KIND : string := "openinference.span.kind".
Definition CHAIN : string := "CHAIN".
Definition LLM : string := "LLM".
Definition LLM_MODEL_NAME : string := "llm.model_name".
Definition LLM_PROVIDER : string := "llm.provider".
Definition LLM_SYSTEM : string := "llm.system".
Definition LLM_INVOCATION_PARAMETERS : string := "llm.invocation_parameters".
Definition LLM_INPUT_MESSAGES : string := "llm.input_messages".
Definition LLM_TOOLS : string := "llm.tools".
Definition TOOL_JSON_SCHEMA : string := "tool.json_schema".
Definition LLM_TOKEN_COUNT_PROMPT : string := "llm.token_count.prompt".
Definition LLM_TOKEN_COUNT_COMPLETION : string := "llm.token_count.completion".
Definition LLM_TOKEN_COUNT_TOTAL : string := "llm.token_count.total".
Definition LLM_TOKEN_COUNT_PROMPT_DETAILS_CACHE_READ : string :=
  "llm.token_count.prompt_details.cache_read".
Definition LLM_TOKEN_COUNT_PROMPT_DETAILS_CACHE_WRITE : string :=
  "llm.token_count.prompt_details.cache_write".
Definition LLM_TOKEN_COUNT_PROMPT_DETAILS_AUDIO : string :=
  "llm.token_count.prompt_details.audio".
Definition LLM_TOKEN_COUNT_COMPLETION_DETAILS_REASONING : string :=
  "llm.token_count.completion_details.reasoning".
Definition LLM_TOKEN_COUNT_COMPLETION_DETAILS_AUDIO : string :=
  "llm.token_count.completion_details.audio".
Definition MESSAGE_ROLE : string := "message.role".
Definition MESSAGE_CONTENT : string := "message.content".
Definition MESSAGE_CONTENTS : string := "message.contents".
Definition MESSAGE_NAME : string := "message.name".
Definition MESSAGE_TOOL_CALLS : string := "message.tool_calls".
Definition MESSAGE_TOOL_CALL_ID : string := "message.tool_call_id".
Definition MESSAGE_CONTENT_TYPE : string := "message_content.type".
Definition MESSAGE_CONTENT_TEXT : string := "message_content.text".
Definition MESSAGE_CONTENT_IMAGE : string := "message_content.image".
Definition IMAGE_URL : string := "image.url".
Definition TOOL_CALL_ID : string := "tool_call.id".
Definition TOOL_CALL_FUNCTION_NAME : string := "tool_call.function.name".
Definition TOOL_CALL_FUNCTION_ARGUMENTS_JSON : string :=
  "tool_call.function.arguments".
Definition EXCEPTION_TYPE : string := "exception.type".
Definition EXCEPTION_MESSAGE : string := "exception.message".
Definition EXCEPTION_ESCAPED : string := "exception.escaped".
Definition EXCEPTION_STACKTRACE : string := "exception.stacktrace".

(** The members of the two value enumerations the LangChain tables name.
    Their [.value] strings are declared in the conventions package and
    enter the development as functions [provider_value], [system_value]. *)
Inductive OpenInferenceLLMSystemValues :=
| SYS_OPENAI | SYS_ANTHROPIC | SYS_COHERE | SYS_MISTRALAI | SYS_VERTEXAI.

Inductive OpenInferenceLLMProviderValues :=
| PROV_OPENAI | PROV_ANTHROPIC | PROV_COHERE | PROV_MISTRALAI | PROV_GOOGLE
| PROV_AZURE | PROV_AWS | PROV_XAI | PROV_DEEPSEEK.

End Semconv.

(** ** The tracing backend handle *)

Module Otel.
Import Py.

(** A raised Python exception: its class name, the names of the classes
    it inherits from, and its [str] and [repr]. *)
Record BaseException := {
  type_name : string;
  bases : list string;
  message : string;
  repr : string;
}.

(** [isinstance(e, cls)], classes identified by name. *)
Definition isinstance (e : BaseException) (cls : string) : bool :=
  existsb (String.eqb cls) (type_name e :: bases e).

Inductive StatusCode := UNSET | OK | ERROR.

Record Status := {
  status_code : StatusCode;
  description : option string;
}.

(** One call on the backend's span handle. *)
Inductive otel_call :=
| RecordException (e : BaseException)
| AddEvent (name : string) (attributes : list (string * pyval))
    (timestamp : option Z)
| SetStatus (st : Status)
| SetAttribute (k : string) (v : pyval)
| SetAttributes (kvs : gmap string pyval)
| End (end_time : option Z).

(** The handle: every call it received, oldest first. *)
Definition otel_span : Type := list otel_call.

Definition is_end (c : otel_call) : bool :=
  match c with End _ => true | _ => false end.

(** An exception event: [record_exception] adds one named "exception",
    as does an explicit [add_event(name="exception")]. *)
Definition is_exception_event (c : otel_call) : bool :=
  match c with
  | RecordException _ => true
  | AddEvent n _ _ => String.eqb n "exception"
  | _ => false
  end.

Definition end_calls (s : otel_span) : list otel_call := List.filter is_end s.

Definition exception_events (s : otel_span) : list otel_call :=
  List.filter is_exception_event s.

(** The statuses handed to [set_status], oldest first. *)
Fixpoint statuses (s : otel_span) : list Status :=
  match s with
  | [] => []
  | SetStatus st :: s' => st :: statuses s'
  | _ :: s' => statuses s'
  end.

End Otel.

(** ** LangChain tracer ([langchain/_tracer.py]) *)

Module LangChain.
Import Py Semconv Otel.

(** [IGNORED_EXCEPTION_PATTERNS]: both regular expressions are a start
    anchor followed by literal text, so a pattern is kept as that text. *)
Inductive pattern := AnchoredLiteral (text : string).

Definition IGNORED_EXCEPTION_PATTERNS : list pattern :=
  [AnchoredLiteral "Command("; AnchoredLiteral "ParentCommand("].

(** [re.match(pattern, s)] is not [None]. *)
Definition re_match (p : pattern) (s : string) : bool :=
  match p with AnchoredLiteral text => startswith text s end.

(** The fields of a LangChain [Run] the tracer reads.  Times are already
    in UTC nanoseconds. *)
Record Run := {
  run_id : string;
  name : string;
  run_type : string;
  error : option string;
  inputs : pyval;
  outputs : pyval;
  extra : pyval;
  end_time : option Z;
}.

(** The decorator [stop_on_exception]: what was yielded stays, the
    exception is logged and swallowed. *)
Definition stop_on_exception {A} (g : gen A) : gen A := (fst g, true).

(** *** [_convert_io], [_as_input], [_as_output] *)

Definition is_structured_json (json_value : string) : bool :=
  startswith "{" json_value && endswith "}" json_value
  || startswith "[" json_value && endswith "]" json_value.

Definition _json_dumps (obj : pyval) : string := json_dumps obj.

Definition _convert_io (obj : pyval) : gen string :=
  if negb (truthy obj) then gret
  else
    match obj with
    | PDict d =>
        let default :=
          gseq (gyield (_json_dumps obj)) (gyield JSON) in
        match d with
        | [(key, value)] =>
            match value with
            | PStr s => gyield s
            | _ =>
                if String.eqb key "input" || String.eqb key "output" then
                  let json_value := _json_dumps value in
                  gseq (gyield json_value)
                       (if is_structured_json json_value then gyield JSON
                        else gret)
                else default
            end
        | _ => default
        end
    | _ => graise
    end.

(** [zip(keys, values)], consumed inside [stop_on_exception]. *)
Fixpoint zip {A B} (l1 : list A) (l2 : list B) : list (A * B) :=
  match l1, l2 with
  | x :: l1', y :: l2' => (x, y) :: zip l1' l2'
  | _, _ => []
  end.

Definition _as_input (values : gen string) : gen (string * string) :=
  stop_on_exception (zip [INPUT_VALUE; INPUT_MIME_TYPE] (fst values), snd values).

Definition _as_output (values : gen string) : gen (string * string) :=
  stop_on_exception (zip [OUTPUT_VALUE; OUTPUT_MIME_TYPE] (fst values), snd values).

(** *** Message content *)

(** [image = dict(image); if url := image.pop("url"): yield ...]. *)
Definition _get_attributes_from_image (image : pyval) : gen (string * pyval) :=
  match py_dict image with
  | Some d =>
      if dict_mem d "url" then
        let url := dict_get d "url" in
        if truthy url then gyield (IMAGE_URL, url) else gret
      else graise
  | None => graise
  end.

(** [content = dict(content); type_ = content.pop("type"); ...]: a
    missing key is the [KeyError] of [pop]. *)
Definition _get_attributes_from_message_content (content : pyval)
    : gen (string * pyval) :=
  match py_dict content with
  | Some d =>
      if negb (dict_mem d "type") then graise
      else
        match dict_get d "type" with
        | PStr "text" =>
            gseq (gyield (MESSAGE_CONTENT_TYPE, PStr "text"))
              (if negb (dict_mem d "text") then graise
               else
                 let text := dict_get d "text" in
                 if truthy text then gyield (MESSAGE_CONTENT_TEXT, text)
                 else gret)
        | PStr "image_url" =>
            gseq (gyield (MESSAGE_CONTENT_TYPE, PStr "image"))
              (if negb (dict_mem d "image_url") then graise
               else
                 let image := dict_get d "image_url" in
                 if truthy image then
                   gmap_keys (fun key => MESSAGE_CONTENT_IMAGE +:+ "." +:+ key)
                     (_get_attributes_from_image image)
                 else gret)
        | _ => gret
        end
  | None => graise
  end.

(** The loop over a content list in [_extract_message_kwargs]. *)
Definition content_list_item (entry : nat * pyval) : gen (string * pyval) :=
  let '(i, obj) := entry in
  match obj with
  | PStr _ =>
      gyield (MESSAGE_CONTENTS +:+ "." +:+ str_nat i +:+ "." +:+ MESSAGE_CONTENT_TEXT, obj)
  | _ =>
      if negb (has_get obj) then graise
      else
        gmap_keys (fun k => MESSAGE_CONTENTS +:+ "." +:+ str_nat i +:+ "." +:+ k)
          (_get_attributes_from_message_content obj)
  end.

(** [if v := kwargs.get(key): assert isinstance(v, str); yield attr, v]. *)
Definition yield_str_field (kwargs : list (string * pyval)) (key attr : string)
    : gen (string * pyval) :=
  let v := dict_get kwargs key in
  if truthy v then (if is_str v then gyield (attr, v) else graise) else gret.

Definition _extract_message_kwargs (message_data : pyval) : gen (string * pyval) :=
  stop_on_exception
    (if negb (truthy message_data) then gret
     else
       match message_data with
       | PDict md =>
           let kwargs := dict_get md "kwargs" in
           if negb (truthy kwargs) then gret
           else
             match kwargs with
             | PDict kw =>
                 let content := dict_get kw "content" in
                 gseq
                   (if negb (truthy content) then gret
                    else
                      match content with
                      | PStr _ => gyield (MESSAGE_CONTENT, content)
                      | PList l => gfor content_list_item (enumerate l)
                      | _ => gret
                      end)
                   (gseq (yield_str_field kw "tool_call_id" MESSAGE_TOOL_CALL_ID)
                         (yield_str_field kw "name" MESSAGE_NAME))
             | _ => graise
             end
       | _ => graise
       end).

(** *** Token counts *)

Fixpoint first_not_none (vs : list pyval) : pyval :=
  match vs with
  | [] => PNone
  | v :: vs' => if is_none v then first_not_none vs' else v
  end.

Definition _get_first_value (mapping : pyval) (keys : list string) : pyval :=
  match mapping with
  | PDict d => first_not_none (map (dict_get d) keys)
  | _ => PNone
  end.

(** [hasattr(v, "__getitem__")]. *)
Definition has_getitem (v : pyval) : bool :=
  match v with PStr _ | PList _ | PDict _ => true | _ => false end.

(** [v[0]] for a value with [__getitem__]; [None] is the [IndexError] or
    [KeyError] (a dict of the model has string keys only). *)
Definition getitem0 (v : pyval) : option pyval :=
  match v with
  | PStr s => match chars s with c :: _ => Some (PStr c) | [] => None end
  | PList (x :: _) => Some x
  | _ => None
  end.

(** The parsers return the usage mapping, [PNone] when a link of the
    chain is missing, or raise (outer [None]). *)
Definition _parse_token_usage_for_non_streaming_outputs (outputs : pyval)
    : option pyval :=
  Some
    (if truthy outputs && has_get outputs then
       match py_get outputs "llm_output" with
       | Some llm_output =>
           if truthy llm_output && has_get llm_output then
             let token_usage :=
               _get_first_value llm_output ["token_usage"; "usage"] in
             if truthy token_usage then token_usage else PNone
           else PNone
       | None => PNone
       end
     else PNone).

(** The common prefix of the two remaining parsers: the first generation
    of the first set, when it is a non-empty mapping. *)
Definition first_generation (outputs : pyval) : option pyval :=
  if truthy outputs && has_get outputs then
    match py_get outputs "generations" with
    | Some generations =>
        if truthy generations && has_getitem generations then
          match getitem0 generations with
          | None => None
          | Some g0 =>
              if truthy g0 && has_getitem g0 then
                match getitem0 g0 with
                | None => None
                | Some generation =>
                    if truthy generation && has_get generation
                    then Some generation else Some PNone
                end
              else Some PNone
          end
        else Some PNone
    | None => Some PNone
    end
  else Some PNone.

(** [x.get(k)] when it is truthy and [x] is a mapping, else [PNone]. *)
Definition get_truthy (x : pyval) (k : string) : pyval :=
  match x with
  | PDict d => let v := dict_get d k in if truthy v then v else PNone
  | _ => PNone
  end.

Definition _parse_token_usage_for_streaming_outputs (outputs : pyval)
    : option pyval :=
  match first_generation outputs with
  | None => None
  | Some generation =>
      Some (get_truthy (get_truthy (get_truthy generation "message") "kwargs")
              "usage_metadata")
  end.

Definition _parse_token_usage_for_vertexai (outputs : pyval) : option pyval :=
  match first_generation outputs with
  | None => None
  | Some generation =>
      Some (get_truthy (get_truthy generation "generation_info") "usage_metadata")
  end.

(** [a or b or c], each operand able to raise. *)
Definition or_else (a : option pyval) (b : option pyval) : option pyval :=
  match a with
  | None => None
  | Some v => if truthy v then Some v else b
  end.

Definition token_count_keys : list (string * list string) :=
  [ (LLM_TOKEN_COUNT_PROMPT,
     ["prompt_tokens"; "input_tokens"; "prompt_token_count"]);
    (LLM_TOKEN_COUNT_COMPLETION,
     ["completion_tokens"; "output_tokens"; "candidates_token_count"]);
    (LLM_TOKEN_COUNT_TOTAL, ["total_tokens"; "total_token_count"]);
    (LLM_TOKEN_COUNT_PROMPT_DETAILS_CACHE_READ, ["cache_read_input_tokens"]);
    (LLM_TOKEN_COUNT_PROMPT_DETAILS_CACHE_WRITE, ["cache_creation_input_tokens"]) ].

Definition token_count_detail_keys : list (string * string * list string) :=
  [ (LLM_TOKEN_COUNT_COMPLETION_DETAILS_AUDIO, "completion_tokens_details",
     ["audio_tokens"]);
    (LLM_TOKEN_COUNT_COMPLETION_DETAILS_REASONING, "completion_tokens_details",
     ["reasoning_tokens"]);
    (LLM_TOKEN_COUNT_PROMPT_DETAILS_AUDIO, "prompt_tokens_details",
     ["audio_tokens"]);
    (LLM_TOKEN_COUNT_PROMPT_DETAILS_CACHE_READ, "prompt_tokens_details",
     ["cached_tokens"]) ].

Definition _token_counts (outputs : pyval) : gen (string * pyval) :=
  stop_on_exception
    (match
       or_else (_parse_token_usage_for_non_streaming_outputs outputs)
         (or_else (_parse_token_usage_for_streaming_outputs outputs)
            (_parse_token_usage_for_vertexai outputs))
     with
     | None => graise
     | Some token_usage =>
         if negb (truthy token_usage) then gret
         else
           gseq
             (gfor
                (fun entry : string * list string =>
                   let token_count := _get_first_value token_usage (snd entry) in
                   if is_none token_count then gret
                   else gyield (fst entry, token_count))
                token_count_keys)
             (gfor
                (fun entry : string * string * list string =>
                   match py_get token_usage (snd (fst entry)) with
                   | None => graise
                   | Some details =>
                       if is_none details then gret
                       else
                         let token_count := _get_first_value details (snd entry) in
                         if is_none token_count then gret
                         else gyield (fst (fst entry), token_count)
                   end)
                token_count_detail_keys)
     end).

(** *** Provider and system inference *)

Section ProviderTables.

(** The [.value] of the enumeration members (declared outside the
    sources). *)
Variable provider_value : OpenInferenceLLMProviderValues -> string.
Variable system_value : OpenInferenceLLMSystemValues -> string.

(** [str.lower] of the builtins: the lower-casing of a text, over all of
    Unicode. *)
Variable str_lower : string -> string.

(** [_NA = None]: a provider with no system value yet. *)
Definition _NA : option string := None.

Definition _PROVIDER_TO_SYSTEM : list (string * option string) :=
  [ ("anthropic", Some (system_value SYS_ANTHROPIC));
    ("azure", Some (system_value SYS_OPENAI));
    ("azure_ai", Some (system_value SYS_OPENAI));
    ("azure_openai", Some (system_value SYS_OPENAI));
    ("bedrock", _NA);
    ("bedrock_converse", _NA);
    ("cohere", Some (system_value SYS_COHERE));
    ("deepseek", _NA);
    ("fireworks", _NA);
    ("google", Some (system_value SYS_VERTEXAI));
    ("google_anthropic_vertex", Some (system_value SYS_ANTHROPIC));
    ("google_genai", Some (system_value SYS_VERTEXAI));
    ("google_vertexai", Some (system_value SYS_VERTEXAI));
    ("groq", Some (system_value SYS_OPENAI));
    ("huggingface", _NA);
    ("ibm", _NA);
    ("mistralai", Some (system_value SYS_MISTRALAI));
    ("ollama", Some (system_value SYS_OPENAI));
    ("openai", Some (system_value SYS_OPENAI));
    ("perplexity", _NA);
    ("together", _NA);
    ("vertex", Some (system_value SYS_VERTEXAI));
    ("vertexai", Some (system_value SYS_VERTEXAI));
    ("xai", _NA) ].

Definition _LANGCHAIN_PROVIDER_MAP : list (string * string) :=
  [ ("anthropic", provider_value PROV_ANTHROPIC);
    ("azure", provider_value PROV_AZURE);
    ("azure_ai", provider_value PROV_AZURE);
    ("azure_openai", provider_value PROV_AZURE);
    ("bedrock", provider_value PROV_AWS);
    ("bedrock_converse", provider_value PROV_AWS);
    ("cohere", provider_value PROV_COHERE);
    ("deepseek", provider_value PROV_DEEPSEEK);
    ("fireworks", "fireworks");
    ("google", provider_value PROV_GOOGLE);
    ("google_anthropic_vertex", provider_value PROV_GOOGLE);
    ("google_genai", provider_value PROV_GOOGLE);
    ("google_vertexai", provider_value PROV_GOOGLE);
    ("groq", "groq");
    ("huggingface", "huggingface");
    ("ibm", "ibm");
    ("mistralai", provider_value PROV_MISTRALAI);
    ("nvidia", "nvidia");
    ("ollama", "ollama");
    ("openai", provider_value PROV_OPENAI);
    ("perplexity", "perplexity");
    ("together", "together");
    ("vertex", provider_value PROV_GOOGLE);
    ("vertexai", provider_value PROV_GOOGLE);
    ("xai", provider_value PROV_XAI) ].

(** [table.get(key)] on a module-level table. *)
Fixpoint table_get {V} (table : list (string * V)) (key : string) : option V :=
  match table with
  | [] => None
  | (k, v) :: table' => if String.eqb k key then Some v else table_get table' key
  end.

(** [extra["metadata"]["ls_provider"]] as both extractors reach it: the
    identifier when every link is present and truthy, [Some None] when a
    link is missing, [None] when a link raises. *)
Definition ls_provider_of (extra : pyval) : option (option pyval) :=
  if negb (truthy extra) then Some None
  else
    match py_get extra "metadata" with
    | None => None
    | Some meta =>
        if negb (truthy meta) then Some None
        else
          match py_get meta "ls_provider" with
          | None => None
          | Some ls_provider =>
              if truthy ls_provider then Some (Some ls_provider) else Some None
          end
    end.

Definition _llm_provider (extra : pyval) : gen (string * string) :=
  stop_on_exception
    (match ls_provider_of extra with
     | None => graise
     | Some None => gret
     | Some (Some (PStr ls_provider)) =>
         let ls_provider_lower := str_lower ls_provider in
         gyield
           (LLM_PROVIDER,
            match table_get _LANGCHAIN_PROVIDER_MAP ls_provider_lower with
            | Some v => if String.eqb v "" then ls_provider_lower else v
            | None => ls_provider_lower
            end)
     | Some (Some _) => graise
     end).

Definition _llm_system (extra : pyval) : gen (string * string) :=
  stop_on_exception
    (match ls_provider_of extra with
     | None => graise
     | Some None => gret
     | Some (Some (PStr ls_provider)) =>
         let ls_provider_lower := str_lower ls_provider in
         match table_get _PROVIDER_TO_SYSTEM ls_provider_lower with
         | Some (Some system) =>
             if String.eqb system "" then gret else gyield (LLM_SYSTEM, system)
         | _ => gret
         end
     | Some (Some _) => graise
     end).

End ProviderTables.

(** *** Span update and the error path *)

Section Tracer.

(** What [_update_span] hands to [set_attribute]/[set_attributes] after
    the status: the span kind, the context attributes and the flattened
    output of the extractors, as successive batches; the flag is
    [false] when an exception interrupts them. *)
Variable run_attribute_batches : Run -> list (gmap string pyval) * bool.

(** [traceback.format_exc()], or [None] when it raises. *)
Variable format_exc : option string.

Definition _record_exception (span : otel_span) (error : BaseException)
    : otel_span :=
  if isinstance error "Exception" then span ++ [RecordException error]
  else
    let exception_type := type_name error in
    let exception_message :=
      if String.eqb (message error) "" then repr error else message error in
    let attributes :=
      [ (EXCEPTION_TYPE, PStr exception_type);
        (EXCEPTION_MESSAGE, PStr exception_message);
        (EXCEPTION_ESCAPED, PBool false) ]
      ++ match format_exc with
         | Some trace => [(EXCEPTION_STACKTRACE, PStr trace)]
         | None => []
         end in
    span ++ [AddEvent "exception" attributes None].

(** The status [_update_span] chooses. *)
Definition run_status (run : Run) : Status :=
  match error run with
  | None => {| status_code := OK; description := None |}
  | Some err =>
      if existsb (fun p => re_match p err) IGNORED_EXCEPTION_PATTERNS
      then {| status_code := OK; description := None |}
      else {| status_code := ERROR; description := Some err |}
  end.

(** The updated handle, and whether the update completed. *)
Definition _update_span (span : otel_span) (run : Run) : otel_span * bool :=
  (span ++ [SetStatus (run_status run)]
        ++ map SetAttributes (fst (run_attribute_batches run)),
   snd (run_attribute_batches run)).

(** The tracer: its run map, the handles of the runs in flight, the
    handles it has ended (with their run ids), and what it logged. *)
Record tracer := {
  run_map : gmap string Run;
  _spans_by_run : gmap string otel_span;
  ended : list (string * otel_span);
  logged : list string;
}.

Definition _end_trace (suppressed : bool) (run : Run) (t : tracer) : tracer :=
  let run_map' := delete (run_id run) (run_map t) in
  if suppressed then
    {| run_map := run_map'; _spans_by_run := _spans_by_run t;
       ended := ended t; logged := logged t |}
  else
    match _spans_by_run t !! run_id run with
    | None =>
        {| run_map := run_map'; _spans_by_run := _spans_by_run t;
           ended := ended t; logged := logged t |}
    | Some span =>
        let '(span', completed) := _update_span span run in
        {| run_map := run_map';
           _spans_by_run := delete (run_id run) (_spans_by_run t);
           ended := ended t ++ [(run_id run, span' ++ [End (end_time run)])];
           logged :=
             if completed then logged t
             else logged t ++ ["Failed to update span with run data."] |}
    end.

(** The part of [on_llm_error], [on_chain_error], [on_retriever_error]
    and [on_tool_error] that precedes the call into the base class. *)
Definition on_error (err : BaseException) (id : string) (t : tracer) : tracer :=
  match _spans_by_run t !! id with
  | Some span =>
      {| run_map := run_map t;
         _spans_by_run := <[id := _record_exception span err]> (_spans_by_run t);
         ended := ended t; logged := logged t |}
  | None => t
  end.

(** The error terminal path.  The base class of the tracer (outside the
    sources) stores the error text in the run and then calls
    [_end_trace]; [run] is the run as it reaches [_end_trace]. *)
Definition error_path (suppressed : bool) (err : BaseException) (run : Run)
    (t : tracer) : tracer :=
  _end_trace suppressed run (on_error err (run_id run) t).

End Tracer.

End LangChain.

(** ** LlamaIndex handler ([llama_index/_handler.py]) *)

Module LlamaIndex.
Import Py Semconv Otel.

(** *** Token counts *)

Section TokenCounts.

(** [int(s)] on a string: the parsed number, or [None] when it raises. *)
Variable int_of_str : string -> option Z.

(** [int(v)]; [None] stands for the exception. *)
Definition py_int (v : pyval) : option Z :=
  match v with
  | PInt z => Some z
  | PBool b => Some (if b then 1 else 0)%Z
  | PStr s => int_of_str s
  | _ => None
  end.

(** [try: yield key, int(v) except BaseException: pass]. *)
Definition try_yield_int (key : string) (v : pyval) : gen (string * pyval) :=
  match py_int v with
  | Some z => gyield (key, PInt z)
  | None => gret
  end.

Section Impl.

(** The accessor handed to [_get_token_counts_impl]; [None] when the
    access raises. *)
Variable get_value : pyval -> string -> option pyval.

(** [if (x := get_value(obj, key)) is not None: body x]. *)
Definition if_present (obj : pyval) (key : string)
    (body : pyval -> gen (string * pyval)) : gen (string * pyval) :=
  match get_value obj key with
  | None => graise
  | Some x => if is_none x then gret else body x
  end.

(** [input_tokens += int(extra)] when [extra] is present. *)
Definition add_if_present (total : option Z) (extra : pyval) : option Z :=
  match total with
  | None => None
  | Some n =>
      if is_none extra then Some n
      else match py_int extra with
           | Some m => Some (n + m)%Z
           | None => None
           end
  end.

Definition _get_token_counts_impl (usage : pyval) : gen (string * pyval) :=
  (* OpenAI *)
  gseq (if_present usage "prompt_tokens" (try_yield_int LLM_TOKEN_COUNT_PROMPT))
  (gseq (if_present usage "prompt_tokens_details" (fun prompt_token_details =>
           gseq (if_present prompt_token_details "cached_tokens"
                   (try_yield_int LLM_TOKEN_COUNT_PROMPT_DETAILS_CACHE_READ))
                (if_present prompt_token_details "audio_tokens"
                   (try_yield_int LLM_TOKEN_COUNT_PROMPT_DETAILS_AUDIO))))
  (gseq (if_present usage "completion_tokens"
           (try_yield_int LLM_TOKEN_COUNT_COMPLETION))
  (gseq (if_present usage "completion_tokens_details" (fun completion_tokens_details =>
           gseq (if_present completion_tokens_details "reasoning_tokens"
                   (try_yield_int LLM_TOKEN_COUNT_COMPLETION_DETAILS_REASONING))
                (if_present completion_tokens_details "audio_tokens"
                   (try_yield_int LLM_TOKEN_COUNT_COMPLETION_DETAILS_AUDIO))))
  (gseq (if_present usage "total_tokens" (try_yield_int LLM_TOKEN_COUNT_TOTAL))
  (* Anthropic *)
  (gseq (if_present usage "output_tokens"
           (try_yield_int LLM_TOKEN_COUNT_COMPLETION))
  (match get_value usage "cache_creation_input_tokens" with
   | None => graise
   | Some cache_creation_input_tokens =>
   gseq (if is_none cache_creation_input_tokens then gret
         else try_yield_int LLM_TOKEN_COUNT_PROMPT_DETAILS_CACHE_WRITE
                cache_creation_input_tokens)
   (match get_value usage "cache_read_input_tokens" with
    | None => graise
    | Some cache_read_input_tokens =>
    gseq (if is_none cache_read_input_tokens then gret
          else try_yield_int LLM_TOKEN_COUNT_PROMPT_DETAILS_CACHE_READ
                 cache_read_input_tokens)
    (gseq (if_present usage "input_tokens" (fun input_tokens =>
             match
               add_if_present
                 (add_if_present (py_int input_tokens)
                    cache_creation_input_tokens)
                 cache_read_input_tokens
             with
             | Some n => gyield (LLM_TOKEN_COUNT_PROMPT, PInt n)
             | None => gret
             end))
    (* VertexAI *)
    (gseq (if_present usage "prompt_token_count"
             (try_yield_int LLM_TOKEN_COUNT_PROMPT))
    (gseq (if_present usage "candidates_token_count"
             (try_yield_int LLM_TOKEN_COUNT_COMPLETION))
          (if_present usage "total_token_count"
             (try_yield_int LLM_TOKEN_COUNT_TOTAL)))))
    end)
   end)))))).

End Impl.

(** [obj.get(key)] of [_get_token_counts_from_mapping]. *)
Definition mapping_get_value (obj : pyval) (key : string) : option pyval :=
  py_get obj key.

(** [getattr(obj, key, None)] of [_get_token_counts_from_object]: no
    value of the model carries such an attribute. *)
Definition object_get_value (obj : pyval) (key : string) : option pyval :=
  Some PNone.

Definition _get_token_counts (usage : pyval) : gen (string * pyval) :=
  match usage with
  | PDict _ => _get_token_counts_impl mapping_get_value usage
  | _ => _get_token_counts_impl object_get_value usage
  end.

End TokenCounts.

(** *** Messages *)

Record ImageBlock := {
  image : option string;
  image_mimetype : option string;
  url : option string;
  path : option string;
}.

(** A content block; [OtherBlock] is any block class the handler has no
    rule for. *)
Inductive ContentBlock :=
| TextBlock (text : string)
| ImageBlockOf (b : ImageBlock)
| OtherBlock.

Record ChatMessage := {
  role : string;
  blocks : list ContentBlock;
  additional_kwargs : list (string * pyval);
}.

(** Truthiness of an optional string field. *)
Definition present (o : option string) : bool :=
  match o with
  | Some s => negb (String.eqb s "")
  | None => false
  end.

Definition text_of (o : option string) : string :=
  match o with Some s => s | None => "" end.

Definition _get_attributes_from_text_block (text : string) (prefix : string)
    : list (string * pyval) :=
  [ (prefix +:+ MESSAGE_CONTENT_TYPE, PStr "text");
    (prefix +:+ MESSAGE_CONTENT_TEXT, PStr text) ].

Definition _get_attributes_from_image_block (obj : ImageBlock) (prefix : string)
    : list (string * pyval) :=
  if present (image obj) && present (image_mimetype obj) then
    [ (prefix +:+ MESSAGE_CONTENT_IMAGE +:+ "." +:+ IMAGE_URL,
       PStr ("data:" +:+ text_of (image_mimetype obj) +:+ ";base64,"
             +:+ text_of (image obj)));
      (prefix +:+ MESSAGE_CONTENT_TYPE, PStr "image") ]
  else if present (url obj) then
    [ (prefix +:+ MESSAGE_CONTENT_IMAGE +:+ "." +:+ IMAGE_URL, PStr (text_of (url obj)));
      (prefix +:+ MESSAGE_CONTENT_TYPE, PStr "image") ]
  else if present (path obj) then
    [ (prefix +:+ MESSAGE_CONTENT_IMAGE +:+ "." +:+ IMAGE_URL, PStr (text_of (path obj)));
      (prefix +:+ MESSAGE_CONTENT_TYPE, PStr "image") ]
  else [].

Definition _get_attributes_from_content_block (obj : ContentBlock)
    (prefix : string) : list (string * pyval) :=
  match obj with
  | TextBlock text => _get_attributes_from_text_block text prefix
  | ImageBlockOf b => _get_attributes_from_image_block b prefix
  | OtherBlock => []
  end.

(** [_get_tool_call] on the values of the model (the attribute-based
    branch needs an object with a [function] attribute, which no value
    of the model has). *)
Definition _get_tool_call (tool_call : pyval) : gen (string * pyval) :=
  match tool_call with
  | PDict d =>
      let tool_call_id := dict_get d "id" in
      let name := dict_get d "name" in
      let function := dict_get d "function" in
      let arguments := dict_get d "input" in
      gseq (if truthy tool_call_id then gyield (TOOL_CALL_ID, tool_call_id) else gret)
      (gseq (if truthy name then gyield (TOOL_CALL_FUNCTION_NAME, name) else gret)
      (gseq (if truthy function then
               match function with
               | PDict f =>
                   gseq (gyield (TOOL_CALL_FUNCTION_NAME, dict_get f "name"))
                        (gyield (TOOL_CALL_FUNCTION_ARGUMENTS_JSON,
                                 dict_get f "arguments"))
               | _ => graise
               end
             else gret)
            (if truthy arguments then
               match arguments with
               | PStr _ => gyield (TOOL_CALL_FUNCTION_ARGUMENTS_JSON, arguments)
               | PDict _ =>
                   gyield (TOOL_CALL_FUNCTION_ARGUMENTS_JSON,
                           PStr (json_dumps arguments))
               | _ => gret
               end
             else gret)))
  | _ => gret
  end.

(** [iter(v)]: the items a [for] loop visits, [None] when [v] is not
    iterable. *)
Definition py_iter (v : pyval) : option (list pyval) :=
  match v with
  | PList l => Some l
  | PDict d => Some (map (fun kv => PStr (fst kv)) d)
  | PStr s => Some (map PStr (chars s))
  | _ => None
  end.

(** The assignments the content blocks of message [i] produce. *)
Definition content_assignments (prefix : string) (i : nat)
    (blocks : list ContentBlock) : list (string * pyval) :=
  match blocks with
  | [TextBlock text] =>
      [(prefix +:+ "." +:+ str_nat i +:+ "." +:+ MESSAGE_CONTENT, PStr text)]
  | _ =>
      flat_map
        (fun jb : nat * ContentBlock =>
           _get_attributes_from_content_block (snd jb)
             (prefix +:+ "." +:+ str_nat i +:+ "." +:+ MESSAGE_CONTENTS +:+ "."
              +:+ str_nat (fst jb) +:+ "."))
        (enumerate blocks)
  end.

(** The body of the loop of [_process_messages] for message [i]: the
    [self[k] = v] assignments in order. *)
Definition message_assignments (prefix : string) (i : nat) (message : ChatMessage)
    : gen (string * pyval) :=
  let additional_kwargs := additional_kwargs message in
  let name := dict_get additional_kwargs "name" in
  let tool_calls := dict_get additional_kwargs "tool_calls" in
  let tool_call_id := dict_get additional_kwargs "tool_call_id" in
  gseq (gyield (prefix +:+ "." +:+ str_nat i +:+ "." +:+ MESSAGE_ROLE,
                PStr (role message)))
  (gseq (content_assignments prefix i (blocks message), true)
  (gseq (if truthy name then
           gyield (prefix +:+ "." +:+ str_nat i +:+ "." +:+ MESSAGE_NAME, name)
         else gret)
  (gseq (if truthy tool_calls then
           match py_iter tool_calls with
           | None => graise
           | Some calls =>
               gfor
                 (fun jc : nat * pyval =>
                    gmap_keys
                      (fun k =>
                         prefix +:+ "." +:+ str_nat i +:+ "." +:+ MESSAGE_TOOL_CALLS
                         +:+ "." +:+ str_nat (fst jc) +:+ "." +:+ k)
                      (_get_tool_call (snd jc)))
                 (enumerate calls)
           end
         else gret)
        (if truthy tool_call_id then
           gyield (prefix +:+ "." +:+ str_nat i +:+ "." +:+ MESSAGE_TOOL_CALL_ID,
                   tool_call_id)
         else gret)))).

Definition _process_messages_assignments (prefix : string)
    (messages : list ChatMessage) : gen (string * pyval) :=
  gfor (fun im : nat * ChatMessage => message_assignments prefix (fst im) (snd im))
    (enumerate messages).

(** [self[k] = v] for each assignment, in order. *)
Definition assign_all (kvs : list (string * pyval)) (attributes : gmap string pyval)
    : gmap string pyval :=
  fold_left (fun a kv => <[fst kv := snd kv]> a) kvs attributes.

(** *** Span nodes

    [_Span] objects are shared: the open-span registry, the export queue,
    its queue items and child spans all refer to the same object.  They
    therefore live in a store indexed by reference, and every other
    structure holds references. *)

Definition ref := nat.

Record _Span := {
  id_ : string;
  _otel_span : otel_span;
  _attributes : gmap string pyval;
  _active : bool;
  _span_kind : option string;
  _parent : option ref;
  _first_token_timestamp : option Z;
  _end_time : option Z;
  _last_updated_at : Q;
  _list_attr_len : gmap string nat;
}.

(** [_Span.__init__]; [is_recording] is [otel_span.is_recording()] and
    [now] the reading of [time()]. *)
Definition new_Span (otel : otel_span) (is_recording : bool)
    (span_kind : option string) (parent : option ref) (id : string) (now : Q)
    : _Span :=
  {| id_ := id; _otel_span := otel; _attributes := ∅;
     _active := is_recording; _span_kind := span_kind; _parent := parent;
     _first_token_timestamp := None; _end_time := None;
     _last_updated_at := now; _list_attr_len := ∅ |}.

(** [self._span_kind or CHAIN]. *)
Definition span_kind_or_chain (k : option string) : string :=
  match k with
  | Some s => if String.eqb s "" then CHAIN else s
  | None => CHAIN
  end.

(** The body of [_Span.end] past its guard: [self._active = False] and
    the calls on the backend handle. *)
Definition end_commit (exception : option BaseException) (self : _Span) : _Span :=
  let '(recorded, status) :=
    match exception with
    | None => ([], {| status_code := OK; description := None |})
    | Some e =>
        ([RecordException e],
         {| status_code := ERROR;
            description := Some (type_name e +:+ ": " +:+ message e) |})
    end in
  let attributes :=
    <[OPENINFERENCE_SPAN_KIND := PStr (span_kind_or_chain (_span_kind self))]>
      (_attributes self) in
  {| id_ := id_ self;
     _otel_span :=
       _otel_span self ++ recorded
         ++ [SetStatus status; SetAttributes attributes; End (_end_time self)];
     _attributes := attributes;
     _active := false;
     _span_kind := _span_kind self;
     _parent := _parent self;
     _first_token_timestamp := _first_token_timestamp self;
     _end_time := _end_time self;
     _last_updated_at := _last_updated_at self;
     _list_attr_len := _list_attr_len self |}.

(** [_Span.end]: the guard [if not self._active: return], then the
    body. *)
Definition end_ (exception : option BaseException) (self : _Span) : _Span :=
  if negb (_active self) then self else end_commit exception self.

(** [bool(self._end_time)]. *)
Definition has_end_time (self : _Span) : bool :=
  match _end_time self with
  | Some n => negb (n =? 0)%Z
  | None => false
  end.

Definition waiting_for_streaming (self : _Span) : bool :=
  _active self && has_end_time self.

Definition active (self : _Span) : bool := _active self.

Definition set_last_updated_at (now : Q) (self : _Span) : _Span :=
  {| id_ := id_ self; _otel_span := _otel_span self;
     _attributes := _attributes self; _active := _active self;
     _span_kind := _span_kind self; _parent := _parent self;
     _first_token_timestamp := _first_token_timestamp self;
     _end_time := _end_time self; _last_updated_at := now;
     _list_attr_len := _list_attr_len self |}.

Definition set_end_time (now_ns : Z) (self : _Span) : _Span :=
  {| id_ := id_ self; _otel_span := _otel_span self;
     _attributes := _attributes self; _active := _active self;
     _span_kind := _span_kind self; _parent := _parent self;
     _first_token_timestamp := _first_token_timestamp self;
     _end_time := Some now_ns; _last_updated_at := _last_updated_at self;
     _list_attr_len := _list_attr_len self |}.

(** The first-token marker of [process_event]. *)
Definition mark_first_token (now_ns : Z) (self : _Span) : _Span :=
  match _first_token_timestamp self with
  | Some _ => self
  | None =>
      {| id_ := id_ self;
         _otel_span :=
           _otel_span self ++ [AddEvent "First Token Stream Event" [] (Some now_ns)];
         _attributes := _attributes self; _active := _active self;
         _span_kind := _span_kind self; _parent := _parent self;
         _first_token_timestamp := Some now_ns;
         _end_time := _end_time self;
         _last_updated_at := _last_updated_at self;
     _list_attr_len := _list_attr_len self |}
  end.

(** The span after its attribute map and its span kind were set. *)
Definition set_extracted (attributes : gmap string pyval)
    (span_kind : option string) (self : _Span) : _Span :=
  {| id_ := id_ self; _otel_span := _otel_span self;
     _attributes := attributes; _active := _active self;
     _span_kind := span_kind; _parent := _parent self;
     _first_token_timestamp := _first_token_timestamp self;
     _end_time := _end_time self;
     _last_updated_at := _last_updated_at self;
     _list_attr_len := _list_attr_len self |}.

(** *** Events *)

(** The event classes [process_event] tells apart. *)
Inductive event_class :=
| StreamingFinished   (* STREAMING_FINISHED_EVENTS *)
| StreamingInProgress (* STREAMING_IN_PROGRESS_EVENTS *)
| ExceptionEventClass (* ExceptionEvent *)
| OtherEvent.

Record BaseEvent := {
  span_id : option string;
  event_id : string;
  class : event_class;
  qualname : string;
  exception : option BaseException;
  payload : pyval;
}.

(** [bool(event.span_id)]. *)
Definition has_span_id (event : BaseEvent) : bool := present (span_id event).

Inductive _StreamingStatus := FINISHED | IN_PROGRESS.

(** The [RecursionError] the interpreter raises when calls nest deeper
    than its limit. *)
Definition RecursionError : BaseException :=
  {| type_name := "RecursionError";
     bases := ["RuntimeError"; "Exception"; "BaseException"; "object"];
     message := "maximum recursion depth exceeded";
     repr := "RecursionError('maximum recursion depth exceeded')" |}.

(** *** The export queue and the handlers *)

Record _QueueItem := {
  last_touched_at : Q;
  span : ref;
}.

(** [queue] holds the [SimpleQueue], head first; [None] is
    [END_OF_QUEUE]. *)
Record _ExportQueue := {
  spans : gmap string ref;
  queue : list (option _QueueItem);
}.

(** What the module logger receives. *)
Inductive log_record :=
| WarnOpenSpanMissing (id : string)
    (* logger.warning("Open span is missing for ...") *)
| WarnUnhandledEvent (event_qualname : string)
    (* logger.warning("Unhandled event of type ...") *)
| ErrorProcessingEvent (event_qualname : string).
    (* logger.exception("Error processing event of type ...") *)

(** What a rule of [_process_event] leaves behind.  The rules assign to
    [self._attributes], [self._span_kind] and [self._list_attr_len];
    the rule of [StreamChatErrorEvent] calls [self.record_exception],
    which hands the exception to the backend handle; the default rule
    logs a warning; and a rule may raise. *)
Record extraction := {
  new_attributes : gmap string pyval;
  new_span_kind : option string;
  new_list_attr_len : gmap string nat;
  recorded : list BaseException;
  warnings : list log_record;
  raised : option BaseException;
}.

(** The span after a rule has run on it. *)
Definition extracted (x : extraction) (self : _Span) : _Span :=
  {| id_ := id_ self;
     _otel_span := _otel_span self ++ map RecordException (recorded x);
     _attributes := new_attributes x; _active := _active self;
     _span_kind := new_span_kind x; _parent := _parent self;
     _first_token_timestamp := _first_token_timestamp self;
     _end_time := _end_time self;
     _last_updated_at := _last_updated_at self;
     _list_attr_len := new_list_attr_len x |}.

(** The span handler with the store of span objects and the log. *)
Record handler := {
  store : gmap ref _Span;
  open_spans : gmap string ref;
  _export_queue : _ExportQueue;
  logged : list log_record;
}.

Definition with_store (st : gmap ref _Span) (h : handler) : handler :=
  {| store := st; open_spans := open_spans h;
     _export_queue := _export_queue h; logged := logged h |}.

Definition with_export_queue (q : _ExportQueue) (h : handler) : handler :=
  {| store := store h; open_spans := open_spans h;
     _export_queue := q; logged := logged h |}.

Definition log_messages (msgs : list log_record) (h : handler) : handler :=
  {| store := store h; open_spans := open_spans h;
     _export_queue := _export_queue h; logged := logged h ++ msgs |}.

Definition log_message (msg : log_record) (h : handler) : handler :=
  log_messages [msg] h.

(** [_ExportQueue.put]. *)
Definition put (now : Q) (r : ref) (id : string) (q : _ExportQueue)
    : _ExportQueue :=
  {| spans := <[id := r]> (spans q);
     queue := queue q ++ [Some {| last_touched_at := now; span := r |}] |}.

(** [_ExportQueue.find]. *)
Definition find (id : string) (q : _ExportQueue) : option ref := spans q !! id.

(** [_ExportQueue._del]: [None] is the [KeyError] of deleting an absent
    key. *)
Definition _del (id : string) (sp : gmap string ref) : option (gmap string ref) :=
  match sp !! id with
  | Some _ => Some (delete id sp)
  | None => None
  end.

Section Lifecycle.

(** How many nested calls the interpreter still allows when
    [notify_parent] is entered. *)
Variable recursion_limit : nat.

(** The rule that [_process_event] dispatches to, run on the event and
    the span. *)
Variable _process_event : BaseEvent -> _Span -> extraction.

(** [_Span.notify_parent], [self] being the notifying span.  A reference
    always denotes a live object, so the lookups cannot fail. *)
Fixpoint notify_parent (depth : nat) (status : _StreamingStatus) (now : Q)
    (self : ref) (st : gmap ref _Span) : gmap ref _Span * option BaseException :=
  match depth with
  | O => (st, Some RecursionError)
  | S depth' =>
      match st !! self with
      | None => (st, None)
      | Some s =>
          match _parent s with
          | None => (st, None)
          | Some p =>
              match st !! p with
              | None => (st, None)
              | Some parent =>
                  if negb (waiting_for_streaming parent) then (st, None)
                  else
                    let parent' :=
                      match status with
                      | IN_PROGRESS => set_last_updated_at now parent
                      | FINISHED => end_ None parent
                      end in
                    notify_parent depth' status now p (<[p := parent']> st)
              end
          end
      end
  end.

(** [_Span.process_event]: the new store and the exception raised. *)
Definition process_event (event : BaseEvent) (now : Q) (now_ns : Z)
    (self : ref) (st : gmap ref _Span) : gmap ref _Span * option BaseException :=
  match st !! self with
  | None => (st, None)
  | Some s =>
      let x := _process_event event s in
      let s1 := extracted x s in
      let st1 := <[self := s1]> st in
      match raised x with
      | Some e => (st1, Some e)
      | None =>
          if negb (waiting_for_streaming s1) then (st1, None)
          else
            match class event with
            | StreamingFinished =>
                notify_parent recursion_limit FINISHED now self
                  (<[self := end_ None s1]> st1)
            | StreamingInProgress =>
                notify_parent recursion_limit IN_PROGRESS now self
                  (<[self := set_last_updated_at now (mark_first_token now_ns s1)]> st1)
            | ExceptionEventClass =>
                notify_parent recursion_limit FINISHED now self
                  (<[self := end_ (exception event) s1]> st1)
            | OtherEvent => (st1, None)
            end
      end
  end.

(** What [_Span.process_event] sends to the logger: the warnings of the
    rule. *)
Definition process_event_log (event : BaseEvent) (self : ref)
    (st : gmap ref _Span) : list log_record :=
  match st !! self with
  | None => []
  | Some s => warnings (_process_event event s)
  end.

(** How a call into the handler comes back to the host. *)
Inductive handled :=
| Returned (value : option BaseEvent)
| Propagated (e : BaseException).

(** [EventHandler.handle]. *)
Definition handle (suppressed : bool) (event : BaseEvent) (now : Q) (now_ns : Z)
    (h : handler) : handler * handled :=
  if suppressed then (h, Returned None)
  else if negb (has_span_id event) then (h, Returned (Some event))
  else
    let id := text_of (span_id event) in
    let found :=
      match open_spans h !! id with
      | Some r => Some r
      | None => find id (_export_queue h)
      end in
    match found with
    | None => (log_message (WarnOpenSpanMissing id) h, Returned (Some event))
    | Some r =>
        let '(st, raised) := process_event event now now_ns r (store h) in
        let h1 := log_messages (process_event_log event r (store h)) (with_store st h) in
        match raised with
        | None => (h1, Returned (Some event))
        | Some e =>
            if isinstance e "Exception" then
              (log_message (ErrorProcessingEvent (qualname event)) h1,
               Returned (Some event))
            else (h1, Propagated e)
        end
    end.

(** The arguments of [prepare_to_exit_span] the handler looks at:
    whether [instance] is a [BaseLLM] or [MultiModalLLM], whether
    [result] is a generator with a live frame, and the effect of
    [span.process_output(instance, result)] on the attribute map. *)
Record exit_call := {
  instance_is_llm : bool;
  result_is_live_stream : bool;
  process_output :
    gmap string pyval -> gmap string pyval * option BaseException;
}.

(** [_SpanHandler.prepare_to_exit_span]: the handler, the returned span
    and the exception raised. *)
Definition prepare_to_exit_span (suppressed : bool) (id : string)
    (call : exit_call) (now : Q) (now_ns : Z) (h : handler)
    : handler * option ref * option BaseException :=
  if suppressed then (h, None, None)
  else
    match open_spans h !! id with
    | None => (log_message (WarnOpenSpanMissing id) h, None, None)
    | Some r =>
        match store h !! r with
        | None => (h, Some r, None)
        | Some s =>
            if instance_is_llm call && result_is_live_stream call then
              let s' := set_end_time now_ns s in
              (with_export_queue (put now r (id_ s') (_export_queue h))
                 (with_store (<[r := s']> (store h)) h),
               Some r, None)
            else
              let '(attributes, raised) := process_output call (_attributes s) in
              let s1 := set_extracted attributes (_span_kind s) s in
              match raised with
              | Some e => (with_store (<[r := s1]> (store h)) h, None, Some e)
              | None =>
                  (with_store (<[r := end_ None s1]> (store h)) h, Some r, None)
              end
        end
    end.

(** [_SpanHandler.prepare_to_drop_span]. *)
Definition prepare_to_drop_span (suppressed : bool) (id : string)
    (err : option BaseException) (h : handler) : handler * option ref :=
  if suppressed then (h, None)
  else
    match open_spans h !! id with
    | None => (log_message (WarnOpenSpanMissing id) h, None)
    | Some r =>
        match store h !! r with
        | None => (h, Some r)
        | Some s =>
            match err with
            | Some e =>
                if isinstance e "WorkflowDone" then
                  (with_store (<[r := end_ None s]> (store h)) h, Some r)
                else (with_store (<[r := end_ err s]> (store h)) h, Some r)
            | None => (with_store (<[r := end_ err s]> (store h)) h, Some r)
            end
        end
    end.

End Lifecycle.

(** *** The sweep thread

    [_sweep] runs on a daemon thread of its own, next to the threads of
    the host.  Its state is the place it has reached, with its local
    variables [t] and [item]; one step is what it does up to and
    including its next access to the shared objects (the queue, the
    [spans] table, a span), which is where another thread can come in
    between.  Only this thread takes items off the queue, so [q.empty()]
    and the [q.get()] that follows are one step. *)
Inductive sweeper :=
| AtClock
    (* before [t = time()] *)
| AtQueue (t : Q)
    (* before [q.empty()] and [q.get()] *)
| AtPutBack (t : Q) (item : _QueueItem)
    (* [t == item.last_touched_at]: before [q.put(item)] and [break] *)
| AtActive (t : Q) (item : _QueueItem)
    (* before [span.active] *)
| AtAge (t : Q) (item : _QueueItem)
    (* before [t - span._last_updated_at > 60] *)
| AtEnd (t : Q) (item : _QueueItem)
    (* in [span.end()], before [if not self._active] *)
| InEnd (t : Q) (item : _QueueItem)
    (* in [span.end()], past the guard *)
| AtDel (t : Q) (item : _QueueItem)
    (* before [self._del(item)] *)
| AtPut (t : Q) (item : _QueueItem)
    (* [item.last_touched_at = t] done: before [q.put(item)] *)
| Finished
    (* [END_OF_QUEUE] was read: [return] *)
| Died.
    (* an exception ended the thread *)

Definition touch (t : Q) (item : _QueueItem) : _QueueItem :=
  {| last_touched_at := t; span := span item |}.

(** [t - span._last_updated_at > 60]. *)
Definition timed_out (t : Q) (s : _Span) : bool :=
  negb (Qle_bool (t - _last_updated_at s) 60).

Definition with_queue (q : list (option _QueueItem)) (h : handler) : handler :=
  with_export_queue {| spans := spans (_export_queue h); queue := q |} h.

Definition with_spans (sp : gmap string ref) (h : handler) : handler :=
  with_export_queue {| spans := sp; queue := queue (_export_queue h) |} h.

(** One step of the sweep thread; [clock] is what [time()] returns if
    the step reads it. *)
Definition sweeper_step (clock : Q) (pc : sweeper) (h : handler)
    : sweeper * handler :=
  match pc with
  | AtClock => (AtQueue clock, h)
  | AtQueue t =>
      match queue (_export_queue h) with
      | [] => (AtClock, h)
      | None :: rest => (Finished, with_queue rest h)
      | Some item :: rest =>
          (if Qeq_bool t (last_touched_at item) then AtPutBack t item
           else AtActive t item,
           with_queue rest h)
      end
  | AtPutBack t item =>
      (AtClock, with_queue (queue (_export_queue h) ++ [Some item]) h)
  | AtActive t item =>
      match store h !! span item with
      | None => (Died, h)
      | Some s => (if negb (active s) then AtDel t item else AtAge t item, h)
      end
  | AtAge t item =>
      match store h !! span item with
      | None => (Died, h)
      | Some s =>
          (if timed_out t s then AtEnd t item else AtPut t (touch t item), h)
      end
  | AtEnd t item =>
      match store h !! span item with
      | None => (Died, h)
      | Some s => (if negb (_active s) then AtDel t item else InEnd t item, h)
      end
  | InEnd t item =>
      match store h !! span item with
      | None => (Died, h)
      | Some s =>
          (AtDel t item,
           with_store (<[span item := end_commit None s]> (store h)) h)
      end
  | AtDel t item =>
      match store h !! span item with
      | None => (Died, h)
      | Some s =>
          match _del (id_ s) (spans (_export_queue h)) with
          | None => (Died, h)
          | Some sp => (AtQueue t, with_spans sp h)
          end
      end
  | AtPut t item =>
      (AtQueue t, with_queue (queue (_export_queue h) ++ [Some item]) h)
  | Finished => (Finished, h)
  | Died => (Died, h)
  end.

End LlamaIndex.

(** ** LiteLLM instrumentor ([litellm/__init__.py]) *)

Module LiteLLM.
Import Py Semconv Otel.

Definition KEYS_TO_REDACT : list string := ["api_key"; "messages"].

(** [safe_json_dumps] of the instrumentation package (outside the
    sources): the JSON encoder of the specification, which on the values
    of the model is [json.dumps] without ASCII escaping. *)
Definition safe_json_dumps (obj : pyval) : string := json_dumps obj.

(** [_set_span_attribute]: the call it makes on the span, if any. *)
Definition _set_span_attribute (name : string) (value : pyval) : gen otel_call :=
  match value with
  | PNone => gret
  | PStr "" => gret
  | _ => gyield (SetAttribute name value)
  end.

(** [for key, value in g: _set_span_attribute(span, f key, value)]. *)
Definition set_each (f : string -> string) (g : gen (string * pyval))
    : gen otel_call :=
  (flat_map (fun kv => fst (_set_span_attribute (f (fst kv)) (snd kv))) (fst g),
   snd g).

(** [image = dict(image); if url := image.pop("url"): yield ...]. *)
Definition _get_attributes_from_image (image : pyval) : gen (string * pyval) :=
  match py_dict image with
  | Some d =>
      if dict_mem d "url" then
        let url := dict_get d "url" in
        if truthy url then gyield (IMAGE_URL, url) else gret
      else graise
  | None => graise
  end.

(** [content = dict(content); type_ = content.pop("type"); ...]: a
    missing key is the [KeyError] of [pop]. *)
Definition _get_attributes_from_message_content (content : pyval)
    : gen (string * pyval) :=
  match py_dict content with
  | Some d =>
      if negb (dict_mem d "type") then graise
      else
        match dict_get d "type" with
        | PStr "text" =>
            gseq (gyield (MESSAGE_CONTENT_TYPE, PStr "text"))
              (if negb (dict_mem d "text") then graise
               else
                 let text := dict_get d "text" in
                 if truthy text then gyield (MESSAGE_CONTENT_TEXT, text)
                 else gret)
        | PStr "image_url" =>
            gseq (gyield (MESSAGE_CONTENT_TYPE, PStr "image"))
              (if negb (dict_mem d "image_url") then graise
               else
                 let image := dict_get d "image_url" in
                 if truthy image then
                   gmap_keys (fun key => MESSAGE_CONTENT_IMAGE +:+ "." +:+ key)
                     (_get_attributes_from_image image)
                 else gret)
        | _ => gret
        end
  | None => graise
  end.

(** [is_iterable_of(content, dict)] for a truthy, non-string [content]. *)
Definition is_list_of_dicts (v : pyval) : bool :=
  match v with
  | PList l => forallb has_get l
  | _ => false
  end.

(** The items a [for] loop over [v] visits; [None] when [v] is not
    iterable. *)
Definition py_iter (v : pyval) : option (list pyval) :=
  match v with
  | PList l => Some l
  | PDict d => Some (map (fun kv => PStr (fst kv)) d)
  | PStr s => Some (map PStr (chars s))
  | _ => None
  end.

Definition tool_call_attributes (entry : nat * pyval) : gen (string * pyval) :=
  let '(tool_call_index, tool_call) := entry in
  match tool_call with
  | PDict tc =>
      let function := dict_get tc "function" in
      if truthy function then
        match function with
        | PDict f =>
            let function_name := dict_get f "name" in
            let function_arguments := dict_get f "arguments" in
            gseq
              (if truthy function_name then
                 gyield (MESSAGE_TOOL_CALLS +:+ "." +:+ str_nat tool_call_index
                         +:+ "." +:+ TOOL_CALL_FUNCTION_NAME, function_name)
               else gret)
              (if truthy function_arguments then
                 gyield (MESSAGE_TOOL_CALLS +:+ "." +:+ str_nat tool_call_index
                         +:+ "." +:+ TOOL_CALL_FUNCTION_ARGUMENTS_JSON,
                         function_arguments)
               else gret)
        | _ => graise
        end
      else gret
  | _ => graise
  end.

Definition _get_attributes_from_message_param (message : pyval)
    : gen (string * pyval) :=
  match message with
  | PDict m =>
      let role := dict_get m "role" in
      let content := dict_get m "content" in
      let tool_calls := dict_get m "tool_calls" in
      gseq (if truthy role then gyield (MESSAGE_ROLE, role) else gret)
      (gseq
         (if truthy content then
            match content with
            | PStr _ => gyield (MESSAGE_CONTENT, content)
            | _ =>
                if is_list_of_dicts content then
                  match content with
                  | PList l =>
                      gfor
                        (fun ic : nat * pyval =>
                           gmap_keys
                             (fun key =>
                                MESSAGE_CONTENTS +:+ "." +:+ str_nat (fst ic)
                                +:+ "." +:+ key)
                             (_get_attributes_from_message_content (snd ic)))
                        (enumerate l)
                  | _ => gret
                  end
                else gret
            end
          else gret)
         (if truthy tool_calls then
            match py_iter tool_calls with
            | Some calls => gfor tool_call_attributes (enumerate calls)
            | None => gret
            end
          else gret))
  | _ => gret
  end.

(** [{k: v for k, v in kwargs.items() if k not in KEYS_TO_REDACT}]. *)
Definition invocation_params (kwargs : list (string * pyval))
    : list (string * pyval) :=
  List.filter (fun kv => negb (existsb (String.eqb (fst kv)) KEYS_TO_REDACT)) kwargs.

(** [_instrument_func_type_completion]: the calls made on the span, and
    whether the function returned ([true]) or raised ([false]). *)
Definition _instrument_func_type_completion (kwargs : list (string * pyval))
    : gen otel_call :=
  let messages := dict_get kwargs "messages" in
  let tools := dict_get kwargs "tools" in
  gseq (_set_span_attribute OPENINFERENCE_SPAN_KIND (PStr LLM))
  (gseq (_set_span_attribute LLM_MODEL_NAME
           (dict_get_default kwargs "model" (PStr "unknown_model")))
  (gseq
     (if truthy messages then
        match py_iter messages with
        | None => graise
        | Some messages_as_dicts =>
            gseq
              (gfor
                 (fun im : nat * pyval =>
                    set_each
                      (fun key =>
                         LLM_INPUT_MESSAGES +:+ "." +:+ str_nat (fst im) +:+ "."
                         +:+ key)
                      (_get_attributes_from_message_param (snd im)))
                 (enumerate messages_as_dicts))
              (match messages_as_dicts with
               | [] => gret
               | _ =>
                   gseq
                     (_set_span_attribute INPUT_VALUE
                        (PStr (safe_json_dumps
                                 (PDict [("messages", PList messages_as_dicts)]))))
                     (_set_span_attribute INPUT_MIME_TYPE (PStr "application/json"))
               end)
        end
      else gret)
  (gseq
     (_set_span_attribute LLM_INVOCATION_PARAMETERS
        (PStr (safe_json_dumps (PDict (invocation_params kwargs)))))
     (if truthy tools then
        match tools with
        | PList l =>
            gfor
              (fun it : nat * pyval =>
                 _set_span_attribute
                   (LLM_TOOLS +:+ "." +:+ str_nat (fst it) +:+ "." +:+ TOOL_JSON_SCHEMA)
                   (PStr (safe_json_dumps (snd it))))
              (enumerate l)
        | _ => gret
        end
      else gret)))).

(** [span.attributes] after the calls: the last value set for a name. *)
Fixpoint attribute (name : string) (calls : list otel_call) : option pyval :=
  match calls with
  | [] => None
  | c :: calls' =>
      match attribute name calls' with
      | Some v => Some v
      | None =>
          match c with
          | SetAttribute k v => if String.eqb k name then Some v else None
          | _ => None
          end
      end
  end.

(** *** Installing and removing the wrappers *)

(** A function object: one that the [litellm] module defines, or a bound
    wrapper method of the instrumentor. *)
Inductive callable :=
| LibraryFunction (id : nat)
| WrapperMethod (method : string).

Definition functions_to_instrument : list (string * callable) :=
  [ ("completion", WrapperMethod "_completion_wrapper");
    ("acompletion", WrapperMethod "_acompletion_wrapper");
    ("completion_with_retries", WrapperMethod "_completion_with_retries_wrapper");
    ("embedding", WrapperMethod "_embedding_wrapper");
    ("aembedding", WrapperMethod "_aembedding_wrapper");
    ("image_generation", WrapperMethod "_image_generation_wrapper");
    ("aimage_generation", WrapperMethod "_aimage_generation_wrapper") ].

(** The attributes of the [litellm] module and the class-level registry
    [original_litellm_funcs]. *)
Record patch_state := {
  litellm : gmap string callable;
  original_litellm_funcs : gmap string callable;
}.

(** One round of the loop of [_instrument] ([_set_wrapper_attr] only
    marks the wrapper object and changes neither table). *)
Definition instrument_one (st : patch_state) (entry : string * callable)
    : patch_state :=
  let '(func_name, func_wrapper) := entry in
  match litellm st !! func_name with
  | Some original_func =>
      {| litellm := <[func_name := func_wrapper]> (litellm st);
         original_litellm_funcs :=
           <[func_name := original_func]> (original_litellm_funcs st) |}
  | None => st
  end.

Definition _instrument (st : patch_state) : patch_state :=
  fold_left instrument_one functions_to_instrument st.

Definition _uninstrument (st : patch_state) : patch_state :=
  {| litellm :=
       map_fold (fun func_name original_func m => <[func_name := original_func]> m)
         (litellm st) (original_litellm_funcs st);
     original_litellm_funcs := ∅ |}.

(** The part of [_instrument_func_type_completion] that handles the
    messages. *)
Definition messages_part (kwargs : list (string * pyval)) : gen otel_call :=
  let messages := dict_get kwargs "messages" in
  if truthy messages then
    match py_iter messages with
    | None => graise
    | Some messages_as_dicts =>
        gseq
          (gfor
             (fun im : nat * pyval =>
                set_each
                  (fun key =>
                     LLM_INPUT_MESSAGES +:+ "." +:+ str_nat (fst im) +:+ "."
                     +:+ key)
                  (_get_attributes_from_message_param (snd im)))
             (enumerate messages_as_dicts))
          (match messages_as_dicts with
           | [] => gret
           | _ =>
               gseq
                 (_set_span_attribute INPUT_VALUE
                    (PStr (safe_json_dumps
                             (PDict [("messages", PList messages_as_dicts)]))))
                 (_set_span_attribute INPUT_MIME_TYPE (PStr "application/json"))
           end)
    end
  else gret.

(** The part that records the tool schemas. *)
Definition tools_part (kwargs : list (string * pyval)) : gen otel_call :=
  let tools := dict_get kwargs "tools" in
  if truthy tools then
    match tools with
    | PList l =>
        gfor
          (fun it : nat * pyval =>
             _set_span_attribute
               (LLM_TOOLS +:+ "." +:+ str_nat (fst it) +:+ "." +:+ TOOL_JSON_SCHEMA)
               (PStr (safe_json_dumps (snd it))))
          (enumerate l)
    | _ => gret
    end
  else gret.

(** A call that does not set the invocation parameters. *)
Definition other_call (c : otel_call) : Prop :=
  match c with
  | SetAttribute k _ => k <> LLM_INVOCATION_PARAMETERS
  | _ => True
  end.

(** A [litellm] module that defines two of the seven functions and one
    function the instrumentor does not touch; the registry is empty. *)
Definition sample_module : patch_state :=
  {| litellm :=
       {[ "completion" := LibraryFunction 1;
          "embedding" := LibraryFunction 2;
          "token_counter" := LibraryFunction 3 ]};
     original_litellm_funcs := ∅ |}.

(** Completion arguments in which the key also travels in a header. *)
Definition kwargs_with_header : list (string * pyval) :=
  [ ("model", PStr "gpt-4");
    ("api_key", PStr "sk-123");
    ("messages", PList [PDict [("role", PStr "user"); ("content", PStr "hi")]]);
    ("extra_headers", PDict [("Authorization", PStr "Bearer sk-123")]) ].

(** Completion arguments whose only entry is a message with an image,
    the image given as a list of pairs. *)
Definition kwargs_with_image : list (string * pyval) :=
  [ ("messages",
     PList [PDict [("role", PStr "user");
                   ("content",
                    PList [PDict [("type", PStr "image_url");
                                  ("image_url",
                                   PList [PList [PStr "url";
                                                 PStr "https://example.org/cat.png"]])]])]]) ].

End LiteLLM.

(** ** Vocabulary of the statements *)

Module Statements.
Import Py Semconv Otel.

(** A value that encodes to a JSON object or array. *)
Definition is_container (v : pyval) : bool :=
  match v with PList _ | PDict _ => true | _ => false end.

(** What [_convert_io] encodes for a record with the single field
    [key]: the field's value under the keys "input" and "output", the
    whole record under any other key. *)
Definition encoded_subject (key : string) (value : pyval) : pyval :=
  if String.eqb key "input" || String.eqb key "output" then value
  else PDict [(key, value)].

(** The keys of the yielded items. *)
Definition keys {V} (g : gen (string * V)) : list string := map fst (fst g).

(** A LangChain key of the indexed content list. *)
Definition is_indexed_content_key (k : string) : Prop :=
  exists rest, k = MESSAGE_CONTENTS +:+ "." +:+ rest.





(** The calls a span handle received after [before]. *)
Definition calls_since (before after : otel_span) (delta : otel_span) : Prop :=
  after = before ++ delta.

(** A call that sets the attribute [name]. *)
Definition sets (name : string) (c : otel_call) : bool :=
  match c with
  | SetAttribute k _ => String.eqb k name
  | _ => false
  end.

(** The [.value] strings of the two enumerations as the conventions
    package declares them. *)
(** A lower-casing for the examples: [A]-[Z] go to [a]-[z], which is
    what [str.lower] does to ASCII text. *)
Definition lower_ascii (c : ascii) : ascii :=
  let n := nat_of_ascii c in
  if (65 <=? n)%nat && (n <=? 90)%nat then ascii_of_nat (n + 32) else c.

Fixpoint ascii_lower (s : string) : string :=
  match s with
  | EmptyString => EmptyString
  | String c s' => String (lower_ascii c) (ascii_lower s')
  end.

Definition lowercase_provider (e : OpenInferenceLLMProviderValues) : string :=
  match e with
  | PROV_OPENAI => "openai" | PROV_ANTHROPIC => "anthropic"
  | PROV_COHERE => "cohere" | PROV_MISTRALAI => "mistralai"
  | PROV_GOOGLE => "google" | PROV_AZURE => "azure" | PROV_AWS => "aws"
  | PROV_XAI => "xai" | PROV_DEEPSEEK => "deepseek"
  end.

Definition lowercase_system (e : OpenInferenceLLMSystemValues) : string :=
  match e with
  | SYS_OPENAI => "openai" | SYS_ANTHROPIC => "anthropic"
  | SYS_COHERE => "cohere" | SYS_MISTRALAI => "mistralai"
  | SYS_VERTEXAI => "vertexai"
  end.

(** The usage keys of the OpenAI and VertexAI shapes and the Anthropic
    completion key: absent from a payload of the Anthropic prompt shape. *)
Definition other_vendor_keys : list string :=
  [ "prompt_tokens"; "prompt_tokens_details"; "completion_tokens";
    "completion_tokens_details"; "total_tokens"; "output_tokens";
    "prompt_token_count"; "candidates_token_count"; "total_token_count" ].

(** The Anthropic usage payload of the specification. *)
Definition anthropic_usage : pyval :=
  PDict [ ("input_tokens", PInt 10);
          ("cache_creation_input_tokens", PInt 2);
          ("cache_read_input_tokens", PInt 3) ].





(** The error text of a LangChain run starts with one of the ignored
    patterns. *)
Definition ignored (err : string) : bool :=
  startswith "Command(" err || startswith "ParentCommand(" err.

(** Sample errors: an ordinary failure, the LangGraph control-flow
    signal, and the LlamaIndex workflow-cancelled signal. *)
Definition value_error : BaseException :=
  {| type_name := "ValueError";
     bases := ["Exception"; "BaseException"; "object"];
     message := "boom";
     repr := "ValueError('boom')" |}.

Definition parent_command : BaseException :=
  {| type_name := "ParentCommand";
     bases := ["GraphBubbleUp"; "Exception"; "BaseException"; "object"];
     message := "Command(goto='next')";
     repr := "ParentCommand(Command(goto='next'))" |}.

(** An interrupt of the host process: a [BaseException] that is not an
    [Exception]. *)
Definition keyboard_interrupt : BaseException :=
  {| type_name := "KeyboardInterrupt";
     bases := ["BaseException"; "object"];
     message := "";
     repr := "KeyboardInterrupt()" |}.

Definition workflow_done : BaseException :=
  {| type_name := "WorkflowDone";
     bases := ["Exception"; "BaseException"; "object"];
     message := "";
     repr := "WorkflowDone()" |}.

(** A LangChain run that failed with [err] as its error text, and a
    tracer holding the untouched handle of that run. *)
Definition failed_run (err : string) : LangChain.Run :=
  {| LangChain.run_id := "run-1"; LangChain.name := "RunnableSequence";
     LangChain.run_type := "chain"; LangChain.error := Some err;
     LangChain.inputs := PNone; LangChain.outputs := PNone;
     LangChain.extra := PNone; LangChain.end_time := None |}.

Definition one_run_tracer : LangChain.tracer :=
  {| LangChain.run_map := ∅;
     LangChain._spans_by_run := {[ "run-1" := [] ]};
     LangChain.ended := []; LangChain.logged := [] |}.

(** No attribute is extracted. *)
Definition no_attributes (run : LangChain.Run)
    : list (gmap string pyval) * bool := ([], true).

(** A LlamaIndex handler with one open, active span. *)
Definition open_span : LlamaIndex._Span :=
  LlamaIndex.new_Span [] true None None "query-1" 0.

Definition one_span_handler : LlamaIndex.handler :=
  {| LlamaIndex.store := {[ 0%nat := open_span ]};
     LlamaIndex.open_spans := {[ "query-1" := 0%nat ]};
     LlamaIndex._export_queue :=
       {| LlamaIndex.spans := ∅; LlamaIndex.queue := [] |};
     LlamaIndex.logged := [] |}.

End Statements.

(** ** Runs of the LlamaIndex handler *)

Module LlamaIndexRuns.
Import Py Semconv Otel LlamaIndex.

(** *** The threads

    The threads of the host and the sweep thread share the handler.  A
    run is a sequence of moves: the sweep thread takes one step, or a
    host thread changes the handler (by a whole call of the handler's
    interface, or by any part of one). *)
Inductive move :=
| Host (f : handler -> handler)
| Sweep (clock : Q).

Definition config : Type := sweeper * handler.

Definition play (m : move) (c : config) : config :=
  match m with
  | Host f => (fst c, f (snd c))
  | Sweep clock => sweeper_step clock (fst c) (snd c)
  end.

Definition plays (ms : list move) (c : config) : config :=
  fold_left (fun c m => play m c) ms c.



(** *** Vocabulary of the lifecycle *)

(** The [end] calls a span's backend handle has received. *)
Definition exports (s : _Span) : list otel_call := end_calls (_otel_span s).

(** A rule that changes nothing, and a rule that raises [e]. *)
Definition unchanged (raised : option BaseException) (s : _Span) : extraction :=
  {| new_attributes := _attributes s; new_span_kind := _span_kind s;
     new_list_attr_len := _list_attr_len s; recorded := []; warnings := [];
     raised := raised |}.

Definition no_extraction (event : BaseEvent) (s : _Span) : extraction :=
  unchanged None s.

Definition failing_extraction (event : BaseEvent) (s : _Span) : extraction :=
  unchanged (Some Statements.value_error) s.

Definition interrupted_extraction (event : BaseEvent) (s : _Span) : extraction :=
  unchanged (Some Statements.keyboard_interrupt) s.

(** The default rule: a warning and nothing else. *)
Definition unhandled_event (event : BaseEvent) (s : _Span) : extraction :=
  {| new_attributes := _attributes s; new_span_kind := _span_kind s;
     new_list_attr_len := _list_attr_len s; recorded := [];
     warnings := [WarnUnhandledEvent (qualname event)]; raised := None |}.

(** A chat-start event of the span [id]. *)
Definition sample_event (id : string) : BaseEvent :=
  {| span_id := Some id; event_id := "event-1"; class := OtherEvent;
     qualname := "LLMChatStartEvent"; exception := None; payload := PNone |}.

(** The event that ends the stream of the span [id]. *)
Definition chat_end_event (id : string) : BaseEvent :=
  {| span_id := Some id; event_id := "event-2"; class := StreamingFinished;
     qualname := "LLMChatEndEvent"; exception := None; payload := PNone |}.

(** A span waiting for its stream, last active at time 0, in the export
    queue since time 1. *)
Definition streaming_span : _Span := set_end_time 5 Statements.open_span.

Definition queued_handler : handler :=
  {| store := {[ 0%nat := streaming_span ]};
     open_spans := ∅;
     _export_queue :=
       put 1 0%nat "query-1" {| spans := ∅; queue := [] |};
     logged := [] |}.

(** The sweep thread finds the span of [queued_handler] timed out and
    enters [end]; after it has passed the guard, a host thread
    dispatches the event that ends the stream; then the sweep thread
    goes on. *)
Definition racing_ends : list move :=
  [ Sweep 100; Sweep 100; Sweep 100; Sweep 100; Sweep 100;
    Host (fun h =>
            fst (handle 8 no_extraction false (chat_end_event "query-1")
                   100 100 h));
    Sweep 100 ].

(** *** Vocabulary of the sweep *)




























End LlamaIndexRuns.

(** ** LangChain tracer: flattening *)

Module LangChainFlatten.
Import Py Semconv Otel LangChain.

(** [isinstance(value, Mapping)]. *)
Definition is_mapping (v : pyval) : bool :=
  match v with PDict _ => true | _ => false end.

(** The body of [_flatten] for one [(key, value)] pair.  The recursive
    calls go through the decorated [_flatten], so each nested mapping is
    flattened under its own [stop_on_exception]; [sub_mapping.items()]
    is evaluated in the frame of the enclosing loop, where it raises
    [AttributeError] on a list item that is not a mapping.  No value of
    the model is an [Enum] member. *)
Fixpoint flatten_pair (key : string) (value : pyval) {struct value}
    : gen (string * pyval) :=
  let flatten_items :=
    fix flatten_items (d : list (string * pyval)) : gen (string * pyval) :=
      match d with
      | [] => gret
      | (k, v) :: d' => gseq (flatten_pair k v) (flatten_items d')
      end in
  match value with
  | PNone => gret
  | PDict d =>
      gmap_keys (fun sub_key => key +:+ "." +:+ sub_key)
        (stop_on_exception (flatten_items d))
  | PList l =>
      if existsb is_mapping l then
        (fix each (index : nat) (l : list pyval) : gen (string * pyval) :=
           match l with
           | [] => gret
           | sub_mapping :: l' =>
               gseq
                 (match sub_mapping with
                  | PDict d =>
                      gmap_keys
                        (fun sub_key =>
                           key +:+ "." +:+ str_nat index +:+ "." +:+ sub_key)
                        (stop_on_exception (flatten_items d))
                  | _ => graise
                  end)
                 (each (S index) l')
           end) 0%nat l
      else gyield (key, value)
  | _ => gyield (key, value)
  end.

(** The loop of [_flatten] over its argument. *)
Fixpoint flatten_items (key_values : list (string * pyval))
    : gen (string * pyval) :=
  match key_values with
  | [] => gret
  | (key, value) :: rest => gseq (flatten_pair key value) (flatten_items rest)
  end.

(** [_flatten], as decorated. *)
Definition _flatten (key_values : list (string * pyval)) : gen (string * pyval) :=
  stop_on_exception (flatten_items key_values).

(** The loop over a list that holds a mapping. *)
Fixpoint flatten_list (key : string) (index : nat) (l : list pyval)
    : gen (string * pyval) :=
  match l with
  | [] => gret
  | sub_mapping :: l' =>
      gseq
        (match sub_mapping with
         | PDict d =>
             gmap_keys
               (fun sub_key => key +:+ "." +:+ str_nat index +:+ "." +:+ sub_key)
               (_flatten d)
         | _ => graise
         end)
        (flatten_list key (S index) l')
  end.

(** *** Vocabulary of the statements about [_flatten] *)

(** A list with a mapping among its items. *)
Definition holds_mapping (v : pyval) : bool :=
  match v with PList l => existsb is_mapping l | _ => false end.

(** A value [_flatten] yields as it is: not [None], not a mapping, not a
    list that holds a mapping. *)
Definition is_leaf (v : pyval) : bool :=
  negb (is_none v) && negb (is_mapping v) && negb (holds_mapping v).

(** A list that holds a mapping next to an item that is not one. *)
Definition is_mixed (v : pyval) : bool :=
  match v with
  | PList l => existsb is_mapping l && negb (forallb is_mapping l)
  | _ => false
  end.

(** The keys of a nested mapping, re-keyed under [key]. *)
Definition under (key : string) (g : gen (string * pyval)) : gen (string * pyval) :=
  gmap_keys (fun sub_key => key +:+ "." +:+ sub_key) g.

End LangChainFlatten.

(** ** Further attribute names

    Modelled from the spec: more attribute keys of the conventions
    package (outside the sources), under the namespaces the
    specification lists ([llm.*], [message.*], [embedding.*]). *)

Module SemconvMore.

Definition LLM_OUTPUT_MESSAGES : string := "llm.output_messages".
Definition MESSAGE_FUNCTION_CALL_NAME : string := "message.function_call_name".
Definition MESSAGE_FUNCTION_CALL_ARGUMENTS_JSON : string :=
  "message.function_call_arguments_json".
Definition EMBEDDING_VECTOR : string := "embedding.vector".

End SemconvMore.

(** ** LangChain tracer: messages and tool calls *)

Module LangChainParsing.
Import Py Semconv SemconvMore Otel LangChain LangChainFlatten.

(** [safe_json_dumps] of the instrumentation package: on the values of
    the model, [json.dumps] without ASCII escaping. *)
Definition safe_json_dumps (obj : pyval) : string := json_dumps obj.

(** [dict(pairs)] of the pairs a generator yields. *)
Definition dict_of (pairs : list (string * pyval)) : list (string * pyval) :=
  fold_left (fun d kv => dict_set d (fst kv) (snd kv)) pairs [].

(** [iter(v)]: the items a [for] loop visits, [None] when [v] is not
    iterable. *)
Definition py_iter (v : pyval) : option (list pyval) :=
  match v with
  | PList l => Some l
  | PDict d => Some (map (fun kv => PStr (fst kv)) d)
  | PStr s => Some (map PStr (chars s))
  | _ => None
  end.

(** [v[k]] with a string key: [None] is the [KeyError] or [TypeError]. *)
Definition getitem (v : pyval) (k : string) : option pyval :=
  match v with
  | PDict d => if dict_mem d k then Some (dict_get d k) else None
  | _ => None
  end.

(** *** Tool calls *)

(** [if arguments := ...: yield key, arguments if str else dumped]. *)
Definition yield_arguments (key : string) (arguments : pyval)
    : gen (string * pyval) :=
  if truthy arguments then
    match arguments with
    | PStr _ => gyield (key, arguments)
    | _ => gyield (key, PStr (safe_json_dumps arguments))
    end
  else gret.

Definition _get_tool_call (tool_call : pyval) : gen (string * pyval) :=
  stop_on_exception
    (if negb (truthy tool_call) then gret
     else
       match tool_call with
       | PDict tc =>
           let id_ := dict_get tc "id" in
           let function := dict_get tc "function" in
           gseq (if is_none id_ then gret else gyield (TOOL_CALL_ID, id_))
             (if truthy function then
                match function with
                | PDict f =>
                    gseq (yield_str_field f "name" TOOL_CALL_FUNCTION_NAME)
                      (yield_arguments TOOL_CALL_FUNCTION_ARGUMENTS_JSON
                         (dict_get f "arguments"))
                | _ => graise
                end
              else
                gseq (yield_str_field tc "name" TOOL_CALL_FUNCTION_NAME)
                  (yield_arguments TOOL_CALL_FUNCTION_ARGUMENTS_JSON
                     (dict_get tc "args")))
       | _ => graise
       end).

(** [_process_tool_calls]: [None] when the assertion fails. *)
Definition _process_tool_calls (tool_calls : pyval) : option (list pyval) :=
  if negb (truthy tool_calls) then Some []
  else
    match py_iter tool_calls with
    | None => None
    | Some calls =>
        Some
          (flat_map
             (fun tool_call =>
                let message_tool_call := dict_of (fst (_get_tool_call tool_call)) in
                if truthy (PDict message_tool_call)
                then [PDict message_tool_call] else [])
             calls)
    end.

(** [if tool_calls := ...: ...; if message_tool_calls: yield ...]. *)
Definition yield_tool_calls (tool_calls : pyval) : gen (string * pyval) :=
  if truthy tool_calls then
    match _process_tool_calls tool_calls with
    | None => graise
    | Some message_tool_calls =>
        if truthy (PList message_tool_calls)
        then gyield (MESSAGE_TOOL_CALLS, PList message_tool_calls)
        else gret
    end
  else gret.

Definition _extract_message_tool_calls (message_data : pyval)
    : gen (string * pyval) :=
  stop_on_exception
    (if negb (truthy message_data) then gret
     else
       match message_data with
       | PDict md =>
           let kwargs := dict_get md "kwargs" in
           gseq (yield_tool_calls (dict_get md "tool_calls"))
             (if truthy kwargs then
                match kwargs with
                | PDict kw =>
                    let additional_kwargs := dict_get kw "additional_kwargs" in
                    gseq (yield_tool_calls (dict_get kw "tool_calls"))
                      (if truthy additional_kwargs then
                         match additional_kwargs with
                         | PDict ak => yield_tool_calls (dict_get ak "tool_calls")
                         | _ => graise
                         end
                       else gret)
                | _ => graise
                end
              else gret)
       | _ => graise
       end).

(** *** Role, function call, and the whole message *)

(** [id_[-1]]. *)
Definition last_item (l : list pyval) : option pyval :=
  match rev l with
  | [] => None
  | x :: _ => Some x
  end.

(** The role of a message class; [None] when the chain raises. *)
Definition role_of (message_class_name : string) (message_data : pyval)
    : option pyval :=
  if startswith "HumanMessage" message_class_name then Some (PStr "user")
  else if startswith "AIMessage" message_class_name then Some (PStr "assistant")
  else if startswith "SystemMessage" message_class_name then Some (PStr "system")
  else if startswith "FunctionMessage" message_class_name then Some (PStr "function")
  else if startswith "ToolMessage" message_class_name then Some (PStr "tool")
  else if startswith "ChatMessage" message_class_name then
    match getitem message_data "kwargs" with
    | Some kwargs => getitem kwargs "role"
    | None => None
    end
  else None.

Definition _extract_message_role (message_data : pyval) : gen (string * pyval) :=
  stop_on_exception
    (if negb (truthy message_data) then gret
     else
       match message_data with
       | PDict md =>
           match dict_get md "id" with
           | PList id_ =>
               match last_item id_ with
               | Some (PStr message_class_name) =>
                   match role_of message_class_name message_data with
                   | Some role => gyield (MESSAGE_ROLE, role)
                   | None => graise
                   end
               | _ => graise
               end
           | _ => graise
           end
       | _ => graise
       end).

Definition _extract_message_additional_kwargs (message_data : pyval)
    : gen (string * pyval) :=
  stop_on_exception
    (if negb (truthy message_data) then gret
     else
       match message_data with
       | PDict md =>
           let kwargs := dict_get md "kwargs" in
           if negb (truthy kwargs) then gret
           else
             match kwargs with
             | PDict kw =>
                 let additional_kwargs := dict_get kw "additional_kwargs" in
                 if negb (truthy additional_kwargs) then gret
                 else
                   match additional_kwargs with
                   | PDict ak =>
                       let function_call := dict_get ak "function_call" in
                       if negb (truthy function_call) then gret
                       else
                         match function_call with
                         | PDict fc =>
                             gseq
                               (yield_str_field fc "name" MESSAGE_FUNCTION_CALL_NAME)
                               (yield_arguments MESSAGE_FUNCTION_CALL_ARGUMENTS_JSON
                                  (dict_get fc "arguments"))
                         | _ => graise
                         end
                   | _ => graise
                   end
             | _ => graise
             end
       | _ => graise
       end).

Definition _parse_message_data (message_data : pyval) : gen (string * pyval) :=
  stop_on_exception
    (gseq (_extract_message_role message_data)
       (gseq (_extract_message_kwargs message_data)
          (gseq (_extract_message_additional_kwargs message_data)
             (_extract_message_tool_calls message_data)))).

(** *** Input and output messages *)

(** [parsed_messages.append(dict(_parse_message_data(message_data)))]
    for a mapping, [ValueError] for anything else (no value of the model
    is a [BaseMessage]). *)
Definition parse_entry (message_data : pyval) : option pyval :=
  if has_get message_data
  then Some (PDict (dict_of (fst (_parse_message_data message_data))))
  else None.

(** The entries of a list parsed in order; [None] as soon as one
    raises. *)
Fixpoint parse_entries (entries : list pyval) : option (list pyval) :=
  match entries with
  | [] => Some []
  | message_data :: rest =>
      match parse_entry message_data with
      | None => None
      | Some parsed =>
          match parse_entries rest with
          | None => None
          | Some parsed_rest => Some (parsed :: parsed_rest)
          end
      end
  end.

(** [next(iter(v), None)] for an iterable [v]. *)
Definition first_item (items : list pyval) : pyval :=
  match items with
  | [] => PNone
  | x :: _ => x
  end.

(** The messages parsed from the first set: the entries of a list, a
    single mapping, or a [Sequence] of length 2 read as role and
    content (among the values of the model, a string of two
    characters); anything else is the [ValueError]. *)
Definition parse_first_messages (first_messages : pyval) : option (list pyval) :=
  match first_messages with
  | PList l => parse_entries l
  | PDict _ => parse_entries [first_messages]
  | PStr text =>
      match chars text with
      | [role; content] =>
          Some [PDict [ (MESSAGE_ROLE, PStr role); (MESSAGE_CONTENT, PStr content) ]]
      | _ => None
      end
  | _ => None
  end.

Definition _input_messages (inputs : pyval) : gen (string * pyval) :=
  stop_on_exception
    (if negb (truthy inputs) then gret
     else
       match inputs with
       | PDict i =>
           let multiple_messages := dict_get i "messages" in
           if negb (truthy multiple_messages) then gret
           else
             match py_iter multiple_messages with
             | None => graise
             | Some sets =>
                 let first_messages := first_item sets in
                 if negb (truthy first_messages) then gret
                 else
                   match parse_first_messages first_messages with
                   | None => graise
                   | Some parsed_messages =>
                       if truthy (PList parsed_messages)
                       then gyield (LLM_INPUT_MESSAGES, PList parsed_messages)
                       else gret
                   end
             end
       | _ => graise
       end).

(** The loop of [_output_messages] over the first set of generations. *)
Fixpoint parse_generations (generations : list pyval) : option (list pyval) :=
  match generations with
  | [] => Some []
  | generation :: rest =>
      match generation with
      | PDict g =>
          let message_data := dict_get g "message" in
          let here :=
            if truthy message_data then
              match parse_entry message_data with
              | Some parsed => Some [parsed]
              | None => None
              end
            else Some [] in
          match here with
          | None => None
          | Some parsed =>
              match parse_generations rest with
              | None => None
              | Some parsed_rest => Some (parsed ++ parsed_rest)
              end
          end
      | _ => None
      end
  end.

Definition _output_messages (outputs : pyval) : gen (string * pyval) :=
  stop_on_exception
    (if negb (truthy outputs) then gret
     else
       match outputs with
       | PDict o =>
           let multiple_generations := dict_get o "generations" in
           if negb (truthy multiple_generations) then gret
           else
             match py_iter multiple_generations with
             | None => graise
             | Some sets =>
                 let first_generations := first_item sets in
                 if negb (truthy first_generations) then gret
                 else
                   match py_iter first_generations with
                   | None => graise
                   | Some generations =>
                       match parse_generations generations with
                       | None => graise
                       | Some parsed_messages =>
                           if truthy (PList parsed_messages)
                           then gyield (LLM_OUTPUT_MESSAGES, PList parsed_messages)
                           else gret
                       end
                   end
             end
       | _ => graise
       end).

End LangChainParsing.

(** ** LangChain tracer: starting a trace *)

Module LangChainTrace.
Import Py Semconv Otel LangChain.

(** The [context] argument of [start_span]: the context of the parent
    run's span, a fresh empty context, or [None] (the runtime context). *)
Inductive span_context :=
| ParentSpan (parent_run_id : string)
| FreshContext
| RuntimeContext.

(** The arguments of one [tracer.start_span] call. *)
Record start_call := {
  span_name : string;
  context : span_context;
  start_time : Z;
}.

(** [OpenInferenceTracer._start_trace].  [parent_run_id] and
    [start_time_utc_nano] are [run.parent_run_id] and
    [_as_utc_nano(run.start_time)]; [separate] is
    [_separate_trace_from_runtime_context].  The span the backend
    returns is a handle that has received no call yet. *)
Definition _start_trace (suppressed separate : bool)
    (parent_run_id : option string) (start_time_utc_nano : Z) (run : Run)
    (t : tracer) : tracer * option start_call :=
  let run_map' := <[run_id run := run]> (run_map t) in
  if suppressed then
    ({| run_map := run_map'; _spans_by_run := _spans_by_run t;
        ended := ended t; logged := logged t |}, None)
  else
    let parent_context :=
      match parent_run_id with
      | Some p =>
          match _spans_by_run t !! p with
          | Some _ => ParentSpan p
          | None => if separate then FreshContext else RuntimeContext
          end
      | None => if separate then FreshContext else RuntimeContext
      end in
    ({| run_map := run_map';
        _spans_by_run := <[run_id run := []]> (_spans_by_run t);
        ended := ended t; logged := logged t |},
     Some {| span_name := name run; context := parent_context;
             start_time := start_time_utc_nano |}).

(** [OpenInferenceTracer.get_span]. *)
Definition get_span (id : string) (t : tracer) : option otel_span :=
  _spans_by_run t !! id.

End LangChainTrace.

(** ** LiteLLM instrumentor: results and streams *)

Module LiteLLMResults.
Import Py Semconv SemconvMore Otel LiteLLM.

(** A result as the finalisers see it through [hasattr] and [getattr]:
    a plain value, or an object with named attributes.  The attribute
    names the module asks for ([usage], [error], the token counts) are
    not attributes of any plain value. *)
Inductive pyobj :=
| Value (v : pyval)
| Object (attrs : list (string * pyobj)).

Fixpoint attr_lookup (attrs : list (string * pyobj)) (key : string)
    : option pyobj :=
  match attrs with
  | [] => None
  | (k, x) :: attrs' => if String.eqb k key then Some x else attr_lookup attrs' key
  end.

(** [getattr(obj, key)]; [None] when [hasattr(obj, key)] is false. *)
Definition getattr (obj : pyobj) (key : string) : option pyobj :=
  match obj with
  | Object attrs => attr_lookup attrs key
  | Value _ => None
  end.

(** [_get_value]. *)
Definition _get_value (obj : pyobj) (key : string) : pyobj :=
  match getattr obj key with
  | Some x => x
  | None => Value PNone
  end.

(** [x is None] and [bool(x)]; an object of the model defines neither
    [__bool__] nor [__len__]. *)
Definition is_None (x : pyobj) : bool :=
  match x with Value PNone => true | _ => false end.

Definition obj_truthy (x : pyobj) : bool :=
  match x with Value v => truthy v | Object _ => true end.

(** One call on the span. *)
Inductive span_call :=
| Attribute (name : string) (value : pyobj)   (* set_attribute *)
| StatusSet (st : Status)                     (* set_status *)
| ExceptionRecorded (e : BaseException)       (* record_exception *)
| Ended.                                      (* end *)

(** [_set_span_attribute] on any value. *)
Definition set_attr (name : string) (value : pyobj) : list span_call :=
  match value with
  | Value PNone => []
  | Value (PStr "") => []
  | _ => [Attribute name value]
  end.

(** [x = _get_value(obj, key); if x is not None: _set_span_attribute]. *)
Definition set_if_present (name : string) (obj : pyobj) (key : string)
    : list span_call :=
  let x := _get_value obj key in
  if is_None x then [] else set_attr name x.

Definition _set_token_counts_from_usage (result : pyobj) : list span_call :=
  match getattr result "usage" with
  | None => []
  | Some usage =>
      if negb (obj_truthy usage) then []
      else
        let prompt_token_details := _get_value usage "prompt_tokens_details" in
        let completion_tokens_details :=
          _get_value usage "completion_tokens_details" in
        set_if_present LLM_TOKEN_COUNT_PROMPT usage "prompt_tokens"
        ++ (if is_None prompt_token_details then []
            else
              set_if_present LLM_TOKEN_COUNT_PROMPT_DETAILS_CACHE_READ
                prompt_token_details "cached_tokens"
              ++ set_if_present LLM_TOKEN_COUNT_PROMPT_DETAILS_AUDIO
                   prompt_token_details "audio_tokens")
        ++ set_if_present LLM_TOKEN_COUNT_COMPLETION usage "completion_tokens"
        ++ (if is_None completion_tokens_details then []
            else
              set_if_present LLM_TOKEN_COUNT_COMPLETION_DETAILS_REASONING
                completion_tokens_details "reasoning_tokens"
              ++ set_if_present LLM_TOKEN_COUNT_COMPLETION_DETAILS_AUDIO
                   completion_tokens_details "audio_tokens")
        ++ set_if_present LLM_TOKEN_COUNT_TOTAL usage "total_tokens"
        ++ set_if_present LLM_TOKEN_COUNT_PROMPT_DETAILS_CACHE_WRITE usage
             "cache_creation_input_tokens"
        ++ set_if_present LLM_TOKEN_COUNT_PROMPT_DETAILS_CACHE_READ usage
             "cache_read_input_tokens"
  end.

Section Finalize.

(** [str(x)] of the builtins. *)
Variable str_of : pyobj -> string.

(** The exception an attribute extractor raises, when it raises. *)
Variable extraction_error : BaseException.

Definition _set_span_status (result : pyobj) : list span_call :=
  let error := _get_value result "error" in
  let error :=
    if is_None error then
      match result with
      | Value (PDict d) => Value (dict_get d "error")
      | _ => error
      end
    else error in
  if is_None error then [StatusSet {| status_code := OK; description := None |}]
  else [StatusSet {| status_code := ERROR; description := Some (str_of error) |}].

(** A choice of a [ModelResponse]: a [Choices] with its message (seen
    through [get], as [_get_attributes_from_message_param] sees it), or
    an entry of another class. *)
Inductive choice :=
| Choices (message : pyval)
| OtherChoice.

(** The first entry of the data of an [ImageResponse]. *)
Inductive image_datum :=
| Image (url b64_json : pyval)
| ImageDict (d : list (string * pyval))
| OtherDatum (truth : bool).

(** What [isinstance] tells [_finalize_span] about the result. *)
Inductive response :=
| ModelResponse (choices : list choice) (model_dump_json : string)
| EmbeddingResponse (data : pyval)
| ImageResponse (data : list image_datum)
| OtherResponse.

(** [for key, value in g: _set_span_attribute(span, f key, value)]. *)
Definition set_all (f : string -> string) (g : gen (string * pyval))
    : gen span_call :=
  (flat_map (fun kv => set_attr (f (fst kv)) (Value (snd kv))) (fst g), snd g).

(** [message.content] of the message of a [Choices]. *)
Definition message_content (message : pyval) : option pyval :=
  match message with
  | PDict m => Some (dict_get m "content")
  | _ => None
  end.

Definition last_choice (choices : list choice) : option choice :=
  match rev choices with
  | [] => None
  | c :: _ => Some c
  end.

Definition dumped (model_dump_json : string) : gen span_call :=
  (set_attr OUTPUT_VALUE (Value (PStr model_dump_json))
     ++ set_attr OUTPUT_MIME_TYPE (Value (PStr JSON)), true).

Definition _set_output_message_value (choices : list choice)
    (model_dump_json : string) : gen span_call :=
  match last_choice choices with
  | Some (Choices message) =>
      match message_content message with
      | None => graise
      | Some output_value =>
          if truthy output_value
          then (set_attr OUTPUT_VALUE (Value output_value), true)
          else dumped model_dump_json
      end
  | _ => dumped model_dump_json
  end.

(** The loop of [_finalize_span] over the choices. *)
Definition output_message (entry : nat * choice) : gen span_call :=
  match snd entry with
  | OtherChoice => gret
  | Choices message =>
      set_all
        (fun key =>
           LLM_OUTPUT_MESSAGES +:+ "." +:+ str_nat (fst entry) +:+ "." +:+ key)
        (_get_attributes_from_message_param message)
  end.

(** [img_data.url or img_data.b64_json]. *)
Definition py_or (a b : pyval) : pyval := if truthy a then a else b.

Definition image_calls (url : pyval) : gen span_call :=
  if truthy url then
    (set_attr IMAGE_URL (Value url) ++ set_attr OUTPUT_VALUE (Value url), true)
  else gret.

Definition response_calls (r : response) : gen span_call :=
  match r with
  | ModelResponse choices model_dump_json =>
      gseq (_set_output_message_value choices model_dump_json)
        (gfor output_message (enumerate choices))
  | EmbeddingResponse data =>
      if truthy data then
        match LangChain.getitem0 data with
        | Some (PDict first_embedding) =>
            (set_attr EMBEDDING_VECTOR
               (Value (PStr (json_dumps
                               (dict_get_default first_embedding "embedding"
                                  (PList []))))), true)
        | _ => graise
        end
      else gret
  | ImageResponse data =>
      match data with
      | [] => gret
      | Image url b64_json :: _ => image_calls (py_or url b64_json)
      | ImageDict d :: _ =>
          match d with
          | [] => gret
          | _ => image_calls (py_or (dict_get d "url") (dict_get d "b64_json"))
          end
      | OtherDatum _ :: _ => gret
      end
  | OtherResponse => gret
  end.

(** [_finalize_span]: [r] is the result as [isinstance] classifies it,
    [result] the same object as [getattr] sees it. *)
Definition _finalize_span (r : response) (result : pyobj) : gen span_call :=
  gseq (response_calls r)
    (_set_token_counts_from_usage result ++ _set_span_status result, true).

(** *** Streams *)

Record Delta := {
  delta_role : option string;
  delta_content : option string;
}.

Record StreamingChoice := {
  index : Z;
  delta : option Delta;
}.

(** A chunk of the stream: its choices and [getattr(token, "usage",
    None)]. *)
Record chunk := {
  chunk_choices : list StreamingChoice;
  chunk_usage : pyobj;
}.

(** How the loop over the stream leaves, after the chunks [tokens] have
    been read: the stream ran out, the stream or the loop body raised,
    or the consumer closed the generator, which raises [GeneratorExit]
    at the [yield] where the generator is suspended.  A generator that
    is closed before its first [yield] ([tokens] empty) has not been
    started: its body never runs. *)
Inductive stream_end :=
| Exhausted
| Raised (e : BaseException)
| Closed.

(** [output_messages]: per choice index, in insertion order, the role
    and the content gathered so far. *)
Definition messages := list (Z * (option string * string)).

Fixpoint message_get (m : messages) (idx : Z) : option (option string * string) :=
  match m with
  | [] => None
  | (i, x) :: m' => if (i =? idx)%Z then Some x else message_get m' idx
  end.

(** [output_messages[idx] = x]: an existing index keeps its place. *)
Fixpoint message_set (m : messages) (idx : Z) (x : option string * string)
    : messages :=
  match m with
  | [] => [(idx, x)]
  | (i, y) :: m' =>
      if (i =? idx)%Z then (i, x) :: m' else (i, y) :: message_set m' idx x
  end.

(** The body of [for choice in token.choices]. *)
Definition add_choice (m : messages) (c : StreamingChoice) : messages :=
  let m1 :=
    match message_get m (index c) with
    | Some _ => m
    | None => message_set m (index c) (None, "")
    end in
  match delta c with
  | None => m1
  | Some d =>
      match message_get m1 (index c) with
      | None => m1
      | Some (role, content) =>
          let role' :=
            match delta_role d, role with
            | Some r, None => Some r
            | _, _ => role
            end in
          let content' :=
            match delta_content d with
            | Some text => content +:+ text
            | None => content
            end in
          message_set m1 (index c) (role', content')
      end
  end.

(** The loop over the chunks: the messages, and the last truthy usage. *)
Definition add_chunk (state : messages * pyobj) (token : chunk)
    : messages * pyobj :=
  (fold_left add_choice (chunk_choices token) (fst state),
   if obj_truthy (chunk_usage token) then chunk_usage token else snd state).

Definition gather (tokens : list chunk) : messages * pyobj :=
  fold_left add_chunk tokens ([], Value PNone).

Definition role_value (role : option string) : pyval :=
  match role with Some r => PStr r | None => PNone end.

(** The attributes set once the stream has run out. *)
Definition stream_attributes (state : messages * pyobj) : gen span_call :=
  let output_messages := fst state in
  let usage_stats := snd state in
  let aggregated_output :=
    match message_get output_messages 0 with
    | Some (_, content) => content
    | None => ""
    end in
  gseq (set_attr OUTPUT_VALUE (Value (PStr aggregated_output)), true)
    (gseq
       (gfor
          (fun entry : Z * (option string * string) =>
             set_all
               (fun key =>
                  LLM_OUTPUT_MESSAGES +:+ "." +:+ str_Z (fst entry) +:+ "." +:+ key)
               (_get_attributes_from_message_param
                  (PDict [ ("role", role_value (fst (snd entry)));
                           ("content", PStr (snd (snd entry))) ])))
          output_messages)
       (if obj_truthy usage_stats
        then (_set_token_counts_from_usage usage_stats, true)
        else gret)).

(** [_finalize_sync_streaming_span] ([sync = true]) and
    [_finalize_streaming_span] ([sync = false]), driven to the end of
    the loop: the calls made on the span.  Every chunk read is yielded
    to the consumer as it is.  [GeneratorExit] is no [Exception]: it is
    not recorded, and [finally] ends the span. *)
Definition finalize_stream (sync : bool) (tokens : list chunk)
    (how : stream_end) : list span_call :=
  match how with
  | Exhausted =>
      let attributes := stream_attributes (gather tokens) in
      if snd attributes then
        fst attributes
        ++ (if sync
            then _set_span_status
                   (Value (PStr match message_get (fst (gather tokens)) 0 with
                                | Some (_, content) => content
                                | None => ""
                                end))
            else [])
        ++ [Ended]
      else
        fst attributes
        ++ (if isinstance extraction_error "Exception"
            then [ExceptionRecorded extraction_error] else [])
        ++ [Ended]
  | Raised e =>
      if isinstance e "Exception" then [ExceptionRecorded e; Ended] else [Ended]
  | Closed =>
      match tokens with
      | [] => []
      | _ :: _ => [Ended]
      end
  end.

End Finalize.

(** *** Vocabulary of the statements *)

(** The first chunk of a chat stream. *)
Definition first_chunk : chunk :=
  {| chunk_choices :=
       [{| index := 0;
           delta := Some {| delta_role := Some "assistant";
                            delta_content := Some "Hel" |} |}];
     chunk_usage := Value PNone |}.

(** A [set_attribute] call whose value is neither [None] nor the empty
    string. *)
Definition is_attribute (c : span_call) : bool :=
  match c with
  | Attribute _ (Value PNone) => false
  | Attribute _ (Value (PStr "")) => false
  | Attribute _ _ => true
  | _ => false
  end.

(** A value [_set_span_attribute] passes on. *)
Definition settable (x : pyobj) : bool :=
  match x with
  | Value PNone => false
  | Value (PStr "") => false
  | _ => true
  end.

(** The value the span holds for [name] after the calls: the last one
    set. *)
Fixpoint last_attribute (name : string) (calls : list span_call) : option pyobj :=
  match calls with
  | [] => None
  | c :: calls' =>
      match last_attribute name calls' with
      | Some v => Some v
      | None =>
          match c with
          | Attribute k v => if String.eqb k name then Some v else None
          | _ => None
          end
      end
  end.

(** The deltas a stream sends for the choice [idx], in order; whether it
    mentions that choice at all; their texts joined; their first role. *)
Definition deltas_of (idx : Z) (tokens : list chunk) : list (option Delta) :=
  flat_map
    (fun token =>
       flat_map (fun c => if (index c =? idx)%Z then [delta c] else [])
         (chunk_choices token))
    tokens.

Definition texts (ds : list (option Delta)) : list string :=
  flat_map
    (fun d => match d with
              | Some {| delta_content := Some text |} => [text]
              | _ => []
              end) ds.

Definition roles (ds : list (option Delta)) : list string :=
  flat_map
    (fun d => match d with
              | Some {| delta_role := Some r |} => [r]
              | _ => []
              end) ds.

Definition joined (parts : list string) : string :=
  fold_right String.append "" parts.

(** What one delta adds to the role and the content gathered for its
    choice. *)
Definition absorb (st : option (option string * string)) (d : option Delta)
    : option (option string * string) :=
  let '(role, content) := match st with Some x => x | None => (None, "") end in
  match d with
  | None => Some (role, content)
  | Some d =>
      Some (match delta_role d, role with
            | Some r, None => Some r
            | _, _ => role
            end,
            match delta_content d with
            | Some text => content +:+ text
            | None => content
            end)
  end.

Definition is_ended (c : span_call) : bool :=
  match c with Ended => true | _ => false end.

Definition is_status (c : span_call) : bool :=
  match c with StatusSet _ => true | _ => false end.

Definition is_exception (c : span_call) : bool :=
  match c with ExceptionRecorded _ => true | _ => false end.

End LiteLLMResults.

(* ===================================================================== *)
(** * Part II: theorems                                                    *)
(* ===================================================================== *)

#[local] Arguments String.append !s1 s2 : simpl nomatch.

Module PyFacts.
Import Py.


Lemma prefix_empty (s : string) : String.prefix "" s = true.
Proof. destruct s; reflexivity. Qed.

Lemma rev_app_app (x y acc : string) :
  String.rev_app (x +:+ y) acc = String.rev_app y (String.rev_app x acc).
Proof. revert acc. induction x as [|c x IH]; simpl; intros; auto. Qed.

Lemma endswith_app_char (c : ascii) (x : string) :
  endswith (String c "") (x +:+ String c "") = true.
Proof.
  unfold endswith, String.rev. rewrite rev_app_app. simpl.
  destruct (ascii_dec c c) as [_|n]; [|congruence].
  destruct (String.rev_app x ""); reflexivity.
Qed.

Lemma endswith_app_char2 (c : ascii) (a x : string) :
  endswith (String c "") (a +:+ x +:+ String c "") = true.
Proof.
  unfold endswith, String.rev. rewrite !rev_app_app. simpl.
  destruct (ascii_dec c c) as [_|n]; [|congruence].
  destruct (String.rev_app x _); reflexivity.
Qed.

Lemma str_Z_not_open (z : Z) :
  startswith "{" (str_Z z) = false /\ startswith "[" (str_Z z) = false.
Proof.
  unfold str_Z. destruct (Z.to_int z) as [d|d]; simpl.
  - destruct d; simpl; auto.
  - auto.
Qed.

Lemma structured_json_dumps (v : pyval) :
  LangChain.is_structured_json (json_dumps v) = Statements.is_container v.
Proof.
  unfold LangChain.is_structured_json, startswith.
  destruct v as [|b|z|s|l|d]; cbn [json_dumps Statements.is_container].
  - reflexivity.
  - destruct b; reflexivity.
  - destruct (str_Z_not_open z) as [H1 H2]. unfold startswith in *.
    rewrite H1, H2. reflexivity.
  - reflexivity.
  - rewrite endswith_app_char2. simpl. rewrite prefix_empty. reflexivity.
  - rewrite endswith_app_char2. simpl. rewrite prefix_empty. reflexivity.
Qed.
End PyFacts.


Module LangChainFacts.
Import Py Semconv Otel LangChain Statements PyFacts.

Lemma truthy_singleton (kv : string * pyval) : truthy (PDict [kv]) = true.
Proof. reflexivity. Qed.

(** C4: input and output values of a single-field record.  A record
    whose only field holds a string yields that string verbatim and no
    MIME type.  A record whose only field holds anything else yields a
    JSON encoding (of the field's value under the keys "input" and
    "output", of the whole record under any other key) and the JSON
    MIME type exactly when the encoded text is a JSON object or array,
    which is exactly when the encoded value is a dict or a list. *)
Theorem convert_io_single_field (key : string) (value : pyval) :
  (forall s : string,
      _as_input (_convert_io (PDict [(key, PStr s)])) = ([(INPUT_VALUE, s)], true)
      /\ _as_output (_convert_io (PDict [(key, PStr s)]))
         = ([(OUTPUT_VALUE, s)], true))
  /\ (is_str value = false ->
      let subject := encoded_subject key value in
      _convert_io (PDict [(key, value)])
      = (json_dumps subject :: (if is_container subject then [JSON] else []), true)
      /\ _as_input (_convert_io (PDict [(key, value)]))
         = ((INPUT_VALUE, json_dumps subject)
              :: (if is_container subject then [(INPUT_MIME_TYPE, JSON)] else []),
            true)
      /\ is_structured_json (json_dumps subject) = is_container subject).
Proof.
  split.
  - intros s. split; reflexivity.
  - intros Hstr subject.
    assert (Hconv :
      _convert_io (PDict [(key, value)])
      = (json_dumps subject :: (if is_container subject then [JSON] else []), true)).
    { subst subject. unfold _convert_io, encoded_subject, _json_dumps.
      rewrite truthy_singleton. simpl negb. cbv iota.
      destruct (String.eqb key "input" || String.eqb key "output") eqn:Hk.
      - destruct value; try discriminate Hstr;
          rewrite structured_json_dumps; reflexivity.
      - destruct value; try discriminate Hstr; reflexivity. }
    split; [exact Hconv|]. split.
    + unfold _as_input. rewrite Hconv. simpl.
      destruct (is_container subject); reflexivity.
    + apply structured_json_dumps.
Qed.

Lemma convert_io_single_field_witness :
  is_str (PDict [("a", PInt 1)]) = false
  /\ _convert_io (PDict [("input", PDict [("a", PInt 1)])])
     = (["{" +:+ dquote +:+ "a" +:+ dquote +:+ ": 1}"; JSON], true).
Proof.
  split; [reflexivity|].
  exact (proj1 (proj2 (convert_io_single_field "input" (PDict [("a", PInt 1)]))
                  eq_refl)).
Defined.

Section Provider.
Variable provider_value : OpenInferenceLLMProviderValues -> string.
Variable system_value : OpenInferenceLLMSystemValues -> string.
Variable str_lower : string -> string.
Hypothesis provider_value_nonempty : forall e, provider_value e <> "".
Hypothesis system_value_nonempty : forall e, system_value e <> "".

Lemma provider_map_nonempty (k v : string) :
  table_get (_LANGCHAIN_PROVIDER_MAP provider_value) k = Some v -> v <> "".
Proof.
  unfold _LANGCHAIN_PROVIDER_MAP. cbn [table_get].
  repeat (match goal with
          | |- context [String.eqb ?a k] =>
              destruct (String.eqb a k);
              [intros [= <-]; first [apply provider_value_nonempty | discriminate]|]
          end).
  discriminate.
Qed.

Lemma system_map_nonempty (k v : string) :
  table_get (_PROVIDER_TO_SYSTEM system_value) k = Some (Some v) -> v <> "".
Proof.
  unfold _PROVIDER_TO_SYSTEM, _NA. cbn [table_get].
  repeat (match goal with
          | |- context [String.eqb ?a k] =>
              destruct (String.eqb a k);
              [intros [= <-] || discriminate; apply system_value_nonempty|]
          end).
  discriminate.
Qed.

Lemma dict_get_truthy (d : list (string * pyval)) (k : string) :
  dict_get d k <> PNone -> truthy (PDict d) = true.
Proof. destruct d; simpl; [congruence|reflexivity]. Qed.

Lemma truthy_str (s : string) : s <> "" -> truthy (PStr s) = true.
Proof.
  intros H. simpl. destruct (String.eqb_spec s ""); [contradiction|reflexivity].
Qed.

Lemma ls_provider_found (d m : list (string * pyval)) (s : string) :
  dict_get d "metadata" = PDict m -> dict_get m "ls_provider" = PStr s ->
  s <> "" ->
  ls_provider_of (PDict d) = Some (Some (PStr s)).
Proof.
  intros Hd Hm Hs. unfold ls_provider_of.
  rewrite (dict_get_truthy d "metadata") by (rewrite Hd; discriminate).
  cbn [negb py_get]. rewrite Hd.
  rewrite (dict_get_truthy m "ls_provider") by (rewrite Hm; discriminate).
  cbn [negb py_get]. rewrite Hm, (truthy_str s Hs). reflexivity.
Qed.

(** C8: provider and system inference.  For a run whose metadata names
    a provider identifier, llm.provider is the entry of the provider
    table for the lower-cased identifier, or the lower-cased identifier
    itself when the table has none; llm.system is the entry of the
    system table when it has a value and is not emitted otherwise, in
    particular for an identifier the table does not list; the three
    Azure identifiers map to the OpenAI system.  The lower-casing is
    the one of [str.lower], whatever it does to a text: the statement
    holds for every identifier, ASCII or not. *)
Theorem provider_and_system_inference (d m : list (string * pyval)) (s : string) :
  dict_get d "metadata" = PDict m -> dict_get m "ls_provider" = PStr s ->
  s <> "" ->
  _llm_provider provider_value str_lower (PDict d)
  = ([(LLM_PROVIDER,
       match table_get (_LANGCHAIN_PROVIDER_MAP provider_value) (str_lower s) with
       | Some canonical => canonical
       | None => str_lower s
       end)], true)
  /\ _llm_system system_value str_lower (PDict d)
     = (match table_get (_PROVIDER_TO_SYSTEM system_value) (str_lower s) with
        | Some (Some system) => [(LLM_SYSTEM, system)]
        | _ => []
        end, true)
  /\ (table_get (_PROVIDER_TO_SYSTEM system_value) (str_lower s) = None ->
      _llm_system system_value str_lower (PDict d) = ([], true))
  /\ table_get (_PROVIDER_TO_SYSTEM system_value) "azure"
     = Some (Some (system_value SYS_OPENAI))
  /\ table_get (_PROVIDER_TO_SYSTEM system_value) "azure_ai"
     = Some (Some (system_value SYS_OPENAI))
  /\ table_get (_PROVIDER_TO_SYSTEM system_value) "azure_openai"
     = Some (Some (system_value SYS_OPENAI)).
Proof.
  intros Hd Hm Hs.
  assert (Hsys :
    _llm_system system_value str_lower (PDict d)
    = (match table_get (_PROVIDER_TO_SYSTEM system_value) (str_lower s) with
       | Some (Some system) => [(LLM_SYSTEM, system)]
       | _ => []
       end, true)).
  { unfold _llm_system. rewrite (ls_provider_found d m s Hd Hm Hs).
    destruct (table_get (_PROVIDER_TO_SYSTEM system_value) (str_lower s))
      as [[system|]|] eqn:Ht; try reflexivity.
    apply system_map_nonempty in Ht.
    destruct (String.eqb_spec system ""); [contradiction|reflexivity]. }
  split; [|split; [exact Hsys|split; [|repeat split]]].
  - unfold _llm_provider. rewrite (ls_provider_found d m s Hd Hm Hs).
    destruct (table_get (_LANGCHAIN_PROVIDER_MAP provider_value) (str_lower s))
      as [v|] eqn:Ht; [|reflexivity].
    apply provider_map_nonempty in Ht.
    destruct (String.eqb_spec v ""); [contradiction|reflexivity].
  - intros Hnone. rewrite Hsys, Hnone. reflexivity.
Qed.

End Provider.

Lemma provider_and_system_inference_witness :
  _llm_provider lowercase_provider ascii_lower
    (PDict [("metadata", PDict [("ls_provider", PStr "Azure_OpenAI")])])
  = ([(LLM_PROVIDER, "azure")], true)
  /\ _llm_system lowercase_system ascii_lower
       (PDict [("metadata", PDict [("ls_provider", PStr "Azure_OpenAI")])])
     = ([(LLM_SYSTEM, "openai")], true).
Proof.
  pose proof
    (provider_and_system_inference lowercase_provider lowercase_system ascii_lower
       ltac:(intros []; discriminate) ltac:(intros []; discriminate)
       [("metadata", PDict [("ls_provider", PStr "Azure_OpenAI")])]
       [("ls_provider", PStr "Azure_OpenAI")] "Azure_OpenAI"
       eq_refl eq_refl ltac:(discriminate)) as [Hp [Hs _]].
  split; [exact Hp | exact Hs].
Defined.
End LangChainFacts.


Module TokenCountFacts.
Import Py Semconv Otel Statements PyFacts.

(** The LlamaIndex handler on any payload of the Anthropic prompt shape:
    the prompt count is the sum of the three counts. *)
Lemma llama_index_anthropic_prompt_is_additive
    (int_of_str : string -> option Z) (d : list (string * pyval)) (a b c : Z) :
  dict_get d "input_tokens" = PInt a ->
  dict_get d "cache_creation_input_tokens" = PInt b ->
  dict_get d "cache_read_input_tokens" = PInt c ->
  (forall k, In k other_vendor_keys -> dict_get d k = PNone) ->
  LlamaIndex._get_token_counts int_of_str (PDict d)
  = ([ (LLM_TOKEN_COUNT_PROMPT_DETAILS_CACHE_WRITE, PInt b);
       (LLM_TOKEN_COUNT_PROMPT_DETAILS_CACHE_READ, PInt c);
       (LLM_TOKEN_COUNT_PROMPT, PInt (a + b + c)) ], true).
Proof.
  intros Ha Hb Hc Hother.
  unfold LlamaIndex._get_token_counts, LlamaIndex._get_token_counts_impl,
    LlamaIndex.if_present, LlamaIndex.mapping_get_value, py_get.
  rewrite Ha, Hb, Hc.
  rewrite !Hother by (unfold other_vendor_keys; simpl; tauto).
  reflexivity.
Qed.

(** C1: the prompt count of the Anthropic usage payload
    {input_tokens: 10, cache_creation_input_tokens: 2,
    cache_read_input_tokens: 3}.  The LlamaIndex handler emits
    llm.token_count.prompt = 15, the sum; the LangChain tracer, given
    the same payload as the usage of an LLM output, emits
    llm.token_count.prompt = 10, the bare input_tokens, next to the two
    cache counts. *)
Theorem anthropic_prompt_count_by_instrumentor (int_of_str : string -> option Z) :
  LlamaIndex._get_token_counts int_of_str anthropic_usage
  = ([ (LLM_TOKEN_COUNT_PROMPT_DETAILS_CACHE_WRITE, PInt 2);
       (LLM_TOKEN_COUNT_PROMPT_DETAILS_CACHE_READ, PInt 3);
       (LLM_TOKEN_COUNT_PROMPT, PInt 15) ], true)
  /\ LangChain._token_counts
       (PDict [("llm_output", PDict [("usage", anthropic_usage)])])
     = ([ (LLM_TOKEN_COUNT_PROMPT, PInt 10);
          (LLM_TOKEN_COUNT_PROMPT_DETAILS_CACHE_READ, PInt 3);
          (LLM_TOKEN_COUNT_PROMPT_DETAILS_CACHE_WRITE, PInt 2) ], true).
Proof. split; reflexivity. Qed.

End TokenCountFacts.


Module GenFacts.
Import Py.

Lemma app_assoc (a b c : string) : (a +:+ b) +:+ c = a +:+ (b +:+ c).
Proof. induction a as [|x a IH]; simpl; [reflexivity|]. f_equal. exact IH. Qed.

Lemma in_gseq {A} (g1 g2 : gen A) (x : A) :
  In x (fst (gseq g1 g2)) -> In x (fst g1) \/ In x (fst g2).
Proof.
  unfold gseq. destruct (snd g1); simpl; [|auto].
  intros H. apply in_app_or in H. exact H.
Qed.

Lemma in_gseq_l {A} (g1 g2 : gen A) (x : A) :
  In x (fst g1) -> In x (fst (gseq g1 g2)).
Proof.
  unfold gseq. destruct (snd g1); simpl; [|auto].
  intros H. apply in_or_app. now left.
Qed.

Lemma in_gseq_r {A} (g1 g2 : gen A) (x : A) :
  snd g1 = true -> In x (fst g2) -> In x (fst (gseq g1 g2)).
Proof.
  unfold gseq. intros ->. simpl. intros H. apply in_or_app. now right.
Qed.

Lemma in_gfor {A B} (f : A -> gen B) (l : list A) (y : B) :
  In y (fst (gfor f l)) -> exists x, In x l /\ In y (fst (f x)).
Proof.
  induction l as [|a l IH]; simpl; [tauto|].
  intros H. apply in_gseq in H. destruct H as [H|H].
  - exists a. auto.
  - destruct (IH H) as [x [Hx Hy]]. exists x. auto.
Qed.





End GenFacts.


Module MessageFacts.
Import Py Semconv Otel Statements PyFacts GenFacts LangChainFacts.



Section LlamaIndexMessages.
Import LlamaIndex.








End LlamaIndexMessages.
Section LangChainMessages.
Import LangChain.

Lemma yield_str_field_key (kw : list (string * pyval)) (key attr : string)
    (kv : string * pyval) :
  In kv (fst (yield_str_field kw key attr)) -> fst kv = attr.
Proof.
  unfold yield_str_field. destruct (truthy _); [|simpl; tauto].
  destruct (is_str _); simpl; [|tauto]. intros [<-|[]]. reflexivity.
Qed.


Lemma extract_message_kwargs_unfold (md kw : list (string * pyval)) :
  dict_get md "kwargs" = PDict kw -> dict_get kw "content" <> PNone ->
  fst (_extract_message_kwargs (PDict md))
  = fst (gseq
           (let content := dict_get kw "content" in
            if negb (truthy content) then gret
            else match content with
                 | PStr _ => gyield (MESSAGE_CONTENT, content)
                 | PList l => gfor content_list_item (enumerate l)
                 | _ => gret
                 end)
           (gseq (yield_str_field kw "tool_call_id" MESSAGE_TOOL_CALL_ID)
                 (yield_str_field kw "name" MESSAGE_NAME))).
Proof.
  intros Hmd Hkw. unfold _extract_message_kwargs, stop_on_exception.
  cbn [fst].
  rewrite (dict_get_truthy md "kwargs") by (rewrite Hmd; discriminate).
  cbn [negb]. rewrite Hmd.
  rewrite (dict_get_truthy kw "content") by exact Hkw.
  reflexivity.
Qed.

Lemma langchain_string_content (md kw : list (string * pyval)) (s : string) :
  dict_get md "kwargs" = PDict kw -> dict_get kw "content" = PStr s ->
  s <> "" ->
  In (MESSAGE_CONTENT, PStr s) (fst (_extract_message_kwargs (PDict md)))
  /\ forall kv, In kv (fst (_extract_message_kwargs (PDict md))) ->
                ~ is_indexed_content_key (fst kv).
Proof.
  intros Hmd Hkw Hs.
  rewrite (extract_message_kwargs_unfold md kw Hmd)
    by (rewrite Hkw; discriminate).
  rewrite Hkw. cbv zeta. rewrite (truthy_str s Hs). cbn [negb]. split.
  - apply in_gseq_l. simpl. left. reflexivity.
  - intros kv H [rest Hk]. apply in_gseq in H. destruct H as [H|H].
    + simpl in H. destruct H as [<-|[]]. simpl in Hk. discriminate Hk.
    + apply in_gseq in H.
      destruct H as [H|H]; apply yield_str_field_key in H;
        rewrite Hk in H; simpl in H; discriminate H.
Qed.




End LangChainMessages.




End MessageFacts.


Module OtelFacts.
Import Py Otel.

Lemma statuses_app (a b : otel_span) : statuses (a ++ b) = statuses a ++ statuses b.
Proof.
  induction a as [|c a IH]; simpl; [reflexivity|].
  destruct c; simpl; rewrite ?IH; reflexivity.
Qed.

Lemma statuses_set_attributes (l : list (gmap string pyval)) :
  statuses (map SetAttributes l) = [].
Proof. induction l; simpl; auto. Qed.

Lemma exception_events_app (a b : otel_span) :
  exception_events (a ++ b) = exception_events a ++ exception_events b.
Proof. unfold exception_events. apply List.filter_app. Qed.

Lemma exception_events_set_attributes (l : list (gmap string pyval)) :
  exception_events (map SetAttributes l) = [].
Proof. induction l; simpl; auto. Qed.

Lemma end_calls_app (a b : otel_span) :
  end_calls (a ++ b) = end_calls a ++ end_calls b.
Proof. unfold end_calls. apply List.filter_app. Qed.

End OtelFacts.

Module ErrorPathFacts.
Import Py Semconv Otel Statements OtelFacts.

Section LlamaIndexDrop.
Import LlamaIndex.

Lemma end_active (exception : option BaseException) (s : _Span) :
  _active s = true ->
  _active (end_ exception s) = false
  /\ exists delta,
       _otel_span (end_ exception s) = _otel_span s ++ delta
       /\ end_calls delta = [End (_end_time s)]
       /\ match exception with
          | None =>
              statuses delta = [{| status_code := OK; description := None |}]
              /\ exception_events delta = []
          | Some e =>
              statuses delta
              = [{| status_code := ERROR;
                    description := Some (type_name e +:+ ": " +:+ message e) |}]
              /\ exception_events delta = [RecordException e]
          end.
Proof.
  intros Ha. unfold end_. rewrite Ha. cbn [negb].
  destruct exception as [e|]; cbn [_active _otel_span]; (split; [reflexivity|]);
    eexists; (split; [reflexivity|]); repeat split.
Qed.

Lemma end_inactive (exception : option BaseException) (s : _Span) :
  _active s = false -> end_ exception s = s.
Proof. intros Ha. unfold end_. rewrite Ha. reflexivity. Qed.

Lemma drop_active_span (h : handler) (id : string) (r : ref) (s : _Span)
    (e : BaseException) :
  open_spans h !! id = Some r -> store h !! r = Some s -> _active s = true ->
  exists s' delta,
    store (fst (prepare_to_drop_span false id (Some e) h)) !! r = Some s'
    /\ snd (prepare_to_drop_span false id (Some e) h) = Some r
    /\ _active s' = false
    /\ _otel_span s' = _otel_span s ++ delta
    /\ if isinstance e "WorkflowDone" then
         statuses delta = [{| status_code := OK; description := None |}]
         /\ exception_events delta = []
       else
         statuses delta
         = [{| status_code := ERROR;
               description := Some (type_name e +:+ ": " +:+ message e) |}]
         /\ exception_events delta = [RecordException e].
Proof.
  intros Ho Hs Ha. unfold prepare_to_drop_span. rewrite Ho, Hs.
  destruct (isinstance e "WorkflowDone").
  - destruct (end_active None s Ha) as [Hi [delta [Hd [_ Hst]]]].
    exists (end_ None s), delta. cbn [fst snd with_store store].
    rewrite lookup_insert_eq. auto.
  - destruct (end_active (Some e) s Ha) as [Hi [delta [Hd [_ Hst]]]].
    exists (end_ (Some e) s), delta. cbn [fst snd with_store store].
    rewrite lookup_insert_eq. auto.
Qed.

End LlamaIndexDrop.

Section LangChainError.
Import LangChain.

Variable run_attribute_batches : Run -> list (gmap string pyval) * bool.
Variable format_exc : option string.

Lemma run_status_rule (run : Run) :
  run_status run
  = match error run with
    | None => {| status_code := OK; description := None |}
    | Some err =>
        if ignored err then {| status_code := OK; description := None |}
        else {| status_code := ERROR; description := Some err |}
    end.
Proof.
  unfold run_status, ignored. destruct (error run) as [err|]; [|reflexivity].
  simpl. rewrite orb_false_r. reflexivity.
Qed.

Lemma record_exception_one (span : otel_span) (err : BaseException) :
  exists ev,
    _record_exception format_exc span err = span ++ [ev]
    /\ is_exception_event ev = true /\ statuses [ev] = [].
Proof.
  unfold _record_exception. destruct (isinstance err "Exception").
  - eexists. split; [reflexivity|]. split; reflexivity.
  - eexists. split; [reflexivity|]. split; reflexivity.
Qed.

Lemma error_path_span (t : tracer) (err : BaseException) (run : Run)
    (span : otel_span) :
  _spans_by_run t !! run_id run = Some span ->
  exists ev rest,
    ended (error_path run_attribute_batches format_exc false err run t)
    = ended t
        ++ [(run_id run,
             span ++ [ev] ++ [SetStatus (run_status run)] ++ rest)]
    /\ is_exception_event ev = true /\ statuses [ev] = []
    /\ statuses rest = [] /\ exception_events rest = []
    /\ _spans_by_run (error_path run_attribute_batches format_exc false err run t)
         !! run_id run = None.
Proof.
  intros Hs. unfold error_path, on_error. rewrite Hs.
  destruct (record_exception_one span err) as [ev [Hev [Hx Hst]]].
  unfold _end_trace. cbn [_spans_by_run run_map ended logged].
  rewrite lookup_insert_eq. unfold _update_span. rewrite Hev.
  exists ev, (map SetAttributes (fst (run_attribute_batches run)) ++ [End (end_time run)]).
  cbn [ended _spans_by_run]. split.
  { rewrite <- !app_assoc. reflexivity. }
  split; [exact Hx|]. split; [exact Hst|].
  rewrite statuses_app, exception_events_app, statuses_set_attributes,
    exception_events_set_attributes.
  split; [reflexivity|]. split; [reflexivity|].
  apply lookup_delete_eq.
Qed.

End LangChainError.
(** C3 (as amended): the error terminal paths.  LlamaIndex
    ([prepare_to_drop_span] on an open, active span): a [WorkflowDone]
    error ends the span with status OK and no exception event; any other
    error ends it with status ERROR, description
    "{ExceptionTypeName}: {message}", and exactly one exception event.
    LangChain (error callback, then [_end_trace]): the status is OK when
    the run's error text starts with "Command(" or "ParentCommand(" and
    is otherwise ERROR with the run's error text itself as description;
    an error that matches no pattern leaves exactly one exception event. *)
Theorem error_terminal_path
    (h : LlamaIndex.handler) (id : string) (r : LlamaIndex.ref)
    (s : LlamaIndex._Span) (e : BaseException)
    (run_attribute_batches : LangChain.Run -> list (gmap string pyval) * bool)
    (format_exc : option string) (t : LangChain.tracer) (run : LangChain.Run)
    (span : otel_span) :
  (LlamaIndex.open_spans h !! id = Some r ->
   LlamaIndex.store h !! r = Some s -> LlamaIndex._active s = true ->
   exists s' delta,
     LlamaIndex.store (fst (LlamaIndex.prepare_to_drop_span false id (Some e) h))
       !! r = Some s'
     /\ LlamaIndex._active s' = false
     /\ LlamaIndex._otel_span s' = LlamaIndex._otel_span s ++ delta
     /\ if isinstance e "WorkflowDone" then
          statuses delta = [{| status_code := OK; description := None |}]
          /\ exception_events delta = []
        else
          statuses delta
          = [{| status_code := ERROR;
                description := Some (type_name e +:+ ": " +:+ message e) |}]
          /\ exception_events delta = [RecordException e])
  /\ (LangChain._spans_by_run t !! LangChain.run_id run = Some span ->
      exists delta,
        LangChain.ended
          (LangChain.error_path run_attribute_batches format_exc false e run t)
        = LangChain.ended t ++ [(LangChain.run_id run, span ++ delta)]
        /\ statuses delta
           = [match LangChain.error run with
              | None => {| status_code := OK; description := None |}
              | Some err =>
                  if ignored err
                  then {| status_code := OK; description := None |}
                  else {| status_code := ERROR; description := Some err |}
              end]
        /\ (forall err, LangChain.error run = Some err -> ignored err = false ->
              length (exception_events delta) = 1%nat)).
Proof.
  split.
  - intros Ho Hs Ha.
    destruct (drop_active_span h id r s e Ho Hs Ha)
      as [s' [delta [H1 [_ [H2 [H3 H4]]]]]].
    exists s', delta. auto.
  - intros Hs.
    destruct (error_path_span run_attribute_batches format_exc t e run span Hs)
      as [ev [rest [He [Hx [Hst [Hr [Hre _]]]]]]].
    exists ([ev] ++ [SetStatus (LangChain.run_status run)] ++ rest).
    split; [exact He|]. split.
    + rewrite !statuses_app, Hst, Hr, run_status_rule. reflexivity.
    + intros err _ _. rewrite !exception_events_app, Hre.
      unfold exception_events. simpl. rewrite Hx. reflexivity.
Qed.

Lemma error_terminal_path_witness :
  (exists s' delta,
     LlamaIndex.store
       (fst (LlamaIndex.prepare_to_drop_span false "query-1" (Some value_error)
               one_span_handler)) !! 0%nat = Some s'
     /\ LlamaIndex._active s' = false
     /\ LlamaIndex._otel_span s' = LlamaIndex._otel_span open_span ++ delta
     /\ statuses delta
        = [{| status_code := ERROR; description := Some "ValueError: boom" |}]
     /\ exception_events delta = [RecordException value_error])
  /\ (exists delta,
        LangChain.ended
          (LangChain.error_path no_attributes None false value_error
             (failed_run "ValueError('boom')") one_run_tracer)
        = [("run-1", delta)]
        /\ statuses delta
           = [{| status_code := ERROR;
                 description := Some "ValueError('boom')" |}]
        /\ length (exception_events delta) = 1%nat).
Proof.
  pose proof
    (error_terminal_path one_span_handler "query-1" 0%nat open_span value_error
       no_attributes None one_run_tracer (failed_run "ValueError('boom')") [])
    as [H1 H2].
  split.
  - destruct (H1 ltac:(vm_compute; reflexivity) ltac:(vm_compute; reflexivity)
                eq_refl) as [s' [delta [Ha [Hb [Hc Hd]]]]].
    exists s', delta. simpl in Hd. destruct Hd as [Hd1 Hd2]. auto.
  - destruct (H2 ltac:(vm_compute; reflexivity)) as [delta [Ha [Hb Hc]]].
    exists delta. split; [exact Ha|]. split; [exact Hb|].
    exact (Hc _ eq_refl eq_refl).
Defined.

(** C3 fails as stated on the LangChain tracer.  An error whose text
    matches an ignored pattern gets status OK, yet the error callback
    has already recorded its exception event; and the ERROR description
    of any other error is the run's error text, not
    "{ExceptionTypeName}: {message}". *)
Lemma langchain_error_path_differs :
  LangChain.ended
    (LangChain.error_path no_attributes None false parent_command
       (failed_run "ParentCommand(Command(goto='next'))") one_run_tracer)
  = [("run-1",
      [ RecordException parent_command;
        SetStatus {| status_code := OK; description := None |};
        End None ])]
  /\ LangChain.ended
       (LangChain.error_path no_attributes None false value_error
          (failed_run "ValueError('boom')") one_run_tracer)
     = [("run-1",
         [ RecordException value_error;
           SetStatus {| status_code := ERROR;
                        description := Some "ValueError('boom')" |};
           End None ])]
  /\ "ValueError('boom')" <> type_name value_error +:+ ": " +:+ message value_error.
Proof.
  split; [vm_compute; reflexivity|]. split; [vm_compute; reflexivity|].
  discriminate.
Qed.

End ErrorPathFacts.


Module LifecycleFacts.
Import Py Semconv Otel Statements OtelFacts LlamaIndex LlamaIndexRuns ErrorPathFacts.

Lemma waiting_active (s : _Span) : waiting_for_streaming s = true -> _active s = true.
Proof. unfold waiting_for_streaming. intros H. apply andb_prop in H. tauto. Qed.

Lemma end_twice (s : _Span) (e1 e2 : option BaseException) :
  end_ e2 (end_ e1 s) = end_ e1 s.
Proof.
  apply end_inactive. destruct (_active s) eqn:Ha.
  - apply (end_active e1 s Ha).
  - rewrite (end_inactive e1 s Ha). exact Ha.
Qed.

Lemma recorded_exceptions_no_end (l : list BaseException) :
  end_calls (map RecordException l) = [].
Proof. induction l as [|e l IH]; [reflexivity|exact IH]. Qed.

Lemma recorded_exceptions_no_status (l : list BaseException) :
  statuses (map RecordException l) = [].
Proof. induction l as [|e l IH]; [reflexivity|exact IH]. Qed.

Section WithRules.

Variable recursion_limit : nat.
Variable _process_event : BaseEvent -> _Span -> extraction.

Lemma notify_parent_raises (depth : nat) (status : _StreamingStatus) (now : Q)
    (self : ref) (st : gmap ref _Span) (e : BaseException) :
  snd (notify_parent depth status now self st) = Some e -> e = RecursionError.
Proof.
  revert self st. induction depth as [|depth IH]; intros self st; simpl.
  - intros [= <-]. reflexivity.
  - destruct (st !! self) as [s|]; [|discriminate].
    destruct (_parent s) as [p|]; [|discriminate].
    destruct (st !! p) as [parent|]; [|discriminate].
    destruct (waiting_for_streaming parent); cbn [negb]; [|discriminate].
    apply IH.
Qed.

Lemma process_event_raises (event : BaseEvent) (now : Q) (now_ns : Z)
    (self : ref) (st : gmap ref _Span) (e : BaseException) :
  snd (process_event recursion_limit _process_event event now now_ns self st)
  = Some e ->
  e = RecursionError
  \/ exists s, st !! self = Some s /\ raised (_process_event event s) = Some e.
Proof.
  unfold process_event. destruct (st !! self) as [s|]; [|discriminate].
  cbv zeta. destruct (raised (_process_event event s)) as [e'|] eqn:Hr.
  - intros [= <-]. right. exists s. split; [reflexivity|exact Hr].
  - destruct (waiting_for_streaming _); cbn [negb]; [|discriminate].
    destruct (class event); try discriminate;
      intros H; left; eapply notify_parent_raises; exact H.
Qed.

Lemma process_event_rule_raises (event : BaseEvent) (now : Q) (now_ns : Z)
    (self : ref) (st : gmap ref _Span) (s : _Span) (e : BaseException) :
  st !! self = Some s -> raised (_process_event event s) = Some e ->
  process_event recursion_limit _process_event event now now_ns self st
  = (<[self := extracted (_process_event event s) s]> st, Some e).
Proof.
  intros Hs Hr. unfold process_event. rewrite Hs. cbv zeta. rewrite Hr.
  reflexivity.
Qed.

(** C7 (as amended): event dispatch raises into the host only what is
    not an [Exception].  An event that names a span found neither among
    the open spans nor in the export queue is answered with a logged
    warning and nothing else.  When the extraction rule raises an
    [Exception], it is caught and logged (after whatever the rule
    itself logged) and [handle] returns the event.  When the rule
    raises a [BaseException] that is not an [Exception], it is not
    caught: it reaches the host, and the error is not logged.  Nothing
    else ever comes out of [handle]. *)
Theorem dispatch_catches_exceptions (event : BaseEvent) (now : Q) (now_ns : Z)
    (h : handler) :
  (has_span_id event = true ->
   open_spans h !! text_of (span_id event) = None ->
   find (text_of (span_id event)) (_export_queue h) = None ->
   handle recursion_limit _process_event false event now now_ns h
   = (log_message (WarnOpenSpanMissing (text_of (span_id event))) h,
      Returned (Some event)))
  /\ (forall r s e,
        has_span_id event = true ->
        match open_spans h !! text_of (span_id event) with
        | Some r' => Some r'
        | None => find (text_of (span_id event)) (_export_queue h)
        end = Some r ->
        store h !! r = Some s ->
        raised (_process_event event s) = Some e ->
        if isinstance e "Exception" then
          snd (handle recursion_limit _process_event false event now now_ns h)
          = Returned (Some event)
          /\ logged (fst (handle recursion_limit _process_event false event now
                            now_ns h))
             = logged h ++ warnings (_process_event event s)
                 ++ [ErrorProcessingEvent (qualname event)]
        else
          snd (handle recursion_limit _process_event false event now now_ns h)
          = Propagated e
          /\ logged (fst (handle recursion_limit _process_event false event now
                            now_ns h))
             = logged h ++ warnings (_process_event event s))
  /\ (forall suppressed e,
        snd (handle recursion_limit _process_event suppressed event now now_ns h)
        = Propagated e ->
        isinstance e "Exception" = false
        /\ exists s, raised (_process_event event s) = Some e)
  /\ (forall suppressed,
        (forall e, snd (handle recursion_limit _process_event suppressed event
                          now now_ns h) <> Propagated e) ->
        snd (handle recursion_limit _process_event suppressed event now now_ns h)
        = Returned (if suppressed then None else Some event)).
Proof.
  split; [|split; [|split]].
  - intros Hid Ho Hq. unfold handle. rewrite Hid, Ho, Hq. reflexivity.
  - intros r s e Hid Hr Hs Hpe.
    unfold handle. rewrite Hid. cbn [negb]. rewrite Hr.
    rewrite (process_event_rule_raises event now now_ns r (store h) s e Hs Hpe).
    unfold process_event_log. rewrite Hs. cbv zeta.
    destruct (isinstance e "Exception"); split; try reflexivity.
    cbn. rewrite <- List.app_assoc. reflexivity.
  - intros suppressed e. unfold handle. destruct suppressed; [discriminate|].
    destruct (has_span_id event); cbn [negb]; [|discriminate].
    destruct (match open_spans h !! text_of (span_id event) with
              | Some r => Some r
              | None => find (text_of (span_id event)) (_export_queue h)
              end) as [r|]; [|discriminate].
    pose proof (process_event_raises event now now_ns r (store h)) as Hr.
    destruct (process_event recursion_limit _process_event event now now_ns r
                (store h)) as [st raised_]. cbv zeta.
    destruct raised_ as [e'|]; [|discriminate].
    destruct (isinstance e' "Exception") eqn:He; [discriminate|].
    cbn [snd]. intros [= <-]. split; [exact He|].
    destruct (Hr e' eq_refl) as [->|[s [_ H]]]; [discriminate He|].
    exists s. exact H.
  - intros suppressed Hno. unfold handle in *. destruct suppressed; [reflexivity|].
    destruct (has_span_id event); cbn [negb] in *; [|reflexivity].
    destruct (match open_spans h !! text_of (span_id event) with
              | Some r => Some r
              | None => find (text_of (span_id event)) (_export_queue h)
              end) as [r|]; [|reflexivity].
    destruct (process_event recursion_limit _process_event event now now_ns r
                (store h)) as [st raised_]. cbv zeta in *.
    destruct raised_ as [e'|]; [|reflexivity].
    destruct (isinstance e' "Exception"); [reflexivity|].
    exfalso. apply (Hno e'). reflexivity.
Qed.

End WithRules.

Lemma dispatch_catches_exceptions_witness :
  handle 8 no_extraction false (sample_event "query-9") 0 0 one_span_handler
  = (log_message (WarnOpenSpanMissing "query-9") one_span_handler,
     Returned (Some (sample_event "query-9")))
  /\ snd (handle 8 failing_extraction false (sample_event "query-1") 0 0
            one_span_handler)
     = Returned (Some (sample_event "query-1"))
  /\ logged (fst (handle 8 failing_extraction false (sample_event "query-1") 0 0
                    one_span_handler))
     = [ErrorProcessingEvent "LLMChatStartEvent"]
  /\ snd (handle 8 unhandled_event false (sample_event "query-1") 0 0
            one_span_handler)
     = Returned (Some (sample_event "query-1")).
Proof.
  pose proof
    (dispatch_catches_exceptions 8 no_extraction (sample_event "query-9") 0 0
       one_span_handler) as [H1 _].
  pose proof
    (dispatch_catches_exceptions 8 failing_extraction (sample_event "query-1") 0 0
       one_span_handler) as [_ [H2 _]].
  pose proof
    (dispatch_catches_exceptions 8 unhandled_event (sample_event "query-1") 0 0
       one_span_handler) as [_ [_ [_ H4]]].
  specialize (H2 0%nat open_span value_error eq_refl eq_refl eq_refl eq_refl).
  cbn [isinstance] in H2. destruct H2 as [H2 H3].
  split; [apply H1; vm_compute; reflexivity|].
  split; [exact H2|]. split; [exact H3|].
  apply (H4 false). intros e He. vm_compute in He. discriminate He.
Defined.

(** C7 fails as stated: an extraction rule that is interrupted raises
    [KeyboardInterrupt], which [handle] does not catch: the call does
    not return, the exception reaches the host. *)
Lemma dispatch_propagates_keyboard_interrupt :
  raised (interrupted_extraction (sample_event "query-1") open_span)
  = Some keyboard_interrupt
  /\ handle 8 interrupted_extraction false (sample_event "query-1") 0 0
       one_span_handler
     = (one_span_handler, Propagated keyboard_interrupt).
Proof. split; [reflexivity|]. vm_compute. reflexivity. Qed.

(** C2: a span whose [end] calls overlap is exported twice.  One [end]
    call after another exports once: the second finds the span inactive
    and returns; and what an extraction rule records on the handle of
    a span, ended or not, is no [end] call and no status.  But the
    guard of [end] and its body are two steps.  In the run
    [racing_ends] the sweep thread has passed the guard on a timed-out
    streaming span when a host thread dispatches the event that ends
    the stream; both calls then run the body, and the backend handle
    receives status, attributes and [end] twice. *)
Theorem overlapping_ends_export_twice :
  (forall s e1 e2, end_ e2 (end_ e1 s) = end_ e1 s)
  /\ (forall s e, (length (exports (end_ e s)) <= S (length (exports s)))%nat)
  /\ (forall x s,
        exports (extracted x s) = exports s
        /\ statuses (_otel_span (extracted x s)) = statuses (_otel_span s))
  /\ exists s',
       store (snd (plays racing_ends (AtClock, queued_handler))) !! 0%nat
       = Some s'
       /\ _otel_span s'
          = [ SetStatus {| status_code := OK; description := None |};
              SetAttributes
                {[ OPENINFERENCE_SPAN_KIND := PStr CHAIN ]};
              End (Some 5%Z);
              SetStatus {| status_code := OK; description := None |};
              SetAttributes
                {[ OPENINFERENCE_SPAN_KIND := PStr CHAIN ]};
              End (Some 5%Z) ]
       /\ exports s' = [End (Some 5%Z); End (Some 5%Z)].
Proof.
  split; [apply end_twice|]. split; [|split].
  - intros s e. destruct (_active s) eqn:Ha.
    + destruct (end_active e s Ha) as [_ [delta [Hd [He _]]]].
      unfold exports. rewrite Hd, end_calls_app, He, length_app. simpl. lia.
    + rewrite (end_inactive e s Ha). lia.
  - intros x s. unfold exports, extracted. cbn [_otel_span].
    rewrite end_calls_app, statuses_app, recorded_exceptions_no_end,
      recorded_exceptions_no_status, !app_nil_r.
    split; reflexivity.
  - eexists. split; [vm_compute; reflexivity|].
    split; vm_compute; reflexivity.
Qed.

End LifecycleFacts.


Module SweepFacts.
Import Py Semconv Otel Statements OtelFacts LlamaIndex LlamaIndexRuns
  ErrorPathFacts LifecycleFacts.










Section Sweeping.

Variable r : ref.
























End Sweeping.







End SweepFacts.


Module PatchFacts.
Import Py LiteLLM.

Lemma uninstrument_lookup (st : patch_state) (name : string) :
  litellm (_uninstrument st) !! name
  = match original_litellm_funcs st !! name with
    | Some original => Some original
    | None => litellm st !! name
    end.
Proof.
  unfold _uninstrument. cbn [litellm].
  apply (map_fold_weak_ind
           (fun (b : gmap string callable) (m : gmap string callable) =>
              b !! name = match m !! name with
                          | Some original => Some original
                          | None => litellm st !! name
                          end)).
  - rewrite lookup_empty. reflexivity.
  - intros i x m r Hi IH. destruct (decide (i = name)) as [->|Hne].
    + rewrite !lookup_insert_eq. reflexivity.
    + rewrite !lookup_insert_ne by exact Hne. exact IH.
Qed.

Lemma instrument_one_other (st : patch_state) (entry : string * callable)
    (name : string) :
  fst entry <> name ->
  original_litellm_funcs (instrument_one st entry) !! name
  = original_litellm_funcs st !! name
  /\ litellm (instrument_one st entry) !! name = litellm st !! name.
Proof.
  destruct entry as [n w]. simpl. intros Hne. unfold instrument_one.
  destruct (litellm st !! n); cbn [litellm original_litellm_funcs]; [|auto].
  rewrite !lookup_insert_ne by exact Hne. auto.
Qed.

Lemma instrument_fold (l : list (string * callable)) :
  forall (st : patch_state) (name : string),
    List.NoDup (map fst l) ->
    (In name (map fst l) -> forall o,
       litellm st !! name = Some o ->
       original_litellm_funcs (fold_left instrument_one l st) !! name = Some o
       /\ exists w, In (name, w) l
                    /\ litellm (fold_left instrument_one l st) !! name = Some w)
    /\ (In name (map fst l) -> litellm st !! name = None ->
        original_litellm_funcs (fold_left instrument_one l st) !! name
        = original_litellm_funcs st !! name
        /\ litellm (fold_left instrument_one l st) !! name = None)
    /\ (~ In name (map fst l) ->
        original_litellm_funcs (fold_left instrument_one l st) !! name
        = original_litellm_funcs st !! name
        /\ litellm (fold_left instrument_one l st) !! name = litellm st !! name).
Proof.
  induction l as [|[n w] l IH]; intros st name Hnd.
  - simpl. split; [tauto|]. split; [tauto|]. auto.
  - inversion Hnd as [|? ? Hnotin Hnd']; subst. cbn [fold_left map fst In].
    destruct (IH (instrument_one st (n, w)) name Hnd') as [I1 [I2 I3]].
    destruct (String.eqb_spec n name) as [->|Hne].
    + (* the entry of [name] itself *)
      destruct (I3 Hnotin) as [R L].
      split; [|split].
      * intros _ o Ho. rewrite R, L. unfold instrument_one. rewrite Ho.
        cbn [litellm original_litellm_funcs]. rewrite !lookup_insert_eq.
        split; [reflexivity|]. exists w. auto.
      * intros _ Ho. rewrite R, L. unfold instrument_one. rewrite Ho. auto.
      * intros H. exfalso. apply H. auto.
    + destruct (instrument_one_other st (n, w) name Hne) as [R L].
      split; [|split].
      * intros [H|H] o Ho; [contradiction|].
        rewrite <- L in Ho. destruct (I1 H o Ho) as [A [w' [B C]]].
        split; [exact A|]. exists w'. auto.
      * intros [H|H] Ho; [contradiction|]. rewrite <- L in Ho.
        destruct (I2 H Ho) as [A B]. rewrite A, R. auto.
      * intros H. destruct I3 as [A B]; [tauto|]. rewrite A, B, R, L. auto.
Qed.

Lemma functions_to_instrument_nodup : List.NoDup (map fst functions_to_instrument).
Proof.
  unfold functions_to_instrument. simpl.
  repeat (constructor; [simpl; intuition discriminate|]). constructor.
Qed.

(** C10: installing and then removing the wrappers is a round trip.
    After [_instrument] every function that [litellm] defines among the
    seven names is replaced by its wrapper and saved in the registry;
    after [_uninstrument] each of them is again the very object saved at
    install time, and the registry is empty.  When the registry was
    empty before, the whole module is as it was. *)
Theorem instrument_uninstrument_round_trip (st : patch_state) :
  original_litellm_funcs (_uninstrument (_instrument st)) = ∅
  /\ (forall name original,
        In name (map fst functions_to_instrument) ->
        litellm st !! name = Some original ->
        (exists wrapper,
           In (name, wrapper) functions_to_instrument
           /\ litellm (_instrument st) !! name = Some wrapper)
        /\ original_litellm_funcs (_instrument st) !! name = Some original
        /\ litellm (_uninstrument (_instrument st)) !! name = Some original)
  /\ (original_litellm_funcs st = ∅ ->
      litellm (_uninstrument (_instrument st)) = litellm st).
Proof.
  split; [reflexivity|]. split.
  - intros name original Hin Ho.
    destruct (instrument_fold functions_to_instrument st name
                functions_to_instrument_nodup) as [I1 _].
    destruct (I1 Hin original Ho) as [A B].
    split; [exact B|]. split; [exact A|].
    rewrite uninstrument_lookup. unfold _instrument. rewrite A. reflexivity.
  - intros Hempty. apply map_eq. intros name.
    rewrite uninstrument_lookup. unfold _instrument.
    destruct (instrument_fold functions_to_instrument st name
                functions_to_instrument_nodup) as [I1 [I2 I3]].
    destruct (in_dec String.string_dec name (map fst functions_to_instrument))
      as [Hin|Hnin].
    + destruct (litellm st !! name) as [o|] eqn:Ho.
      * destruct (I1 Hin o eq_refl) as [-> _]. reflexivity.
      * destruct (I2 Hin eq_refl) as [-> ->]. rewrite Hempty, lookup_empty.
        reflexivity.
    + destruct (I3 Hnin) as [-> ->]. rewrite Hempty, lookup_empty. reflexivity.
Qed.

Lemma instrument_uninstrument_round_trip_witness :
  litellm (_uninstrument (_instrument sample_module)) !! "completion"
  = Some (LibraryFunction 1)
  /\ litellm (_uninstrument (_instrument sample_module)) = litellm sample_module.
Proof.
  pose proof (instrument_uninstrument_round_trip sample_module) as [_ [H2 H3]].
  split.
  - apply (H2 "completion" (LibraryFunction 1));
      [simpl; auto|vm_compute; reflexivity].
  - apply H3. reflexivity.
Defined.

End PatchFacts.


Module InvocationFacts.
Import Py Semconv Otel LiteLLM Statements GenFacts.

Lemma attribute_app (name : string) (a b : list otel_call) :
  attribute name (a ++ b)
  = match attribute name b with
    | Some v => Some v
    | None => attribute name a
    end.
Proof.
  induction a as [|c a IH]; simpl.
  - destruct (attribute name b); reflexivity.
  - rewrite IH. destruct (attribute name b); reflexivity.
Qed.

Lemma attribute_other (l : list otel_call) :
  (forall c, In c l -> other_call c) ->
  attribute LLM_INVOCATION_PARAMETERS l = None.
Proof.
  induction l as [|c l IH]; intros H; simpl; [reflexivity|].
  rewrite IH by (intros c' Hc; apply H; simpl; auto).
  specialize (H c (or_introl eq_refl)). destruct c; try reflexivity.
  simpl in H. destruct (String.eqb_spec k LLM_INVOCATION_PARAMETERS);
    [contradiction|reflexivity].
Qed.

Lemma set_span_attribute_call (name : string) (value : pyval) (c : otel_call) :
  In c (fst (_set_span_attribute name value)) -> c = SetAttribute name value.
Proof.
  unfold _set_span_attribute. destruct value as [| | |s| |]; simpl;
    try tauto; try (intros [<-|[]]; reflexivity).
  destruct s; simpl; [tauto|]. intros [<-|[]]. reflexivity.
Qed.

Lemma set_span_attribute_returns (name : string) (value : pyval) :
  snd (_set_span_attribute name value) = true.
Proof.
  unfold _set_span_attribute. destruct value as [| | |s| |]; try reflexivity.
  destruct s; reflexivity.
Qed.

Lemma set_each_call (f : string -> string) (g : gen (string * pyval))
    (c : otel_call) :
  In c (fst (set_each f g)) -> exists k v, c = SetAttribute (f k) v.
Proof.
  unfold set_each. cbn [fst]. intros H. apply in_flat_map in H.
  destruct H as [[k v] [_ H]]. apply set_span_attribute_call in H.
  exists k, v. exact H.
Qed.

Lemma gseq_returns {A} (g1 g2 : gen A) :
  snd g1 = true -> snd (gseq g1 g2) = snd g2.
Proof. unfold gseq. intros ->. reflexivity. Qed.

Lemma gseq_fst {A} (g1 g2 : gen A) :
  snd g1 = true -> fst (gseq g1 g2) = fst g1 ++ fst g2.
Proof. unfold gseq. intros ->. reflexivity. Qed.

Lemma gseq_raises {A} (g1 g2 : gen A) : snd g1 = false -> gseq g1 g2 = g1.
Proof. unfold gseq. intros ->. reflexivity. Qed.

Lemma gfor_returns {A B} (f : A -> gen B) (l : list A) :
  (forall x, snd (f x) = true) -> snd (gfor f l) = true.
Proof.
  intros H. induction l as [|x l IH]; simpl; [reflexivity|].
  rewrite gseq_returns by apply H. exact IH.
Qed.

Lemma messages_part_other (kwargs : list (string * pyval)) (c : otel_call) :
  In c (fst (messages_part kwargs)) -> other_call c.
Proof.
  unfold messages_part. cbv zeta.
  destruct (truthy _); [|simpl; tauto].
  destruct (py_iter _) as [l|]; [|simpl; tauto].
  intros H. apply in_gseq in H. destruct H as [H|H].
  - apply in_gfor in H. destruct H as [[i m] [_ H]].
    apply set_each_call in H. destruct H as [k [v ->]].
    simpl. discriminate.
  - destruct l; [simpl in H; tauto|].
    apply in_gseq in H.
    destruct H as [H|H]; apply set_span_attribute_call in H; subst c;
      simpl; discriminate.
Qed.

Lemma tools_part_other (kwargs : list (string * pyval)) (c : otel_call) :
  In c (fst (tools_part kwargs)) -> other_call c.
Proof.
  unfold tools_part. cbv zeta.
  destruct (truthy _); [|simpl; tauto].
  destruct (dict_get kwargs "tools"); try (simpl; tauto).
  intros H. apply in_gfor in H. destruct H as [[i m] [_ H]].
  apply set_span_attribute_call in H. subst c. simpl. discriminate.
Qed.

Lemma tools_part_returns (kwargs : list (string * pyval)) :
  snd (tools_part kwargs) = true.
Proof.
  unfold tools_part. cbv zeta. destruct (truthy _); [|reflexivity].
  destruct (dict_get kwargs "tools"); try reflexivity.
  apply gfor_returns. intros x. apply set_span_attribute_returns.
Qed.

Lemma invocation_parameters_call (kwargs : list (string * pyval)) :
  _set_span_attribute LLM_INVOCATION_PARAMETERS
    (PStr (safe_json_dumps (PDict (invocation_params kwargs))))
  = gyield (SetAttribute LLM_INVOCATION_PARAMETERS
              (PStr (safe_json_dumps (PDict (invocation_params kwargs))))).
Proof. reflexivity. Qed.

Lemma completion_unfold (kwargs : list (string * pyval)) :
  _instrument_func_type_completion kwargs
  = gseq (_set_span_attribute OPENINFERENCE_SPAN_KIND (PStr LLM))
      (gseq (_set_span_attribute LLM_MODEL_NAME
               (dict_get_default kwargs "model" (PStr "unknown_model")))
         (gseq (messages_part kwargs)
            (gseq (_set_span_attribute LLM_INVOCATION_PARAMETERS
                     (PStr (safe_json_dumps (PDict (invocation_params kwargs)))))
               (tools_part kwargs)))).
Proof. reflexivity. Qed.

Lemma invocation_params_keeps (kwargs : list (string * pyval)) (k : string) :
  k <> "api_key" -> k <> "messages" ->
  dict_get (invocation_params kwargs) k = dict_get kwargs k.
Proof.
  intros H1 H2. unfold invocation_params.
  induction kwargs as [|[k' v] kwargs IH]; [reflexivity|].
  cbn [List.filter fst].
  destruct (existsb (String.eqb k') KEYS_TO_REDACT) eqn:He;
    cbn [negb dict_get].
  - rewrite IH. destruct (String.eqb_spec k' k) as [->|Hne]; [|reflexivity].
    exfalso. apply existsb_exists in He. destruct He as [x [Hx He]].
    apply String.eqb_eq in He. subst x.
    destruct Hx as [<-|[<-|[]]]; congruence.
  - rewrite IH. reflexivity.
Qed.

Lemma invocation_params_redacts (kwargs : list (string * pyval)) (k : string) :
  In k KEYS_TO_REDACT -> dict_mem (invocation_params kwargs) k = false.
Proof.
  intros Hk. unfold invocation_params.
  induction kwargs as [|[k' v] kwargs IH]; [reflexivity|].
  cbn [List.filter fst].
  destruct (existsb (String.eqb k') KEYS_TO_REDACT) eqn:He;
    cbn [negb dict_mem]; [exact IH|].
  rewrite IH, orb_false_r.
  destruct (String.eqb_spec k' k) as [->|Hne]; [|reflexivity].
  exfalso. assert (existsb (String.eqb k) KEYS_TO_REDACT = true).
  { apply existsb_exists. exists k. split; [exact Hk|apply String.eqb_refl]. }
  congruence.
Qed.

(** C9 (as amended): the invocation parameters of a completion call.
    When the extraction of the input messages does not raise, the span
    gets the attribute llm.invocation_parameters, and its value is the
    JSON encoding of the arguments without the top-level keys "api_key"
    and "messages", every other entry kept as it is; when it raises, the
    attribute is not set.  Without messages it never raises.  (Only the
    two top-level entries are removed: the attribute is not promised to
    be free of the key's text.) *)
Theorem invocation_parameters_redacted (kwargs : list (string * pyval)) :
  attribute LLM_INVOCATION_PARAMETERS (fst (_instrument_func_type_completion kwargs))
  = (if snd (_instrument_func_type_completion kwargs)
     then Some (PStr (safe_json_dumps (PDict (invocation_params kwargs))))
     else None)
  /\ (truthy (dict_get kwargs "messages") = false ->
      snd (_instrument_func_type_completion kwargs) = true)
  /\ dict_mem (invocation_params kwargs) "api_key" = false
  /\ dict_mem (invocation_params kwargs) "messages" = false
  /\ (forall k, k <> "api_key" -> k <> "messages" ->
                dict_get (invocation_params kwargs) k = dict_get kwargs k).
Proof.
  assert (Hshape :
    fst (_instrument_func_type_completion kwargs)
    = fst (_set_span_attribute OPENINFERENCE_SPAN_KIND (PStr LLM))
        ++ fst (_set_span_attribute LLM_MODEL_NAME
                  (dict_get_default kwargs "model" (PStr "unknown_model")))
        ++ fst (messages_part kwargs)
        ++ (if snd (messages_part kwargs)
            then SetAttribute LLM_INVOCATION_PARAMETERS
                   (PStr (safe_json_dumps (PDict (invocation_params kwargs))))
                 :: fst (tools_part kwargs)
            else [])
    /\ snd (_instrument_func_type_completion kwargs) = snd (messages_part kwargs)).
  { rewrite completion_unfold.
    rewrite gseq_fst, gseq_returns by apply set_span_attribute_returns.
    rewrite gseq_fst, gseq_returns by apply set_span_attribute_returns.
    destruct (snd (messages_part kwargs)) eqn:Hm.
    - rewrite gseq_fst, gseq_returns by exact Hm.
      rewrite invocation_parameters_call.
      rewrite gseq_fst, gseq_returns by reflexivity.
      rewrite tools_part_returns. split; reflexivity.
    - rewrite (gseq_raises (messages_part kwargs)) by exact Hm.
      rewrite Hm, app_nil_r. split; reflexivity. }
  destruct Hshape as [Hfst Hsnd].
  assert (Hpre :
    attribute LLM_INVOCATION_PARAMETERS
      (fst (_set_span_attribute OPENINFERENCE_SPAN_KIND (PStr LLM))
         ++ fst (_set_span_attribute LLM_MODEL_NAME
                   (dict_get_default kwargs "model" (PStr "unknown_model")))
         ++ fst (messages_part kwargs)) = None).
  { apply attribute_other. intros c Hc.
    apply in_app_or in Hc. destruct Hc as [Hc|Hc].
    { apply set_span_attribute_call in Hc. subst c. simpl. discriminate. }
    apply in_app_or in Hc. destruct Hc as [Hc|Hc].
    { apply set_span_attribute_call in Hc. subst c. simpl. discriminate. }
    eapply messages_part_other. exact Hc. }
  split; [|split; [|split; [|split]]].
  - rewrite Hfst, Hsnd. destruct (snd (messages_part kwargs)).
    + rewrite !List.app_assoc, attribute_app.
      change (SetAttribute LLM_INVOCATION_PARAMETERS
                (PStr (safe_json_dumps (PDict (invocation_params kwargs))))
              :: fst (tools_part kwargs))
        with ([SetAttribute LLM_INVOCATION_PARAMETERS
                 (PStr (safe_json_dumps (PDict (invocation_params kwargs))))]
              ++ fst (tools_part kwargs)).
      rewrite attribute_app.
      rewrite (attribute_other (fst (tools_part kwargs)))
        by apply tools_part_other.
      reflexivity.
    + rewrite app_nil_r, !List.app_assoc. rewrite <- !List.app_assoc.
      exact Hpre.
  - intros Hm. rewrite Hsnd. unfold messages_part. cbv zeta. rewrite Hm.
    reflexivity.
  - apply invocation_params_redacts. simpl. auto.
  - apply invocation_params_redacts. simpl. auto.
  - apply invocation_params_keeps.
Qed.

Lemma invocation_parameters_redacted_witness :
  attribute LLM_INVOCATION_PARAMETERS
    (fst (_instrument_func_type_completion
            [("model", PStr "gpt-4"); ("api_key", PStr "sk-123")]))
  = Some (PStr ("{" +:+ dquote +:+ "model" +:+ dquote +:+ ": " +:+ dquote
                +:+ "gpt-4" +:+ dquote +:+ "}"))
  /\ attribute LLM_INVOCATION_PARAMETERS
       (fst (_instrument_func_type_completion kwargs_with_image))
     = Some (PStr "{}")
  /\ attribute (LLM_INPUT_MESSAGES +:+ ".0." +:+ MESSAGE_CONTENTS +:+ ".0."
                +:+ MESSAGE_CONTENT_IMAGE +:+ "." +:+ IMAGE_URL)
       (fst (_instrument_func_type_completion kwargs_with_image))
     = Some (PStr "https://example.org/cat.png").
Proof.
  pose proof
    (invocation_parameters_redacted
       [("model", PStr "gpt-4"); ("api_key", PStr "sk-123")]) as [H1 [H2 _]].
  pose proof (invocation_parameters_redacted kwargs_with_image) as [H3 _].
  split; [rewrite H1, (H2 eq_refl); reflexivity|].
  split; [rewrite H3; vm_compute; reflexivity|].
  vm_compute. reflexivity.
Defined.

(** C9 fails as stated: the serialised invocation parameters can contain
    the value of [api_key].  Only the top-level entry is removed, so a
    key that also travels in a header is still serialised. *)
Lemma invocation_parameters_can_contain_the_key :
  dict_get kwargs_with_header "api_key" = PStr "sk-123"
  /\ exists s,
       attribute LLM_INVOCATION_PARAMETERS
         (fst (_instrument_func_type_completion kwargs_with_header))
       = Some (PStr s)
       /\ contains "sk-123" s = true.
Proof.
  split; [reflexivity|]. eexists. split; [vm_compute; reflexivity|].
  vm_compute. reflexivity.
Qed.

End InvocationFacts.

Module FlattenFacts.
Import Py Semconv Otel LangChain LangChainFlatten GenFacts InvocationFacts.

(** Induction over Python values, with the hypothesis available for the
    items of a list and the values of a dict. *)
Lemma pyval_nested_ind (P : pyval -> Prop) :
  P PNone -> (forall b, P (PBool b)) -> (forall z, P (PInt z)) ->
  (forall s, P (PStr s)) ->
  (forall l, Forall P l -> P (PList l)) ->
  (forall d, Forall (fun kv => P (snd kv)) d -> P (PDict d)) ->
  forall v, P v.
Proof.
  intros HN HB HI HS HL HD. fix IH 1. intros [| b | z | s | l | d].
  - exact HN.
  - apply HB.
  - apply HI.
  - apply HS.
  - apply HL. induction l as [|x l IHl]; constructor; [apply IH|exact IHl].
  - apply HD. induction d as [|[k x] d IHd]; constructor; [apply IH|exact IHd].
Qed.

Lemma flatten_pair_dict (key : string) (d : list (string * pyval)) :
  flatten_pair key (PDict d) = under key (_flatten d).
Proof.
  reflexivity.
Qed.

Lemma flatten_pair_list (key : string) (l : list pyval) :
  flatten_pair key (PList l)
  = if existsb is_mapping l then flatten_list key 0 l else gyield (key, PList l).
Proof.
  simpl. destruct (existsb is_mapping l); [|reflexivity].
  generalize 0%nat. induction l as [|x l IH]; intros i; simpl; [reflexivity|].
  rewrite IH. reflexivity.
Qed.

Lemma flatten_pair_leaf (key : string) (v : pyval) :
  is_leaf v = true -> flatten_pair key v = gyield (key, v).
Proof.
  destruct v as [| b | z | s | l | d]; try reflexivity; try discriminate.
  intros H. rewrite flatten_pair_list. unfold is_leaf in H. simpl in H.
  destruct (existsb is_mapping l); [discriminate|reflexivity].
Qed.

Lemma under_values (key : string) (g : gen (string * pyval)) (kv : string * pyval) :
  In kv (fst (under key g)) ->
  exists sub_key, In (sub_key, snd kv) (fst g) /\ fst kv = key +:+ "." +:+ sub_key.
Proof.
  unfold under, gmap_keys. cbn [fst]. intros H. apply in_map_iff in H.
  destruct H as [[k v] [<- H]]. exists k. split; [exact H|reflexivity].
Qed.

Lemma in_flatten_items (d : list (string * pyval)) (kv : string * pyval) :
  In kv (fst (flatten_items d)) ->
  exists k v, In (k, v) d /\ In kv (fst (flatten_pair k v)).
Proof.
  induction d as [|[k v] d IH]; cbn [flatten_items]; [intros []|].
  intros H. apply in_gseq in H. destruct H as [H|H].
  - exists k, v. split; [left; reflexivity|exact H].
  - destruct (IH H) as [k' [v' [H1 H2]]]. exists k', v'. split; [right; exact H1|exact H2].
Qed.

Lemma in_flatten_list (key : string) (l : list pyval) (i : nat)
    (kv : string * pyval) :
  In kv (fst (flatten_list key i l)) ->
  exists j d sub_key,
    In (PDict d) l /\ In (sub_key, snd kv) (fst (_flatten d))
    /\ fst kv = key +:+ "." +:+ str_nat j +:+ "." +:+ sub_key.
Proof.
  revert i. induction l as [|x l IH]; intros i; cbn [flatten_list]; [intros []|].
  intros H. apply in_gseq in H. destruct H as [H|H].
  - destruct x as [| b | z | s | l0 | d]; try (destruct H; fail).
    unfold gmap_keys in H. cbn [fst] in H. apply in_map_iff in H.
    destruct H as [[k v] [<- H]]. exists i, d, k.
    split; [left; reflexivity|]. split; [exact H|reflexivity].
  - destruct (IH _ H) as [j [d [sk [H1 [H2 H3]]]]]. exists j, d, sk.
    split; [right; exact H1|]. split; [exact H2|exact H3].
Qed.

(** The values [_flatten] yields are leaves. *)
Lemma flatten_pair_leaves (v : pyval) :
  forall key kv, In kv (fst (flatten_pair key v)) -> is_leaf (snd kv) = true.
Proof.
  induction v as [| b | z | s | l IH | d IH] using pyval_nested_ind;
    intros key kv H; try (destruct H as [<-|[]]; reflexivity).
  - destruct H.
  - rewrite flatten_pair_list in H.
    destruct (existsb is_mapping l) eqn:He.
    + apply in_flatten_list in H. destruct H as [j [d [sk [H1 [H2 _]]]]].
      rewrite List.Forall_forall in IH. specialize (IH _ H1).
      apply (IH "" ("" +:+ "." +:+ sk, snd kv)).
      rewrite flatten_pair_dict. unfold under, gmap_keys. cbn [fst].
      apply in_map_iff. exists (sk, snd kv). split; [reflexivity|exact H2].
    + destruct H as [<-|[]]. unfold is_leaf. cbn. rewrite He. reflexivity.
  - rewrite flatten_pair_dict in H. apply under_values in H.
    destruct H as [sk [H _]]. unfold _flatten in H. cbn [fst stop_on_exception] in H.
    apply in_flatten_items in H. destruct H as [k [v [H1 H2]]].
    rewrite List.Forall_forall in IH. specialize (IH _ H1). cbn [snd] in IH.
    exact (IH k _ H2).
Qed.

Lemma flatten_items_leaves (kvs : list (string * pyval)) :
  Forall (fun kv => is_leaf (snd kv) = true) kvs -> flatten_items kvs = (kvs, true).
Proof.
  induction 1 as [|[k v] kvs Hl _ IH]; cbn [flatten_items]; [reflexivity|].
  cbn [snd] in Hl. rewrite (flatten_pair_leaf k v Hl), IH. reflexivity.
Qed.

Lemma gseq_assoc {A} (a b c : gen A) : gseq (gseq a b) c = gseq a (gseq b c).
Proof.
  destruct a as [la [|]], b as [lb [|]]; unfold gseq; cbn [fst snd];
    try reflexivity.
  rewrite List.app_assoc. reflexivity.
Qed.

Lemma flatten_items_app (a b : list (string * pyval)) :
  flatten_items (a ++ b) = gseq (flatten_items a) (flatten_items b).
Proof.
  induction a as [|[k v] a IH]; cbn [flatten_items app].
  - unfold gseq, gret. cbn [fst snd app]. destruct (flatten_items b); reflexivity.
  - rewrite IH, gseq_assoc. reflexivity.
Qed.

Lemma flatten_list_snd (key : string) (l : list pyval) (i : nat) :
  snd (flatten_list key i l) = forallb is_mapping l.
Proof.
  revert i. induction l as [|x l IH]; intros i; cbn [flatten_list forallb];
    [reflexivity|].
  destruct x; try reflexivity. rewrite gseq_returns by reflexivity. apply IH.
Qed.

Lemma flatten_pair_snd (key : string) (v : pyval) :
  snd (flatten_pair key v) = negb (is_mixed v).
Proof.
  destruct v as [| b | z | s | l | d]; try reflexivity.
  rewrite flatten_pair_list. unfold is_mixed.
  destruct (existsb is_mapping l); [|reflexivity].
  rewrite flatten_list_snd. cbn [andb]. rewrite negb_involutive. reflexivity.
Qed.

Lemma flatten_items_snd (kvs : list (string * pyval)) :
  snd (flatten_items kvs) = negb (existsb (fun kv => is_mixed (snd kv)) kvs).
Proof.
  induction kvs as [|[k v] kvs IH]; cbn [flatten_items existsb snd];
    [reflexivity|].
  pose proof (flatten_pair_snd k v) as Hs. unfold gseq.
  destruct (flatten_pair k v) as [items returned]. cbn [snd fst] in *.
  subst returned. destruct (is_mixed v); cbn [negb orb snd]; [reflexivity|exact IH].
Qed.

Lemma flatten_list_cut (key : string) (ds : list pyval) (x : pyval)
    (l' : list pyval) (i : nat) :
  forallb is_mapping ds = true -> is_mapping x = false ->
  flatten_list key i (ds ++ x :: l') = (fst (flatten_list key i ds), false).
Proof.
  revert i. induction ds as [|d ds IH]; intros i Hds Hx; cbn [flatten_list app].
  - destruct x; try discriminate; reflexivity.
  - cbn [forallb] in Hds. apply andb_prop in Hds. destruct Hds as [Hd Hds].
    destruct d; try discriminate. rewrite (IH (S i) Hds Hx).
    unfold gseq. cbn [fst snd gmap_keys _flatten stop_on_exception]. reflexivity.
Qed.

(** X1: the values [_flatten] yields are leaves: never [None], never a
    mapping, never a list that holds a mapping. *)
Theorem flatten_yields_leaves (key_values : list (string * pyval)) :
  forallb (fun kv => is_leaf (snd kv)) (fst (_flatten key_values)) = true.
Proof.
  apply forallb_forall. intros kv H. unfold _flatten in H.
  cbn [fst stop_on_exception] in H. apply in_flatten_items in H.
  destruct H as [k [v [_ H]]]. exact (flatten_pair_leaves v k kv H).
Qed.

(** X2: [_flatten] leaves flat input as it is, and is idempotent: what it
    yields is flat, so flattening it again changes nothing. *)
Theorem flatten_idempotent (key_values : list (string * pyval)) :
  (forallb (fun kv => is_leaf (snd kv)) key_values = true ->
   _flatten key_values = (key_values, true))
  /\ _flatten (fst (_flatten key_values)) = _flatten key_values.
Proof.
  assert (Hflat : forall kvs,
            forallb (fun kv => is_leaf (snd kv)) kvs = true ->
            _flatten kvs = (kvs, true)).
  { intros kvs H. unfold _flatten. rewrite flatten_items_leaves; [reflexivity|].
    apply List.Forall_forall. intros kv Hkv.
    exact (proj1 (forallb_forall _ _) H kv Hkv). }
  split; [apply Hflat|].
  rewrite Hflat.
  - reflexivity.
  - apply forallb_forall. intros kv H. unfold _flatten in H.
    cbn [fst stop_on_exception] in H. apply in_flatten_items in H.
    destruct H as [k [v [_ H]]]. exact (flatten_pair_leaves v k kv H).
Qed.

Lemma flatten_idempotent_witness :
  _flatten [("llm.model_name", PStr "gpt-4"); ("llm.prompts", PList [PStr "hi"])]
  = ([("llm.model_name", PStr "gpt-4"); ("llm.prompts", PList [PStr "hi"])], true).
Proof.
  exact (proj1 (flatten_idempotent
                  [("llm.model_name", PStr "gpt-4");
                   ("llm.prompts", PList [PStr "hi"])]) eq_refl).
Defined.

(** X3: every key [_flatten] yields is a key of its input or such a key
    followed by a dotted path; a pair yielded under an input key itself
    is that input pair, unchanged. *)
Theorem flatten_keys_extend_input (key_values : list (string * pyval))
    (kv : string * pyval) :
  In kv (fst (_flatten key_values)) ->
  exists key value,
    In (key, value) key_values
    /\ (kv = (key, value) \/ exists path, fst kv = key +:+ "." +:+ path).
Proof.
  unfold _flatten. cbn [fst stop_on_exception]. intros H.
  apply in_flatten_items in H. destruct H as [k [v [Hin H]]].
  exists k, v. split; [exact Hin|].
  destruct v as [| b | z | s | l | d];
    try (destruct H as [<-|[]]; left; reflexivity).
  - destruct H.
  - rewrite flatten_pair_list in H. destruct (existsb is_mapping l).
    + right. apply in_flatten_list in H. destruct H as [j [d [sk [_ [_ H]]]]].
      exists (str_nat j +:+ "." +:+ sk). exact H.
    + destruct H as [<-|[]]. left. reflexivity.
  - right. rewrite flatten_pair_dict in H. apply under_values in H.
    destruct H as [sk [_ H]]. exists sk. exact H.
Qed.

Lemma flatten_keys_extend_input_witness :
  exists key value,
    In (key, value) [("metadata", PDict [("user", PStr "ada")])]
    /\ ((("metadata.user", PStr "ada") : string * pyval) = (key, value)
        \/ exists path, "metadata.user" = key +:+ "." +:+ path).
Proof.
  apply (flatten_keys_extend_input
           [("metadata", PDict [("user", PStr "ada")])] ("metadata.user", PStr "ada")).
  vm_compute. left. reflexivity.
Defined.

(** X4: a level of [_flatten] is cut short exactly by a list that mixes
    mappings with other items.  The pairs before it are flattened, as
    are the mappings of the list that precede its first other item;
    every later pair of that level is lost.  A nested mapping never
    cuts the enclosing level short. *)
Theorem flatten_cut_short (before after : list (string * pyval)) (key : string)
    (ds : list pyval) (x : pyval) (l' : list pyval) :
  (forall key_values,
     snd (flatten_items key_values)
     = negb (existsb (fun kv => is_mixed (snd kv)) key_values))
  /\ (existsb (fun kv => is_mixed (snd kv)) before = false ->
      forallb is_mapping ds = true -> is_mapping x = false ->
      existsb is_mapping (ds ++ x :: l') = true ->
      _flatten (before ++ (key, PList (ds ++ x :: l')) :: after)
      = (fst (flatten_items before) ++ fst (flatten_list key 0 ds), true)).
Proof.
  split; [exact flatten_items_snd|].
  intros Hb Hds Hx He. unfold _flatten. rewrite flatten_items_app.
  cbn [flatten_items]. rewrite flatten_pair_list, He.
  rewrite (flatten_list_cut key ds x l' 0 Hds Hx).
  unfold gseq at 2. cbn [snd].
  unfold gseq. rewrite flatten_items_snd, Hb. reflexivity.
Qed.

Lemma flatten_cut_short_witness :
  _flatten [ ("a", PInt 1);
             ("b", PList [PDict [("c", PInt 2)]; PInt 3; PDict [("d", PInt 4)]]);
             ("e", PInt 5) ]
  = ([("a", PInt 1); ("b.0.c", PInt 2)], true).
Proof.
  exact (proj2 (flatten_cut_short [("a", PInt 1)] [("e", PInt 5)] "b"
                  [PDict [("c", PInt 2)]] (PInt 3) [PDict [("d", PInt 4)]])
           eq_refl eq_refl eq_refl eq_refl).
Defined.

End FlattenFacts.

Module ToolCallFacts.
Import Py Semconv SemconvMore Otel LangChain LangChainFlatten LangChainParsing.
Import Statements GenFacts InvocationFacts.

Lemma truthy_str_nonempty (s : string) : truthy (PStr s) = true -> s <> "".
Proof. simpl. intros H ->. discriminate. Qed.

Lemma yield_str_field_items (kwargs : list (string * pyval)) (key attr : string) :
  yield_str_field kwargs key attr = gret
  \/ yield_str_field kwargs key attr = graise
  \/ exists s, s <> "" /\ dict_get kwargs key = PStr s
                /\ yield_str_field kwargs key attr = gyield (attr, PStr s).
Proof.
  unfold yield_str_field. destruct (truthy (dict_get kwargs key)) eqn:Ht;
    [|left; reflexivity].
  destruct (dict_get kwargs key) as [| b | z | s | l | d] eqn:Hv;
    try (right; left; reflexivity).
  right. right. exists s. split; [apply truthy_str_nonempty; exact Ht|].
  split; reflexivity.
Qed.

Lemma yield_arguments_items (key : string) (arguments : pyval) :
  yield_arguments key arguments = gret
  \/ exists s, yield_arguments key arguments = gyield (key, PStr s).
Proof.
  unfold yield_arguments. destruct (truthy arguments); [|left; reflexivity].
  right. destruct arguments as [| b | z | s | l | d]; eexists; reflexivity.
Qed.

Lemma name_and_arguments (d : list (string * pyval)) (name_key args_key : string) :
  exists name arguments,
    fst (gseq (yield_str_field d name_key TOOL_CALL_FUNCTION_NAME)
           (yield_arguments TOOL_CALL_FUNCTION_ARGUMENTS_JSON (dict_get d args_key)))
    = name ++ arguments
    /\ (name = [] \/ exists s, s <> "" /\ name = [(TOOL_CALL_FUNCTION_NAME, PStr s)])
    /\ (arguments = []
        \/ exists s, arguments = [(TOOL_CALL_FUNCTION_ARGUMENTS_JSON, PStr s)]).
Proof.
  destruct (yield_str_field_items d name_key TOOL_CALL_FUNCTION_NAME)
    as [Hn|[Hn|[n [Hne [_ Hn]]]]]; rewrite Hn.
  - destruct (yield_arguments_items TOOL_CALL_FUNCTION_ARGUMENTS_JSON
                (dict_get d args_key)) as [Ha|[a Ha]]; rewrite Ha.
    + exists [], []. auto.
    + exists [], [(TOOL_CALL_FUNCTION_ARGUMENTS_JSON, PStr a)].
      split; [reflexivity|]. split; [left; reflexivity|right; exists a; reflexivity].
  - exists [], []. auto.
  - destruct (yield_arguments_items TOOL_CALL_FUNCTION_ARGUMENTS_JSON
                (dict_get d args_key)) as [Ha|[a Ha]]; rewrite Ha.
    + exists [(TOOL_CALL_FUNCTION_NAME, PStr n)], []. split; [reflexivity|].
      split; [right; exists n; auto|left; reflexivity].
    + exists [(TOOL_CALL_FUNCTION_NAME, PStr n)],
        [(TOOL_CALL_FUNCTION_ARGUMENTS_JSON, PStr a)].
      split; [reflexivity|].
      split; [right; exists n; auto|right; exists a; reflexivity].
Qed.

(** X5: a tool call is normalised to at most an id, a function name and
    the arguments, in this order, each at most once; the name is a
    non-empty string and the arguments are a string (text passes
    through, anything else is JSON-encoded). *)
Theorem tool_call_normal_form (tool_call : pyval) :
  exists id_ name arguments,
    _get_tool_call tool_call = (id_ ++ name ++ arguments, true)
    /\ (id_ = [] \/ exists v, v <> PNone /\ id_ = [(TOOL_CALL_ID, v)])
    /\ (name = [] \/ exists s, s <> "" /\ name = [(TOOL_CALL_FUNCTION_NAME, PStr s)])
    /\ (arguments = []
        \/ exists s, arguments = [(TOOL_CALL_FUNCTION_ARGUMENTS_JSON, PStr s)]).
Proof.
  assert (Hnone : exists id_ name arguments : list (string * pyval),
            (([] : list (string * pyval)), true) = (id_ ++ name ++ arguments, true)
            /\ (id_ = [] \/ exists v, v <> PNone /\ id_ = [(TOOL_CALL_ID, v)])
            /\ (name = []
                \/ exists s, s <> "" /\ name = [(TOOL_CALL_FUNCTION_NAME, PStr s)])
            /\ (arguments = []
                \/ exists s,
                     arguments = [(TOOL_CALL_FUNCTION_ARGUMENTS_JSON, PStr s)])).
  { exists [], [], []. auto. }
  unfold _get_tool_call.
  destruct (truthy tool_call) eqn:Ht; cbn [negb]; [|exact Hnone].
  destruct tool_call as [| b | z | s | l | tc]; try exact Hnone.
  set (id_part := if is_none (dict_get tc "id") then gret
                  else gyield (TOOL_CALL_ID, dict_get tc "id")).
  assert (Hid : snd id_part = true
                /\ (fst id_part = []
                    \/ exists v, v <> PNone /\ fst id_part = [(TOOL_CALL_ID, v)])).
  { subst id_part. destruct (dict_get tc "id") eqn:Hv; cbn;
      (split; [reflexivity|]); try (left; reflexivity);
      right; eexists; (split; [|reflexivity]); discriminate. }
  destruct Hid as [Hret Hid].
  unfold stop_on_exception. rewrite gseq_fst by exact Hret.
  destruct (truthy (dict_get tc "function")) eqn:Hf.
  - destruct (dict_get tc "function") as [| b | z | s | l | f];
      try (exists (fst id_part), [], []; cbn [fst graise];
           rewrite !app_nil_r; auto; fail).
    destruct (name_and_arguments f "name" "arguments") as [n [a [He [Hn Ha]]]].
    exists (fst id_part), n, a. rewrite He. auto.
  - destruct (name_and_arguments tc "name" "args") as [n [a [He [Hn Ha]]]].
    exists (fst id_part), n, a. rewrite He. auto.
Qed.

(** X6: the two upstream shapes of a tool call normalise alike: a call
    that carries its name and arguments in a [function] mapping yields
    what a call carrying them as [name] and [args] yields. *)
Theorem tool_call_shapes_agree (nested plain f : list (string * pyval)) :
  dict_get nested "function" = PDict f -> f <> [] ->
  truthy (dict_get plain "function") = false ->
  dict_get nested "id" = dict_get plain "id" ->
  dict_get f "name" = dict_get plain "name" ->
  dict_get f "arguments" = dict_get plain "args" ->
  _get_tool_call (PDict nested) = _get_tool_call (PDict plain).
Proof.
  intros Hf Hne Hp Hid Hname Hargs. unfold _get_tool_call.
  assert (Hn : truthy (PDict nested) = true).
  { destruct nested; [discriminate Hf|reflexivity]. }
  rewrite Hn. cbn [negb]. rewrite Hf, Hp, Hid.
  assert (Hft : truthy (PDict f) = true) by (destruct f; [contradiction|reflexivity]).
  rewrite Hft. unfold yield_str_field. rewrite Hname, Hargs.
  destruct plain as [|kv plain].
  - cbn. reflexivity.
  - reflexivity.
Qed.

Lemma tool_call_shapes_agree_witness :
  _get_tool_call
    (PDict [ ("id", PStr "call_1");
             ("function", PDict [ ("name", PStr "search");
                                  ("arguments", PDict [("q", PStr "rocq")]) ]) ])
  = _get_tool_call
      (PDict [ ("id", PStr "call_1"); ("name", PStr "search");
               ("args", PDict [("q", PStr "rocq")]) ]).
Proof.
  apply (tool_call_shapes_agree
           [ ("id", PStr "call_1");
             ("function", PDict [ ("name", PStr "search");
                                  ("arguments", PDict [("q", PStr "rocq")]) ]) ]
           [ ("id", PStr "call_1"); ("name", PStr "search");
             ("args", PDict [("q", PStr "rocq")]) ]
           [ ("name", PStr "search"); ("arguments", PDict [("q", PStr "rocq")]) ]);
    try reflexivity.
  discriminate.
Defined.

End ToolCallFacts.

Module MessageParseFacts.
Import Py Semconv SemconvMore Otel LangChain LangChainFlatten LangChainParsing.
Import Statements GenFacts InvocationFacts MessageFacts FlattenFacts.

Lemma stop_on_exception_returns {A} (g : gen A) : snd (stop_on_exception g) = true.
Proof. reflexivity. Qed.

(** X7: the four extractors of a message run independently: what
    [_parse_message_data] yields is what each of them yields, in order,
    whether or not another one failed.  In particular a message whose
    class is not recognised, or whose id is missing, still gets its
    string content extracted. *)
Theorem parse_message_data_parts (message_data : pyval) :
  _parse_message_data message_data
  = (fst (_extract_message_role message_data)
       ++ fst (_extract_message_kwargs message_data)
       ++ fst (_extract_message_additional_kwargs message_data)
       ++ fst (_extract_message_tool_calls message_data), true)
  /\ forall md kw s,
       message_data = PDict md -> dict_get md "kwargs" = PDict kw ->
       dict_get kw "content" = PStr s -> s <> "" ->
       In (MESSAGE_CONTENT, PStr s) (fst (_parse_message_data message_data)).
Proof.
  assert (He : _parse_message_data message_data
               = (fst (_extract_message_role message_data)
                    ++ fst (_extract_message_kwargs message_data)
                    ++ fst (_extract_message_additional_kwargs message_data)
                    ++ fst (_extract_message_tool_calls message_data), true)).
  { unfold _parse_message_data, stop_on_exception.
    rewrite !gseq_fst by reflexivity. reflexivity. }
  split; [exact He|].
  intros md kw s -> Hmd Hkw Hs. rewrite He. cbn [fst].
  apply in_or_app. right. apply in_or_app. left.
  exact (proj1 (langchain_string_content md kw s Hmd Hkw Hs)).
Qed.

Lemma parse_message_data_parts_witness :
  In (MESSAGE_CONTENT, PStr "hi")
    (fst (_parse_message_data
            (PDict [ ("id", PList [PStr "custom"; PStr "NoteMessage"]);
                     ("kwargs", PDict [("content", PStr "hi")]) ]))).
Proof.
  apply (proj2 (parse_message_data_parts
                  (PDict [ ("id", PList [PStr "custom"; PStr "NoteMessage"]);
                           ("kwargs", PDict [("content", PStr "hi")]) ]))
           [ ("id", PList [PStr "custom"; PStr "NoteMessage"]);
             ("kwargs", PDict [("content", PStr "hi")]) ]
           [("content", PStr "hi")] "hi");
    try reflexivity.
  discriminate.
Defined.

Lemma dict_get_nonempty (d : list (string * pyval)) (k : string) :
  dict_get d k <> PNone -> truthy (PDict d) = true.
Proof. destruct d; [intros H; contradiction H; reflexivity|reflexivity]. Qed.

(** X8: only the first set of candidate messages, and only the first set
    of generations, is looked at: the later sets and the other entries
    of the record do not change what is extracted. *)
Theorem first_set_only (inputs inputs' outputs outputs' : list (string * pyval))
    (first_messages first_generations : pyval)
    (other_messages other_messages' other_generations other_generations'
       : list pyval) :
  (dict_get inputs "messages" = PList (first_messages :: other_messages) ->
   dict_get inputs' "messages" = PList (first_messages :: other_messages') ->
   _input_messages (PDict inputs) = _input_messages (PDict inputs'))
  /\ (dict_get outputs "generations"
      = PList (first_generations :: other_generations) ->
      dict_get outputs' "generations"
      = PList (first_generations :: other_generations') ->
      _output_messages (PDict outputs) = _output_messages (PDict outputs')).
Proof.
  split; intros H H'.
  - unfold _input_messages.
    rewrite (dict_get_nonempty inputs "messages") by (rewrite H; discriminate).
    rewrite (dict_get_nonempty inputs' "messages") by (rewrite H'; discriminate).
    rewrite H, H'. reflexivity.
  - unfold _output_messages.
    rewrite (dict_get_nonempty outputs "generations") by (rewrite H; discriminate).
    rewrite (dict_get_nonempty outputs' "generations") by (rewrite H'; discriminate).
    rewrite H, H'. reflexivity.
Qed.

Lemma first_set_only_witness :
  _input_messages
    (PDict [("messages",
             PList [ PList [PDict [("kwargs", PDict [("content", PStr "a")])]];
                     PList [PDict [("kwargs", PDict [("content", PStr "b")])]] ])])
  = _input_messages
      (PDict [("messages",
               PList [PList [PDict [("kwargs", PDict [("content", PStr "a")])]]])]).
Proof.
  exact (proj1 (first_set_only
                  [("messages",
                    PList [ PList [PDict [("kwargs", PDict [("content", PStr "a")])]];
                            PList [PDict [("kwargs", PDict [("content", PStr "b")])]] ])]
                  [("messages",
                    PList [PList [PDict [("kwargs", PDict [("content", PStr "a")])]]])]
                  [] []
                  (PList [PDict [("kwargs", PDict [("content", PStr "a")])]]) PNone
                  [PList [PDict [("kwargs", PDict [("content", PStr "b")])]]] [] [] [])
           eq_refl eq_refl).
Defined.

Lemma parse_entries_all (entries : list pyval) :
  parse_entries entries
  = if forallb has_get entries
    then Some (map (fun m => PDict (dict_of (fst (_parse_message_data m)))) entries)
    else None.
Proof.
  induction entries as [|m entries IH]; cbn [parse_entries forallb map];
    [reflexivity|].
  unfold parse_entry. destruct (has_get m); cbn [andb]; [|reflexivity].
  rewrite IH. destruct (forallb has_get entries); reflexivity.
Qed.

Lemma input_messages_of_mappings (inputs : list (string * pyval))
    (m : pyval) (entries others : list pyval) :
  dict_get inputs "messages" = PList (PList (m :: entries) :: others) ->
  forallb has_get (m :: entries) = true ->
  _input_messages (PDict inputs)
  = ([(LLM_INPUT_MESSAGES,
       PList (map (fun m => PDict (dict_of (fst (_parse_message_data m))))
                (m :: entries)))], true).
Proof.
  intros H Hall. unfold _input_messages.
  rewrite (dict_get_nonempty inputs "messages") by (rewrite H; discriminate).
  rewrite H. cbn [negb truthy py_iter first_item parse_first_messages].
  rewrite parse_entries_all, Hall. reflexivity.
Qed.

(** X9: the input messages are extracted all or none.  When every entry
    of the first set is a mapping, one parsed message is yielded per
    entry, in order (an entry from which nothing could be parsed still
    takes its place); when one entry is not a mapping, nothing is
    yielded. *)
Theorem input_messages_all_or_none (inputs : list (string * pyval))
    (entries others : list pyval) :
  dict_get inputs "messages" = PList (PList entries :: others) ->
  entries <> [] ->
  _input_messages (PDict inputs)
  = if forallb has_get entries
    then ([(LLM_INPUT_MESSAGES,
            PList (map (fun m => PDict (dict_of (fst (_parse_message_data m))))
                     entries))], true)
    else ([], true).
Proof.
  intros H Hne. unfold _input_messages.
  rewrite (dict_get_nonempty inputs "messages") by (rewrite H; discriminate).
  rewrite H. cbn [negb truthy py_iter first_item].
  destruct entries as [|m entries]; [contradiction|].
  cbn [parse_first_messages]. rewrite parse_entries_all.
  destruct (forallb has_get (m :: entries)); reflexivity.
Qed.

Lemma input_messages_all_or_none_witness :
  _input_messages
    (PDict [("messages",
             PList [PList [ PDict [("kwargs", PDict [("content", PStr "a")])];
                            PInt 7 ]])])
  = ([], true).
Proof.
  exact (input_messages_all_or_none
           [("messages",
             PList [PList [ PDict [("kwargs", PDict [("content", PStr "a")])];
                            PInt 7 ]])]
           [PDict [("kwargs", PDict [("content", PStr "a")])]; PInt 7] []
           eq_refl ltac:(discriminate)).
Defined.

Lemma in_flatten_list_nth (key : string) (l : list pyval) (i : nat)
    (kv : string * pyval) :
  In kv (fst (flatten_list key i l)) ->
  exists j d sub_key,
    nth_error l j = Some (PDict d) /\ In (sub_key, snd kv) (fst (_flatten d))
    /\ fst kv = key +:+ "." +:+ str_nat (i + j) +:+ "." +:+ sub_key.
Proof.
  revert i. induction l as [|x l IH]; intros i; cbn [flatten_list]; [intros []|].
  intros H. apply in_gseq in H. destruct H as [H|H].
  - destruct x as [| b | z | s | l0 | d]; try (destruct H; fail).
    unfold gmap_keys in H. cbn [fst] in H. apply in_map_iff in H.
    destruct H as [[k v] [<- H]]. exists 0%nat, d, k. rewrite Nat.add_0_r.
    split; [reflexivity|]. split; [exact H|reflexivity].
  - destruct (IH _ H) as [j [d [sk [H1 [H2 H3]]]]]. exists (S j), d, sk.
    split; [exact H1|]. split; [exact H2|].
    rewrite H3. replace (S i + j)%nat with (i + S j)%nat by lia. reflexivity.
Qed.

Lemma flatten_list_nth_in (key : string) (l : list pyval) (i j : nat)
    (d : list (string * pyval)) (sub_key : string) (v : pyval) :
  forallb is_mapping l = true -> nth_error l j = Some (PDict d) ->
  In (sub_key, v) (fst (_flatten d)) ->
  In (key +:+ "." +:+ str_nat (i + j) +:+ "." +:+ sub_key, v)
     (fst (flatten_list key i l)).
Proof.
  revert i j. induction l as [|x l IH]; intros i j Hall Hn Hin.
  - destruct j; discriminate Hn.
  - cbn [forallb] in Hall. apply andb_prop in Hall. destruct Hall as [Hx Hall].
    cbn [flatten_list]. destruct j as [|j].
    + cbn [nth_error] in Hn. injection Hn as ->. rewrite Nat.add_0_r.
      apply in_gseq_l. unfold gmap_keys. cbn [fst]. apply in_map_iff.
      exists (sub_key, v). split; [reflexivity|exact Hin].
    + cbn [nth_error] in Hn. apply in_gseq_r.
      * destruct x; try discriminate Hx. reflexivity.
      * replace (i + S j)%nat with (S i + j)%nat by lia.
        apply IH; assumption.
Qed.

Lemma map_dicts_mappings {A} (f : A -> list (string * pyval)) (l : list A) :
  forallb is_mapping (map (fun x => PDict (f x)) l) = true.
Proof. induction l as [|x l IH]; [reflexivity|exact IH]. Qed.

(** X10: flattened, the input messages are keyed by their position: the
    attributes of the message at position [j] of the first set, and
    only they, appear under [llm.input_messages.j.], each with the key
    and value the flattening of that parsed message gives it. *)
Theorem input_messages_keyed_by_position (inputs : list (string * pyval))
    (entries others : list pyval) (kv : string * pyval) :
  dict_get inputs "messages" = PList (PList entries :: others) ->
  forallb has_get entries = true ->
  In kv (fst (_flatten (fst (_input_messages (PDict inputs)))))
  <-> exists j m sub_key,
        nth_error entries j = Some m
        /\ In (sub_key, snd kv)
             (fst (_flatten (dict_of (fst (_parse_message_data m)))))
        /\ fst kv
           = LLM_INPUT_MESSAGES +:+ "." +:+ str_nat j +:+ "." +:+ sub_key.
Proof.
  intros H Hall. destruct entries as [|m0 entries].
  { unfold _input_messages.
    rewrite (dict_get_nonempty inputs "messages") by (rewrite H; discriminate).
    rewrite H. cbn. split; [intros []|].
    intros [j [m [sk [Hn _]]]]. destruct j; discriminate Hn. }
  rewrite (input_messages_of_mappings inputs m0 entries others H Hall).
  cbn [fst].
  set (parsed := fun m => dict_of (fst (_parse_message_data m))).
  change (map (fun m => PDict (dict_of (fst (_parse_message_data m)))) (m0 :: entries))
    with (map (fun m => PDict (parsed m)) (m0 :: entries)).
  unfold _flatten at 1. cbn [fst stop_on_exception flatten_items].
  rewrite flatten_pair_list.
  assert (He : existsb is_mapping (map (fun m => PDict (parsed m)) (m0 :: entries))
               = true) by reflexivity.
  rewrite He. clear He.
  assert (Hs : snd (flatten_list LLM_INPUT_MESSAGES 0
                      (map (fun m => PDict (parsed m)) (m0 :: entries))) = true).
  { rewrite flatten_list_snd. apply map_dicts_mappings. }
  rewrite gseq_fst by exact Hs. cbn [gret fst]. rewrite app_nil_r.
  split.
  - intros Hin. apply in_flatten_list_nth in Hin.
    destruct Hin as [j [d [sk [Hn [Hd Hk]]]]].
    rewrite nth_error_map in Hn.
    destruct (nth_error (m0 :: entries) j) as [m|] eqn:Hm; [|discriminate Hn].
    cbn [option_map] in Hn. injection Hn as <-.
    exists j, m, sk. split; [exact Hm|]. split; [exact Hd|exact Hk].
  - intros [j [m [sk [Hn [Hd Hk]]]]]. destruct kv as [k v]. cbn [fst snd] in *.
    rewrite Hk.
    apply (flatten_list_nth_in LLM_INPUT_MESSAGES _ 0 j (parsed m) sk v).
    + apply map_dicts_mappings.
    + rewrite nth_error_map, Hn. reflexivity.
    + exact Hd.
Qed.

Lemma input_messages_keyed_by_position_witness :
  In ("llm.input_messages.1.message.content", PStr "b")
    (fst (_flatten
            (fst (_input_messages
                    (PDict [("messages",
                             PList [PList
                               [ PDict [("kwargs", PDict [("content", PStr "a")])];
                                 PDict [("kwargs", PDict [("content", PStr "b")])]
                               ]])]))))).
Proof.
  apply (proj2 (input_messages_keyed_by_position
                  [("messages",
                    PList [PList
                      [ PDict [("kwargs", PDict [("content", PStr "a")])];
                        PDict [("kwargs", PDict [("content", PStr "b")])] ]])]
                  [ PDict [("kwargs", PDict [("content", PStr "a")])];
                    PDict [("kwargs", PDict [("content", PStr "b")])] ] []
                  ("llm.input_messages.1.message.content", PStr "b")
                  eq_refl eq_refl)).
  exists 1%nat, (PDict [("kwargs", PDict [("content", PStr "b")])]), "message.content".
  split; [reflexivity|]. split; [|reflexivity].
  vm_compute. left. reflexivity.
Defined.

End MessageParseFacts.

Module IoFacts.
Import Py Semconv SemconvMore Otel LangChain.
Import Statements GenFacts InvocationFacts.

Lemma convert_io_items (obj : pyval) :
  fst (_convert_io obj) = []
  \/ (exists v, _convert_io obj = ([v], true))
  \/ (exists v, _convert_io obj = ([v; JSON], true)).
Proof.
  unfold _convert_io. destruct (truthy obj); cbn [negb]; [|left; reflexivity].
  destruct obj as [| b | z | s | l | d]; try (left; reflexivity).
  assert (Hd : exists v, gseq (gyield (_json_dumps (PDict d))) (gyield JSON)
                         = ([v; JSON], true)) by (eexists; reflexivity).
  destruct d as [|[key value] [|kv d]]; try (right; right; exact Hd).
  destruct value;
    try (destruct (String.eqb key "input" || String.eqb key "output");
         [|right; right; exact Hd];
         match goal with
         | |- context [is_structured_json ?j] =>
             destruct (is_structured_json j);
             [right; right; eexists; reflexivity|right; left; eexists; reflexivity]
         end).
  right. left. eexists. reflexivity.
Qed.

(** X11: the input and output attributes of a record come as nothing, as
    a value alone, or as a value with the JSON MIME type: a MIME type
    never appears without a value and is never anything but JSON.
    Nothing is yielded for an empty record or for anything that is not
    a record; a record of two or more fields always yields its JSON
    encoding with the MIME type. *)
Theorem io_attributes_shape (obj : pyval) :
  (exists items,
     _as_input (_convert_io obj) = (items, true)
     /\ _as_output (_convert_io obj)
        = (map (fun kv => (if String.eqb (fst kv) INPUT_VALUE then OUTPUT_VALUE
                           else OUTPUT_MIME_TYPE, snd kv)) items, true)
     /\ (items = []
         \/ (exists v, items = [(INPUT_VALUE, v)])
         \/ (exists v, items = [(INPUT_VALUE, v); (INPUT_MIME_TYPE, JSON)])))
  /\ (truthy obj && has_get obj = false -> fst (_as_input (_convert_io obj)) = [])
  /\ (forall kv1 kv2 d, obj = PDict (kv1 :: kv2 :: d) ->
        fst (_as_input (_convert_io obj))
        = [(INPUT_VALUE, _json_dumps obj); (INPUT_MIME_TYPE, JSON)]).
Proof.
  split; [|split].
  - unfold _as_input, _as_output, stop_on_exception. cbn [fst].
    destruct (convert_io_items obj) as [H|[[v H]|[v H]]]; rewrite H.
    + exists []. auto.
    + exists [(INPUT_VALUE, v)]. split; [reflexivity|]. split; [reflexivity|].
      right. left. exists v. reflexivity.
    + exists [(INPUT_VALUE, v); (INPUT_MIME_TYPE, JSON)].
      split; [reflexivity|]. split; [reflexivity|].
      right. right. exists v. reflexivity.
  - intros H. unfold _convert_io. destruct (truthy obj); [|reflexivity].
    destruct obj; try reflexivity. discriminate H.
  - intros kv1 kv2 d ->. destruct kv1, kv2. reflexivity.
Qed.

Lemma io_attributes_shape_witness :
  fst (_as_input (_convert_io (PList [PStr "not a record"]))) = []
  /\ fst (_as_input (_convert_io (PDict [("a", PInt 1); ("b", PInt 2)])))
     = [ (INPUT_VALUE, _json_dumps (PDict [("a", PInt 1); ("b", PInt 2)]));
         (INPUT_MIME_TYPE, JSON) ].
Proof.
  split.
  - exact (proj1 (proj2 (io_attributes_shape (PList [PStr "not a record"])))
             eq_refl).
  - exact (proj2 (proj2 (io_attributes_shape (PDict [("a", PInt 1); ("b", PInt 2)])))
             ("a", PInt 1) ("b", PInt 2) [] eq_refl).
Defined.

End IoFacts.

Module TraceFacts.
Import Py Semconv Otel LangChain LangChainTrace.
Import Statements GenFacts OtelFacts.

Section WithExtractors.

Variable run_attribute_batches : Run -> list (gmap string pyval) * bool.

Lemma end_calls_set_attributes (batches : list (gmap string pyval)) :
  end_calls (map SetAttributes batches) = [].
Proof. induction batches as [|b batches IH]; [reflexivity|exact IH]. Qed.

(** X12: a run that is started and then ended has its span ended exactly
    once.  The span is registered with an untouched handle; ending the
    run sets the status and the attributes, ends the handle with the
    run's end time even when the attribute update failed, and removes
    the run from both registries; ending it again changes nothing. *)
Theorem trace_ended_once (separate : bool) (parent_run_id : option string)
    (start_time_utc_nano : Z) (run run' : Run) (t : tracer) :
  run_id run' = run_id run ->
  let t1 := fst (_start_trace false separate parent_run_id start_time_utc_nano
                   run t) in
  let t2 := _end_trace run_attribute_batches false run' t1 in
  let handle :=
    [SetStatus (run_status run')]
      ++ map SetAttributes (fst (run_attribute_batches run'))
      ++ [End (end_time run')] in
  get_span (run_id run) t1 = Some []
  /\ ended t2 = ended t ++ [(run_id run, handle)]
  /\ end_calls handle = [End (end_time run')]
  /\ get_span (run_id run) t2 = None
  /\ run_map t2 !! run_id run = None
  /\ _end_trace run_attribute_batches false run' t2 = t2.
Proof.
  intros Hid t1 t2 handle. subst t1 t2 handle.
  unfold _start_trace, get_span, _end_trace, _update_span.
  cbn [fst negb _spans_by_run run_map ended logged]. rewrite Hid.
  rewrite !lookup_insert_eq. cbn [app].
  cbn [_spans_by_run run_map ended logged].
  rewrite !lookup_delete_eq.
  split; [reflexivity|]. split; [|split; [|split; [reflexivity|split; [reflexivity|]]]].
  - reflexivity.
  - cbn [end_calls List.filter is_end]. fold (end_calls
      (map SetAttributes (fst (run_attribute_batches run')) ++ [End (end_time run')])).
    rewrite end_calls_app, end_calls_set_attributes. reflexivity.
  - f_equal. apply delete_delete_eq.
Qed.

(** X13: suppression leaves spans as they are.  A run started under
    suppression is recorded in the run map but gets no span; a run
    ended under suppression is forgotten by the run map, while the span
    it was given before stays registered and is not ended. *)
Theorem trace_suppressed (separate : bool) (parent_run_id : option string)
    (start_time_utc_nano : Z) (run : Run) (t : tracer) :
  (let t1 := _start_trace true separate parent_run_id start_time_utc_nano run t in
   snd t1 = None /\ _spans_by_run (fst t1) = _spans_by_run t
   /\ run_map (fst t1) !! run_id run = Some run)
  /\ (let t1 := fst (_start_trace false separate parent_run_id
                       start_time_utc_nano run t) in
      let t2 := _end_trace run_attribute_batches true run t1 in
      get_span (run_id run) t2 = Some [] /\ ended t2 = ended t
      /\ run_map t2 !! run_id run = None).
Proof.
  split; cbv zeta; unfold _start_trace, _end_trace, get_span;
    cbn [fst snd _spans_by_run run_map ended].
  - split; [reflexivity|]. split; [reflexivity|]. apply lookup_insert_eq.
  - split; [apply lookup_insert_eq|]. split; [reflexivity|]. apply lookup_delete_eq.
Qed.

(** X14: a child run is attached to its parent's span only while the
    parent is in flight.  Started while the parent's span is registered,
    the child's span is created in the context of that span; started
    after the parent run has ended, it is created detached: in a fresh
    context when traces are kept separate from the runtime context, in
    the runtime context otherwise. *)
Theorem child_span_follows_parent (separate : bool)
    (grandparent_run_id : option string) (parent_start child_start : Z)
    (parent child : Run) (t : tracer) :
  let t1 := fst (_start_trace false separate grandparent_run_id parent_start
                   parent t) in
  let t2 := _end_trace run_attribute_batches false parent t1 in
  let child_context t :=
    option_map context
      (snd (_start_trace false separate (Some (run_id parent)) child_start
              child t)) in
  child_context t1 = Some (ParentSpan (run_id parent))
  /\ child_context t2
     = Some (if separate then FreshContext else RuntimeContext).
Proof.
  cbv zeta. split.
  - unfold _start_trace. cbn [fst snd _spans_by_run option_map context].
    rewrite lookup_insert_eq. reflexivity.
  - unfold _end_trace at 1. unfold _start_trace at 2.
    cbn [fst _spans_by_run]. rewrite lookup_insert_eq.
    destruct (_update_span run_attribute_batches [] parent) as [span completed].
    unfold _start_trace. cbn [snd _spans_by_run option_map context].
    rewrite lookup_delete_eq. reflexivity.
Qed.

End WithExtractors.

Lemma trace_ended_once_witness :
  ended
    (_end_trace no_attributes false (failed_run "ValueError('boom')")
       (fst (_start_trace false false None 0 (failed_run "ValueError('boom')")
               {| run_map := ∅; _spans_by_run := ∅; ended := []; logged := [] |})))
  = [("run-1",
      [ SetStatus {| status_code := ERROR;
                     description := Some "ValueError('boom')" |};
        End None ])].
Proof.
  exact (proj1 (proj2 (trace_ended_once no_attributes false None 0
                         (failed_run "ValueError('boom')")
                         (failed_run "ValueError('boom')")
                         {| run_map := ∅; _spans_by_run := ∅; ended := [];
                            logged := [] |} eq_refl))).
Defined.

End TraceFacts.

Module ResultFacts.
Import Py Semconv SemconvMore Otel LiteLLM LiteLLMResults.
Import Statements GenFacts InvocationFacts.

Lemma set_attr_cases (name : string) (value : pyobj) :
  set_attr name value = if settable value then [Attribute name value] else [].
Proof.
  destruct value as [[| b | z | s | l | d]|attrs]; try reflexivity.
  destruct s; reflexivity.
Qed.

Lemma set_attr_attributes (name : string) (value : pyobj) :
  forallb is_attribute (set_attr name value) = true.
Proof.
  destruct value as [[| b | z | s | l | d]|attrs]; try reflexivity.
  destruct s; reflexivity.
Qed.

Lemma set_if_present_cases (name : string) (obj : pyobj) (key : string) :
  set_if_present name obj key
  = if settable (_get_value obj key)
    then [Attribute name (_get_value obj key)] else [].
Proof.
  unfold set_if_present. rewrite set_attr_cases.
  destruct (_get_value obj key) as [[| b | z | s | l | d]|attrs]; reflexivity.
Qed.

Lemma set_if_present_attributes (name : string) (obj : pyobj) (key : string) :
  forallb is_attribute (set_if_present name obj key) = true.
Proof.
  unfold set_if_present. destruct (is_None _); [reflexivity|].
  apply set_attr_attributes.
Qed.

Lemma forallb_app_true {A} (f : A -> bool) (a b : list A) :
  forallb f a = true -> forallb f b = true -> forallb f (a ++ b) = true.
Proof. intros Ha Hb. rewrite forallb_app, Ha, Hb. reflexivity. Qed.

Lemma token_counts_attributes (result : pyobj) :
  forallb is_attribute (_set_token_counts_from_usage result) = true.
Proof.
  unfold _set_token_counts_from_usage.
  destruct (getattr result "usage") as [usage|]; [|reflexivity].
  destruct (obj_truthy usage); [|reflexivity]. cbn [negb].
  repeat (apply forallb_app_true);
    try apply set_if_present_attributes;
    (destruct (is_None _); [reflexivity|]);
    apply forallb_app_true; apply set_if_present_attributes.
Qed.

Lemma set_all_attributes (f : string -> string) (g : gen (string * pyval)) :
  forallb is_attribute (fst (set_all f g)) = true.
Proof.
  unfold set_all. cbn [fst]. induction (fst g) as [|kv l IH]; [reflexivity|].
  cbn [flat_map]. apply forallb_app_true; [apply set_attr_attributes|exact IH].
Qed.

Lemma gseq_forallb {A} (f : A -> bool) (g1 g2 : gen A) :
  forallb f (fst g1) = true -> forallb f (fst g2) = true ->
  forallb f (fst (gseq g1 g2)) = true.
Proof.
  intros H1 H2. unfold gseq. destruct (snd g1); [|exact H1].
  cbn [fst]. apply forallb_app_true; assumption.
Qed.

Lemma gfor_forallb {A B} (f : B -> bool) (body : A -> gen B) (l : list A) :
  (forall x, forallb f (fst (body x)) = true) ->
  forallb f (fst (gfor body l)) = true.
Proof.
  intros H. induction l as [|x l IH]; [reflexivity|].
  cbn [gfor]. apply gseq_forallb; [apply H|exact IH].
Qed.

Lemma response_calls_attributes (r : response) :
  forallb is_attribute (fst (response_calls r)) = true.
Proof.
  destruct r as [choices dump|data|data|]; cbn [response_calls]; try reflexivity.
  - apply gseq_forallb.
    + unfold _set_output_message_value, dumped.
      destruct (last_choice choices) as [[message|]|];
        try (cbn [fst]; apply forallb_app_true; apply set_attr_attributes).
      destruct (message_content message) as [v|]; [|reflexivity].
      destruct (truthy v); cbn [fst];
        [apply set_attr_attributes
        |apply forallb_app_true; apply set_attr_attributes].
    + apply gfor_forallb. intros [i [message|]]; [|reflexivity].
      apply set_all_attributes.
  - destruct (truthy data); [|reflexivity].
    destruct (LangChain.getitem0 data) as [[| b | z | s | l | d]|]; try reflexivity.
    apply set_attr_attributes.
  - unfold image_calls.
    destruct data as [|[url b64|d|t] data]; try reflexivity.
    + destruct (truthy _); [|reflexivity]. cbn [fst].
      apply forallb_app_true; apply set_attr_attributes.
    + destruct d; [reflexivity|]. destruct (truthy _); [|reflexivity]. cbn [fst].
      apply forallb_app_true; apply set_attr_attributes.
Qed.

Lemma last_attribute_app (name : string) (a b : list span_call) :
  last_attribute name (a ++ b)
  = match last_attribute name b with
    | Some v => Some v
    | None => last_attribute name a
    end.
Proof.
  induction a as [|c a IH]; cbn [app last_attribute].
  - destruct (last_attribute name b); reflexivity.
  - rewrite IH. destruct (last_attribute name b); reflexivity.
Qed.

Lemma last_attribute_set_if_present (name name' : string) (obj : pyobj)
    (key : string) :
  last_attribute name (set_if_present name' obj key)
  = if String.eqb name' name && settable (_get_value obj key)
    then Some (_get_value obj key) else None.
Proof.
  rewrite set_if_present_cases. destruct (settable _); cbn [last_attribute].
  - destruct (String.eqb name' name); reflexivity.
  - rewrite andb_false_r. reflexivity.
Qed.

Lemma is_None_not_settable (x : pyobj) : is_None x = true -> x = Value PNone.
Proof. destruct x as [[| | | | |]|]; try discriminate. reflexivity. Qed.

(** X15: the token counts LiteLLM reports are recorded as they are: the
    prompt count is [prompt_tokens], untouched by the cache counts; the
    cache-read count, which two fields feed, ends up as
    [cache_read_input_tokens] when that is set and as the
    [cached_tokens] of the prompt details otherwise.  A result without
    a [usage] attribute, or with a falsy one, gives no count at all. *)
Theorem token_counts_last_write_wins (result usage : pyobj) :
  (getattr result "usage" = Some usage -> obj_truthy usage = true ->
   let direct := _get_value usage "cache_read_input_tokens" in
   let nested :=
     _get_value (_get_value usage "prompt_tokens_details") "cached_tokens" in
   let prompt := _get_value usage "prompt_tokens" in
   last_attribute LLM_TOKEN_COUNT_PROMPT_DETAILS_CACHE_READ
     (_set_token_counts_from_usage result)
   = (if settable direct then Some direct
      else if settable nested then Some nested else None)
   /\ last_attribute LLM_TOKEN_COUNT_PROMPT (_set_token_counts_from_usage result)
      = (if settable prompt then Some prompt else None))
  /\ (getattr result "usage" = None -> _set_token_counts_from_usage result = [])
  /\ (getattr result "usage" = Some usage -> obj_truthy usage = false ->
      _set_token_counts_from_usage result = []).
Proof.
  split; [|split].
  - intros Hu Ht. cbv zeta. unfold _set_token_counts_from_usage.
    rewrite Hu, Ht. cbn [negb].
    set (pd := _get_value usage "prompt_tokens_details").
    set (cd := _get_value usage "completion_tokens_details").
    assert (Hpd : forall name,
              last_attribute name
                (if is_None pd then []
                 else set_if_present LLM_TOKEN_COUNT_PROMPT_DETAILS_CACHE_READ pd
                        "cached_tokens"
                      ++ set_if_present LLM_TOKEN_COUNT_PROMPT_DETAILS_AUDIO pd
                           "audio_tokens")
              = last_attribute name
                  (set_if_present LLM_TOKEN_COUNT_PROMPT_DETAILS_CACHE_READ pd
                     "cached_tokens"
                   ++ set_if_present LLM_TOKEN_COUNT_PROMPT_DETAILS_AUDIO pd
                        "audio_tokens")).
    { intros name. destruct (is_None pd) eqn:Hn; [|reflexivity].
      rewrite (is_None_not_settable pd Hn). reflexivity. }
    assert (Hcd : forall name,
              last_attribute name
                (if is_None cd then []
                 else set_if_present LLM_TOKEN_COUNT_COMPLETION_DETAILS_REASONING cd
                        "reasoning_tokens"
                      ++ set_if_present LLM_TOKEN_COUNT_COMPLETION_DETAILS_AUDIO cd
                           "audio_tokens")
              = last_attribute name
                  (set_if_present LLM_TOKEN_COUNT_COMPLETION_DETAILS_REASONING cd
                     "reasoning_tokens"
                   ++ set_if_present LLM_TOKEN_COUNT_COMPLETION_DETAILS_AUDIO cd
                        "audio_tokens")).
    { intros name. destruct (is_None cd) eqn:Hn; [|reflexivity].
      rewrite (is_None_not_settable cd Hn). reflexivity. }
    split.
    + rewrite !last_attribute_app, Hpd, Hcd, !last_attribute_app,
        !last_attribute_set_if_present.
      change (String.eqb LLM_TOKEN_COUNT_PROMPT_DETAILS_CACHE_READ
                LLM_TOKEN_COUNT_PROMPT_DETAILS_CACHE_READ) with true.
      change (String.eqb LLM_TOKEN_COUNT_PROMPT_DETAILS_CACHE_WRITE
                LLM_TOKEN_COUNT_PROMPT_DETAILS_CACHE_READ) with false.
      change (String.eqb LLM_TOKEN_COUNT_TOTAL
                LLM_TOKEN_COUNT_PROMPT_DETAILS_CACHE_READ) with false.
      change (String.eqb LLM_TOKEN_COUNT_COMPLETION_DETAILS_AUDIO
                LLM_TOKEN_COUNT_PROMPT_DETAILS_CACHE_READ) with false.
      change (String.eqb LLM_TOKEN_COUNT_COMPLETION_DETAILS_REASONING
                LLM_TOKEN_COUNT_PROMPT_DETAILS_CACHE_READ) with false.
      change (String.eqb LLM_TOKEN_COUNT_COMPLETION
                LLM_TOKEN_COUNT_PROMPT_DETAILS_CACHE_READ) with false.
      change (String.eqb LLM_TOKEN_COUNT_PROMPT_DETAILS_AUDIO
                LLM_TOKEN_COUNT_PROMPT_DETAILS_CACHE_READ) with false.
      change (String.eqb LLM_TOKEN_COUNT_PROMPT
                LLM_TOKEN_COUNT_PROMPT_DETAILS_CACHE_READ) with false.
      cbn [andb].
      destruct (settable (_get_value usage "cache_read_input_tokens"));
        [reflexivity|].
      destruct (settable (_get_value pd "cached_tokens")); reflexivity.
    + rewrite !last_attribute_app, Hpd, Hcd, !last_attribute_app,
        !last_attribute_set_if_present.
      change (String.eqb LLM_TOKEN_COUNT_PROMPT_DETAILS_CACHE_READ
                LLM_TOKEN_COUNT_PROMPT) with false.
      change (String.eqb LLM_TOKEN_COUNT_PROMPT_DETAILS_CACHE_WRITE
                LLM_TOKEN_COUNT_PROMPT) with false.
      change (String.eqb LLM_TOKEN_COUNT_TOTAL LLM_TOKEN_COUNT_PROMPT) with false.
      change (String.eqb LLM_TOKEN_COUNT_COMPLETION_DETAILS_AUDIO
                LLM_TOKEN_COUNT_PROMPT) with false.
      change (String.eqb LLM_TOKEN_COUNT_COMPLETION_DETAILS_REASONING
                LLM_TOKEN_COUNT_PROMPT) with false.
      change (String.eqb LLM_TOKEN_COUNT_COMPLETION LLM_TOKEN_COUNT_PROMPT)
        with false.
      change (String.eqb LLM_TOKEN_COUNT_PROMPT_DETAILS_AUDIO
                LLM_TOKEN_COUNT_PROMPT) with false.
      change (String.eqb LLM_TOKEN_COUNT_PROMPT LLM_TOKEN_COUNT_PROMPT) with true.
      cbn [andb]. reflexivity.
  - intros Hu. unfold _set_token_counts_from_usage. rewrite Hu. reflexivity.
  - intros Hu Ht. unfold _set_token_counts_from_usage. rewrite Hu, Ht. reflexivity.
Qed.

Lemma token_counts_last_write_wins_witness :
  last_attribute LLM_TOKEN_COUNT_PROMPT_DETAILS_CACHE_READ
    (_set_token_counts_from_usage
       (Object [("usage",
                 Object [ ("prompt_tokens", Value (PInt 10));
                          ("prompt_tokens_details",
                           Object [("cached_tokens", Value (PInt 4))]);
                          ("cache_read_input_tokens", Value (PInt 3)) ])]))
  = Some (Value (PInt 3))
  /\ last_attribute LLM_TOKEN_COUNT_PROMPT
       (_set_token_counts_from_usage
          (Object [("usage",
                    Object [ ("prompt_tokens", Value (PInt 10));
                             ("prompt_tokens_details",
                              Object [("cached_tokens", Value (PInt 4))]);
                             ("cache_read_input_tokens", Value (PInt 3)) ])]))
     = Some (Value (PInt 10)).
Proof.
  exact (proj1 (token_counts_last_write_wins
                  (Object [("usage",
                            Object [ ("prompt_tokens", Value (PInt 10));
                                     ("prompt_tokens_details",
                                      Object [("cached_tokens", Value (PInt 4))]);
                                     ("cache_read_input_tokens", Value (PInt 3)) ])])
                  (Object [ ("prompt_tokens", Value (PInt 10));
                            ("prompt_tokens_details",
                             Object [("cached_tokens", Value (PInt 4))]);
                            ("cache_read_input_tokens", Value (PInt 3)) ]))
           eq_refl eq_refl).
Defined.

Section WithStr.

Variable str_of : pyobj -> string.
Variable extraction_error : BaseException.

Lemma span_status_rule (result : pyobj) :
  exists st,
    _set_span_status str_of result = [StatusSet st]
    /\ (status_code st = OK
        <-> is_None (_get_value result "error") = true
            /\ forall d, result = Value (PDict d) -> dict_get d "error" = PNone).
Proof.
  unfold _set_span_status.
  destruct (is_None (_get_value result "error")) eqn:He.
  - destruct result as [[| b | z | s | l | d]|attrs];
      try (rewrite He; eexists; split; [reflexivity|];
           split; [intros _; split; [reflexivity|intros d' [=]]|reflexivity]).
    destruct (dict_get d "error") eqn:Hd; cbn [is_None];
      eexists; (split; [reflexivity|]); cbn [status_code];
      try (split; [discriminate|];
           intros [_ H]; specialize (H d eq_refl); rewrite Hd in H; discriminate H).
    split; [|reflexivity]. intros _. split; [reflexivity|].
    intros d' [= <-]. exact Hd.
  - cbv beta iota zeta. rewrite He.
    eexists. split; [reflexivity|]. cbn [status_code].
    split; [discriminate|]. intros [H _]. discriminate H.
Qed.

(** X16: [_finalize_span] sets the status exactly once, as its last call,
    and only when nothing raised before; every other call it makes sets
    an attribute to a value that is neither [None] nor the empty
    string, so it never records an exception and never ends the span.
    The status is OK unless the result carries an error, as an
    attribute or, for a dict, under the key "error". *)
Theorem finalize_span_sets_status_last (r : response) (result : pyobj) :
  exists attributes st,
    forallb is_attribute attributes = true
    /\ _finalize_span str_of r result
       = (if snd (response_calls r)
          then (attributes ++ [StatusSet st], true)
          else (attributes, false))
    /\ (status_code st = OK
        <-> is_None (_get_value result "error") = true
            /\ forall d, result = Value (PDict d) -> dict_get d "error" = PNone).
Proof.
  destruct (span_status_rule result) as [st [Hst Hok]].
  unfold _finalize_span, gseq.
  destruct (snd (response_calls r)) eqn:Hs.
  - exists (fst (response_calls r) ++ _set_token_counts_from_usage result), st.
    split; [|split; [|exact Hok]].
    + apply forallb_app_true;
        [apply response_calls_attributes|apply token_counts_attributes].
    + cbn [fst snd]. rewrite Hst, <- !List.app_assoc. reflexivity.
  - exists (fst (response_calls r)), st.
    split; [apply response_calls_attributes|].
    split; [|exact Hok].
    destruct (response_calls r) as [calls returned]. cbn [fst snd] in *.
    subst returned. reflexivity.
Qed.

End WithStr.

Lemma finalize_span_sets_status_last_witness :
  exists attributes st,
    forallb is_attribute attributes = true
    /\ _finalize_span (fun _ => "") OtherResponse (Value PNone)
       = (if snd (response_calls OtherResponse)
          then (attributes ++ [StatusSet st], true)
          else (attributes, false))
    /\ (status_code st = OK
        <-> is_None (_get_value (Value PNone) "error") = true
            /\ forall d, Value PNone = Value (PDict d) -> dict_get d "error" = PNone).
Proof.
  exact (finalize_span_sets_status_last (fun _ => "") OtherResponse (Value PNone)).
Defined.

End ResultFacts.

Module StreamFacts.
Import Py Semconv SemconvMore Otel LiteLLM LiteLLMResults.
Import Statements GenFacts InvocationFacts ResultFacts.

Lemma append_empty_r (s : string) : s +:+ "" = s.
Proof. induction s as [|c s IH]; [reflexivity|]. simpl. rewrite IH. reflexivity. Qed.

Lemma message_get_set (m : messages) (i j : Z) (x : option string * string) :
  message_get (message_set m i x) j
  = if (i =? j)%Z then Some x else message_get m j.
Proof.
  induction m as [|[k y] m IH]; cbn [message_set message_get].
  - reflexivity.
  - destruct (k =? i)%Z eqn:Hki; cbn [message_get].
    + apply Z.eqb_eq in Hki. subst k. destruct (i =? j)%Z; reflexivity.
    + rewrite IH. destruct (k =? j)%Z eqn:Hkj; [|reflexivity].
      apply Z.eqb_eq in Hkj. subst k. rewrite Z.eqb_sym, Hki. reflexivity.
Qed.

Lemma add_choice_get (m : messages) (c : StreamingChoice) (idx : Z) :
  message_get (add_choice m c) idx
  = if (index c =? idx)%Z then absorb (message_get m idx) (delta c)
    else message_get m idx.
Proof.
  unfold add_choice, absorb.
  destruct (index c =? idx)%Z eqn:Hi.
  - apply Z.eqb_eq in Hi. subst idx.
    destruct (message_get m (index c)) as [[role content]|] eqn:Hm.
    + rewrite Hm. destruct (delta c) as [d|]; [|exact Hm].
      rewrite message_get_set, Z.eqb_refl. reflexivity.
    + rewrite message_get_set, Z.eqb_refl.
      destruct (delta c) as [d|].
      * rewrite message_get_set, Z.eqb_refl. reflexivity.
      * rewrite message_get_set, Z.eqb_refl. reflexivity.
  - remember (match message_get m (index c) with
              | Some _ => m
              | None => message_set m (index c) (None, "")
              end) as m1 eqn:Hm1.
    assert (H1 : message_get m1 idx = message_get m idx).
    { subst m1. destruct (message_get m (index c)); [reflexivity|].
      rewrite message_get_set, Hi. reflexivity. }
    destruct (delta c) as [d|]; [|exact H1].
    destruct (message_get m1 (index c)) as [[role content]|]; [|exact H1].
    rewrite message_get_set, Hi. exact H1.
Qed.

Lemma absorb_some (role : option string) (content : string) (d : option Delta) :
  absorb (Some (role, content)) d
  = Some (match d, role with
          | Some {| delta_role := Some r |}, None => Some r
          | _, _ => role
          end,
          match d with
          | Some {| delta_content := Some text |} => content +:+ text
          | _ => content
          end).
Proof. destruct d as [[[r|] [t|]]|]; destruct role; reflexivity. Qed.

Lemma gathered_state (ds : list (option Delta)) (role : option string)
    (content : string) :
  fold_left absorb ds (Some (role, content))
  = Some (match role with Some _ => role | None => head (roles ds) end,
          content +:+ joined (texts ds)).
Proof.
  revert role content. induction ds as [|d ds IH]; intros role content;
    cbn [fold_left].
  - cbn [roles texts flat_map joined fold_right head].
    rewrite append_empty_r. destruct role; reflexivity.
  - rewrite absorb_some, IH.
    destruct d as [[[r|] [t|]]|]; destruct role;
      cbn [roles texts flat_map joined fold_right app head];
      rewrite ?GenFacts.app_assoc; reflexivity.
Qed.


Lemma gathered_choices (cs : list StreamingChoice) (m : messages) (idx : Z) :
  message_get (fold_left add_choice cs m) idx
  = fold_left absorb
      (flat_map (fun c => if (index c =? idx)%Z then [delta c] else []) cs)
      (message_get m idx).
Proof.
  revert m. induction cs as [|c cs IH]; intros m; cbn [fold_left flat_map];
    [reflexivity|].
  rewrite IH, add_choice_get, fold_left_app.
  destruct (index c =? idx)%Z; reflexivity.
Qed.

Lemma gathered_chunks (tokens : list chunk) (state : messages * pyobj) (idx : Z) :
  message_get (fst (fold_left add_chunk tokens state)) idx
  = fold_left absorb (deltas_of idx tokens) (message_get (fst state) idx).
Proof.
  revert state. induction tokens as [|token tokens IH]; intros state;
    cbn [fold_left deltas_of flat_map]; [reflexivity|].
  rewrite IH. unfold add_chunk. cbn [fst].
  rewrite gathered_choices, fold_left_app. reflexivity.
Qed.

(** What a stream leaves for a choice is what its deltas say, in order:
    nothing for a choice no chunk mentions; otherwise the first role any
    of its deltas carries and the texts of its deltas joined. *)
Lemma gathered_message (tokens : list chunk) (idx : Z) :
  message_get (fst (gather tokens)) idx
  = match deltas_of idx tokens with
    | [] => None
    | ds => Some (head (roles ds), joined (texts ds))
    end.
Proof.
  unfold gather. rewrite gathered_chunks. cbn [fst message_get].
  destruct (deltas_of idx tokens) as [|d ds]; [reflexivity|].
  cbn [fold_left].
  assert (Hfirst : forall d : option Delta,
            absorb None d = absorb (Some (None, "")) d) by reflexivity.
  rewrite Hfirst, absorb_some, gathered_state.
  destruct d as [[[r|] [t|]]|];
    cbn [roles texts flat_map joined fold_right app head]; reflexivity.
Qed.

Lemma message_param_returns (role : pyval) (content : string) :
  snd (_get_attributes_from_message_param
         (PDict [("role", role); ("content", PStr content)])) = true.
Proof.
  unfold _get_attributes_from_message_param.
  cbn [dict_get String.eqb Ascii.eqb Bool.eqb].
  destruct (truthy role); destruct (truthy (PStr content)); reflexivity.
Qed.

Lemma stream_attributes_returns (state : messages * pyobj) :
  snd (stream_attributes state) = true.
Proof.
  unfold stream_attributes. cbv zeta.
  rewrite gseq_returns by reflexivity.
  rewrite gseq_returns.
  - destruct (obj_truthy (snd state)); reflexivity.
  - apply gfor_returns. intros [i [role content]]. unfold set_all. cbn [snd fst].
    apply message_param_returns.
Qed.

Lemma stream_attributes_attributes (state : messages * pyobj) :
  forallb is_attribute (fst (stream_attributes state)) = true.
Proof.
  unfold stream_attributes. cbv zeta.
  apply gseq_forallb; [apply set_attr_attributes|].
  apply gseq_forallb.
  - apply gfor_forallb. intros entry. apply set_all_attributes.
  - destruct (obj_truthy (snd state)); [|reflexivity].
    apply token_counts_attributes.
Qed.

Lemma attributes_only (calls : list span_call) :
  forallb is_attribute calls = true ->
  existsb is_ended calls = false
  /\ List.filter is_exception calls = []
  /\ List.filter is_status calls = [].
Proof.
  induction calls as [|c calls IH]; cbn [forallb existsb List.filter]; [auto|].
  intros H. apply andb_prop in H. destruct H as [Hc H].
  destruct (IH H) as [H1 [H2 H3]].
  destruct c; try discriminate Hc. cbn. auto.
Qed.

Section WithStr.

Variable str_of : pyobj -> string.
Variable extraction_error : BaseException.

(** X17: however the stream ends, the streaming finalisers, once
    started, end the span exactly once, as their last call.  An
    [Exception] that ends the stream is recorded once before that, and
    no other exception is; the status is set (to OK) only by the
    synchronous finaliser and only when the stream ran out; a stream
    the consumer closes after a chunk is ended with nothing else
    recorded.  A finaliser that is closed before it has yielded its
    first chunk has not started: it makes no call, and the span is not
    ended. *)
Theorem stream_span_ended_once (sync : bool) (tokens : list chunk)
    (how : stream_end) :
  finalize_stream str_of extraction_error sync [] Closed = []
  /\ ((how = Closed -> tokens <> []) ->
  exists calls,
    finalize_stream str_of extraction_error sync tokens how = calls ++ [Ended]
    /\ existsb is_ended calls = false
    /\ List.filter is_exception calls
       = match how with
         | Raised e =>
             if isinstance e "Exception" then [ExceptionRecorded e] else []
         | _ => []
         end
    /\ List.filter is_status calls
       = match how with
         | Exhausted =>
             if sync then [StatusSet {| status_code := OK; description := None |}]
             else []
         | _ => []
         end
    /\ (how = Closed -> calls = [])).
Proof.
  split; [reflexivity|]. intros Hstarted.
  destruct how as [|e|]; cbn [finalize_stream].
  - rewrite stream_attributes_returns.
    destruct (attributes_only _ (stream_attributes_attributes (gather tokens)))
      as [H1 [H2 H3]].
    destruct sync.
    + exists (fst (stream_attributes (gather tokens))
              ++ [StatusSet {| status_code := OK; description := None |}]).
      split; [rewrite <- List.app_assoc; reflexivity|].
      rewrite existsb_app, !List.filter_app, H1, H2, H3.
      split; [reflexivity|]. split; [reflexivity|]. split; [reflexivity|].
      discriminate.
    + exists (fst (stream_attributes (gather tokens))).
      rewrite H1, H2, H3. split; [reflexivity|].
      split; [reflexivity|]. split; [reflexivity|]. split; [reflexivity|].
      discriminate.
  - destruct (isinstance e "Exception").
    + exists [ExceptionRecorded e]. repeat (split; [reflexivity|]). discriminate.
    + exists []. repeat (split; [reflexivity|]). discriminate.
  - destruct tokens as [|token tokens']; [exfalso; apply (Hstarted eq_refl); reflexivity|].
    exists []. repeat (split; [reflexivity|]). reflexivity.
Qed.

Lemma message_get_in (m : messages) (idx : Z) (x : option string * string) :
  message_get m idx = Some x -> In (idx, x) m.
Proof.
  induction m as [|[i y] m IH]; cbn [message_get]; [discriminate|].
  destruct (i =? idx)%Z eqn:Hi.
  - intros [= ->]. apply Z.eqb_eq in Hi. subst i. left. reflexivity.
  - intros H. right. exact (IH H).
Qed.

Lemma in_gfor_returns {A B} (f : A -> gen B) (l : list A) (x : A) (y : B) :
  (forall a, snd (f a) = true) -> In x l -> In y (fst (f x)) ->
  In y (fst (gfor f l)).
Proof.
  intros Hret. induction l as [|a l IH]; cbn [gfor]; [intros []|].
  intros [->|Hin] Hy.
  - apply in_gseq_l. exact Hy.
  - apply in_gseq_r; [apply Hret|]. exact (IH Hin Hy).
Qed.

(** X18: when the stream runs out, what is recorded for a choice some
    chunk mentions is what its deltas say, in order: the joined text of
    the deltas as the content of output message [idx] and, for choice 0,
    as the output value; the first role a delta carries as the role of
    the message. *)
Theorem stream_records_joined_content (sync : bool) (tokens : list chunk)
    (idx : Z) :
  deltas_of idx tokens <> [] ->
  let ds := deltas_of idx tokens in
  let calls := finalize_stream str_of extraction_error sync tokens Exhausted in
  let message_key key :=
    LLM_OUTPUT_MESSAGES +:+ "." +:+ str_Z idx +:+ "." +:+ key in
  (joined (texts ds) <> "" ->
   In (Attribute (message_key MESSAGE_CONTENT) (Value (PStr (joined (texts ds)))))
      calls
   /\ (idx = 0%Z ->
       In (Attribute OUTPUT_VALUE (Value (PStr (joined (texts ds))))) calls))
  /\ (forall role, head (roles ds) = Some role -> role <> "" ->
      In (Attribute (message_key MESSAGE_ROLE) (Value (PStr role))) calls).
Proof.
  intros Hds ds calls message_key. subst ds calls message_key.
  cbn [finalize_stream]. rewrite stream_attributes_returns.
  pose proof (gathered_message tokens idx) as Hget.
  destruct (deltas_of idx tokens) as [|d ds] eqn:Hd; [contradiction|].
  cbv zeta in Hget.
  remember (joined (texts (d :: ds))) as content eqn:Hcontent.
  remember (head (roles (d :: ds))) as first_role eqn:Hrole.
  clear Hcontent Hrole.
  assert (Hentry : forall kv : string * pyval,
            In kv (fst (_get_attributes_from_message_param
                          (PDict [ ("role", role_value first_role);
                                   ("content", PStr content) ]))) ->
            settable (Value (snd kv)) = true ->
            In (Attribute
                  (LLM_OUTPUT_MESSAGES +:+ "." +:+ str_Z idx +:+ "." +:+ fst kv)
                  (Value (snd kv)))
               (fst (stream_attributes (gather tokens)))).
  { intros kv Hkv Hset.
    unfold stream_attributes. cbv zeta.
    apply in_gseq_r; [reflexivity|]. apply in_gseq_l.
    apply (in_gfor_returns _ _ (idx, (first_role, content))).
    - intros [i [r t]]. apply message_param_returns.
    - apply message_get_in. exact Hget.
    - unfold set_all. cbn [fst snd]. apply in_flat_map.
      exists kv. split; [exact Hkv|].
      rewrite set_attr_cases, Hset. left. reflexivity. }
  split.
  - intros Htext.
    destruct content as [|c content]; [contradiction Htext; reflexivity|].
    split.
    + apply in_or_app. left.
      apply (Hentry (MESSAGE_CONTENT, PStr (String c content))); [|reflexivity].
      unfold _get_attributes_from_message_param.
      cbn [dict_get String.eqb Ascii.eqb Bool.eqb].
      apply in_gseq_r; [destruct (truthy (role_value first_role)); reflexivity|].
      apply in_gseq_l. left. reflexivity.
    + intros ->. apply in_or_app. left. unfold stream_attributes. cbv zeta.
      apply in_gseq_l. cbn [fst]. rewrite Hget. left. reflexivity.
  - intros role -> Hrole.
    destruct role as [|c role]; [contradiction Hrole; reflexivity|].
    apply in_or_app. left.
    apply (Hentry (MESSAGE_ROLE, PStr (String c role))); [|reflexivity].
    unfold _get_attributes_from_message_param.
    cbn [dict_get String.eqb Ascii.eqb Bool.eqb].
    apply in_gseq_l. left. reflexivity.
Qed.

Lemma gathered_usage (tokens : list chunk) (state : messages * pyobj) :
  snd (fold_left add_chunk tokens state) = snd state
  \/ exists token,
       In token tokens /\ snd (fold_left add_chunk tokens state) = chunk_usage token.
Proof.
  revert state. induction tokens as [|token tokens IH]; intros state;
    cbn [fold_left]; [left; reflexivity|].
  destruct (IH (add_chunk state token)) as [H|[token' [Hin H]]].
  - rewrite H. unfold add_chunk. cbn [snd].
    destruct (obj_truthy (chunk_usage token)); [|left; reflexivity].
    right. exists token. split; [left; reflexivity|reflexivity].
  - right. exists token'. split; [right; exact Hin|exact H].
Qed.

Lemma in_set_attr (name name' : string) (value value' : pyobj) :
  In (Attribute name' value') (set_attr name value) -> name' = name.
Proof.
  rewrite set_attr_cases. destruct (settable value); [|intros []].
  intros [[= <- _]|[]]. reflexivity.
Qed.

(** X19: the streaming finalisers hand the usage object of the last chunk
    that carries one to [_set_token_counts_from_usage], which looks for
    a [usage] attribute on what it is given.  So when the usage objects
    of the chunks carry their counts themselves and have no [usage]
    attribute of their own, no token count is recorded for the stream:
    the attributes set are the output value and the output messages
    only. *)
Theorem stream_token_counts_need_nested_usage (sync : bool)
    (tokens : list chunk) (how : stream_end) (name : string) (value : pyobj) :
  (forall token, In token tokens -> getattr (chunk_usage token) "usage" = None) ->
  In (Attribute name value)
     (finalize_stream str_of extraction_error sync tokens how) ->
  String.prefix "llm.token_count." name = false
  /\ (name = OUTPUT_VALUE
      \/ String.prefix (LLM_OUTPUT_MESSAGES +:+ ".") name = true).
Proof.
  intros Husage Hin.
  assert (Hnone : _set_token_counts_from_usage (snd (gather tokens)) = []).
  { unfold _set_token_counts_from_usage, gather.
    destruct (gathered_usage tokens ([], Value PNone)) as [H|[token [Ht H]]];
      rewrite H; [reflexivity|].
    rewrite (Husage token Ht). reflexivity. }
  assert (Hattrs : In (Attribute name value) (fst (stream_attributes (gather tokens)))).
  { destruct how as [|e|]; cbn [finalize_stream] in Hin.
    - rewrite stream_attributes_returns in Hin.
      apply in_app_or in Hin. destruct Hin as [Hin|Hin]; [exact Hin|].
      apply in_app_or in Hin. destruct Hin as [Hin|[Hin|[]]]; [|discriminate Hin].
      destruct sync; [|destruct Hin].
      destruct Hin as [Hin|[]]. discriminate Hin.
    - destruct (isinstance e "Exception");
        repeat (destruct Hin as [Hin|Hin]; [discriminate Hin|]); destruct Hin.
    - destruct tokens as [|token tokens']; [destruct Hin|].
      destruct Hin as [Hin|[]]. discriminate Hin. }
  unfold stream_attributes in Hattrs. cbv zeta in Hattrs.
  apply in_gseq in Hattrs. destruct Hattrs as [H|H].
  - cbn [fst] in H. apply in_set_attr in H. subst name.
    split; [reflexivity|left; reflexivity].
  - apply in_gseq in H. destruct H as [H|H].
    + apply in_gfor in H. destruct H as [[idx [role content]] [_ H]].
      unfold set_all in H. cbn [fst snd] in H. apply in_flat_map in H.
      destruct H as [[key v] [_ H]]. cbn [fst snd] in H.
      apply in_set_attr in H. subst name.
      split; [reflexivity|].
      right. unfold LLM_OUTPUT_MESSAGES. simpl. apply PyFacts.prefix_empty.
    + rewrite Hnone in H. destruct (obj_truthy (snd (gather tokens))); destruct H.
Qed.

End WithStr.

Lemma stream_records_joined_content_witness :
  In (Attribute "llm.output_messages.0.message.content" (Value (PStr "Hello")))
     (finalize_stream (fun _ => "") value_error false
        [ {| chunk_choices :=
               [{| index := 0;
                   delta := Some {| delta_role := Some "assistant";
                                    delta_content := Some "Hel" |} |}];
             chunk_usage := Value PNone |};
          {| chunk_choices :=
               [{| index := 0;
                   delta := Some {| delta_role := None;
                                    delta_content := Some "lo" |} |}];
             chunk_usage := Value PNone |} ]
        Exhausted).
Proof.
  exact (proj1 (proj1 (stream_records_joined_content (fun _ => "") value_error false
                  [ {| chunk_choices :=
                         [{| index := 0;
                             delta := Some {| delta_role := Some "assistant";
                                              delta_content := Some "Hel" |} |}];
                       chunk_usage := Value PNone |};
                    {| chunk_choices :=
                         [{| index := 0;
                             delta := Some {| delta_role := None;
                                              delta_content := Some "lo" |} |}];
                       chunk_usage := Value PNone |} ]
                  0 ltac:(discriminate)) ltac:(discriminate))).
Defined.

Lemma stream_token_counts_need_nested_usage_witness :
  String.prefix "llm.token_count." OUTPUT_VALUE = false
  /\ (OUTPUT_VALUE = OUTPUT_VALUE
      \/ String.prefix (LLM_OUTPUT_MESSAGES +:+ ".") OUTPUT_VALUE = true).
Proof.
  apply (stream_token_counts_need_nested_usage (fun _ => "") value_error true
           [ {| chunk_choices :=
                  [{| index := 0;
                      delta := Some {| delta_role := Some "assistant";
                                       delta_content := Some "Hi" |} |}];
                chunk_usage := Object [("prompt_tokens", Value (PInt 3));
                                       ("total_tokens", Value (PInt 5))] |} ]
           Exhausted OUTPUT_VALUE (Value (PStr "Hi"))).
  - intros token [<-|[]]. reflexivity.
  - vm_compute. left. reflexivity.
Defined.

Lemma stream_span_ended_once_witness :
  finalize_stream (fun _ => "") value_error true [first_chunk] Closed = [Ended]
  /\ finalize_stream (fun _ => "") value_error true [first_chunk]
       (Raised value_error)
     = [ExceptionRecorded value_error; Ended]
  /\ List.filter is_status
       (finalize_stream (fun _ => "") value_error true [first_chunk] Exhausted)
     = [StatusSet {| status_code := OK; description := None |}].
Proof.
  destruct (proj2 (stream_span_ended_once (fun _ => "") value_error true
                     [first_chunk] Closed) ltac:(discriminate))
    as [calls [H [_ [_ [_ Hc]]]]].
  destruct (proj2 (stream_span_ended_once (fun _ => "") value_error true
                     [first_chunk] (Raised value_error)) ltac:(discriminate))
    as [calls' [H' [_ [He' _]]]].
  destruct (proj2 (stream_span_ended_once (fun _ => "") value_error true
                     [first_chunk] Exhausted) ltac:(discriminate))
    as [calls'' [H'' [_ [_ [Hs'' _]]]]].
  split; [rewrite H, (Hc eq_refl); reflexivity|].
  split; [vm_compute; reflexivity|].
  rewrite H'', List.filter_app, Hs''. reflexivity.
Defined.

End StreamFacts.

Module StreamingSpanFacts.
Import Py Semconv Otel LlamaIndex.
Import ErrorPathFacts LifecycleFacts.

Section WithRules.

Variable recursion_limit : nat.
Variable _process_event : BaseEvent -> _Span -> extraction.

(** [notify_parent] only writes to spans that wait for streaming. *)
Lemma notify_parent_keeps (depth : nat) (status : _StreamingStatus) (now : Q)
    (self q : ref) (st : gmap ref _Span) (s : _Span) :
  st !! q = Some s -> waiting_for_streaming s = false ->
  fst (notify_parent depth status now self st) !! q = Some s.
Proof.
  revert self st. induction depth as [|depth IH]; intros self st Hq Hw; simpl.
  - exact Hq.
  - destruct (st !! self) as [s0|]; [|exact Hq].
    destruct (_parent s0) as [p|]; [|exact Hq].
    destruct (st !! p) as [parent|] eqn:Hp; [|exact Hq].
    destruct (waiting_for_streaming parent) eqn:Hwp; cbn [negb]; [|exact Hq].
    apply IH; [|exact Hw].
    rewrite lookup_insert_ne; [exact Hq|].
    intros ->. rewrite Hp in Hq. injection Hq as ->. congruence.
Qed.

Lemma end_not_waiting (e : option BaseException) (s : _Span) :
  waiting_for_streaming (end_ e s) = false.
Proof.
  unfold waiting_for_streaming, end_.
  destruct (_active s) eqn:Ha; cbn [negb].
  - unfold end_commit. destruct e; reflexivity.
  - rewrite Ha. reflexivity.
Qed.

(** An in-progress notification leaves every span as it was, but for the
    time of its last update. *)
Lemma notify_in_progress_cases (depth : nat) (now : Q) (self q : ref)
    (st : gmap ref _Span) :
  let st' := fst (notify_parent depth IN_PROGRESS now self st) in
  st' !! q = st !! q \/ st' !! q = set_last_updated_at now <$> st !! q.
Proof.
  revert self st. induction depth as [|depth IH]; intros self st; simpl.
  - left. reflexivity.
  - destruct (st !! self) as [s0|]; [|left; reflexivity].
    destruct (_parent s0) as [p|]; [|left; reflexivity].
    destruct (st !! p) as [parent|] eqn:Hp; [|left; reflexivity].
    destruct (waiting_for_streaming parent) eqn:Hwp; cbn [negb];
      [|left; reflexivity].
    destruct (IH p (<[p := set_last_updated_at now parent]> st)) as [H|H];
      cbv zeta in H; rewrite H; clear H.
    + destruct (decide (q = p)) as [->|Hne].
      * rewrite lookup_insert_eq, Hp. right. reflexivity.
      * rewrite lookup_insert_ne by congruence. left. reflexivity.
    + destruct (decide (q = p)) as [->|Hne].
      * rewrite lookup_insert_eq, Hp. right. reflexivity.
      * rewrite lookup_insert_ne by congruence. right. reflexivity.
Qed.

(** X20: a streaming result defers the end of an LLM span: on exit the
    span is left open, stamped with the exit time and parked in the
    export queue under its id; once the framework has unregistered it,
    the event that finishes the stream still finds it there and ends it
    with status OK and the exit time as end time, whatever the clock
    reads by then.  The attributes exported are those the rule of the
    event leaves, and what the rule records on the span comes before
    the status. *)
Theorem streaming_exit_defers_end (h : handler) (id : string) (r : ref)
    (s : _Span) (call : exit_call) (now now' : Q) (now_ns now_ns' : Z)
    (registry : gmap string ref) (event : BaseEvent) :
  open_spans h !! id = Some r ->
  store h !! r = Some s ->
  id_ s = id -> id <> "" ->
  _active s = true ->
  now_ns <> 0%Z ->
  instance_is_llm call = true -> result_is_live_stream call = true ->
  registry !! id = None ->
  span_id event = Some id -> class event = StreamingFinished ->
  let x := _process_event event (set_end_time now_ns s) in
  raised x = None ->
  let h1 := fst (fst (prepare_to_exit_span false id call now now_ns h)) in
  let h1' := {| store := store h1; open_spans := registry;
                _export_queue := _export_queue h1; logged := logged h1 |} in
  let done := handle recursion_limit _process_event false event now' now_ns' h1' in
  store h1 !! r = Some (set_end_time now_ns s)
  /\ find id (_export_queue h1) = Some r
  /\ snd done = Returned (Some event)
  /\ exists s',
       store (fst done) !! r = Some s'
       /\ _active s' = false
       /\ _otel_span s'
          = _otel_span s ++ map RecordException (recorded x)
            ++ [SetStatus {| status_code := OK; description := None |};
                SetAttributes
                  (<[OPENINFERENCE_SPAN_KIND :=
                       PStr (span_kind_or_chain (new_span_kind x))]>
                     (new_attributes x));
                End (Some now_ns)].
Proof.
  intros Hopen Hstore Hid Hne Hactive Hns Hllm Hlive Hreg Hspan Hclass x Hrule
    h1 h1' done.
  assert (Hh1 : h1 = with_export_queue (put now r id (_export_queue h))
                       (with_store (<[r := set_end_time now_ns s]> (store h)) h)).
  { subst h1. unfold prepare_to_exit_span. rewrite Hopen, Hstore, Hllm, Hlive.
    cbn [andb fst id_ set_end_time]. rewrite Hid. reflexivity. }
  assert (Hs1 : store h1 !! r = Some (set_end_time now_ns s)).
  { rewrite Hh1. cbn [store with_export_queue with_store].
    apply lookup_insert_eq. }
  assert (Hfind : find id (_export_queue h1) = Some r).
  { rewrite Hh1. unfold find. cbn [_export_queue with_export_queue put spans].
    apply lookup_insert_eq. }
  split; [exact Hs1|]. split; [exact Hfind|].
  set (s1 := extracted x (set_end_time now_ns s)).
  set (st2 := <[r := end_ None s1]> (<[r := s1]> (store h1))).
  assert (Hw : waiting_for_streaming s1 = true).
  { unfold waiting_for_streaming, s1. unfold has_end_time.
    cbn [_active _end_time extracted set_end_time]. rewrite Hactive.
    cbn [andb]. apply negb_true_iff, Z.eqb_neq. exact Hns. }
  set (h2 := fun st =>
               log_messages (process_event_log _process_event event r (store h1'))
                 (with_store st h1')).
  assert (Hdone : done
            = let '(st, error) := notify_parent recursion_limit FINISHED now' r st2 in
              match error with
              | None => (h2 st, Returned (Some event))
              | Some e =>
                  if isinstance e "Exception" then
                    (log_message (ErrorProcessingEvent (qualname event)) (h2 st),
                     Returned (Some event))
                  else (h2 st, Propagated e)
              end).
  { subst done. unfold handle. cbn [negb]. unfold has_span_id. rewrite Hspan.
    cbn [present text_of].
    destruct (String.eqb_spec id ""); [contradiction|]. cbn [negb].
    cbn [open_spans h1']. rewrite Hreg. cbn [_export_queue h1']. rewrite Hfind.
    unfold process_event. cbn [store h1']. rewrite Hs1. cbv zeta.
    fold x. rewrite Hrule. fold s1. rewrite Hw. cbn [negb]. rewrite Hclass.
    reflexivity. }
  pose proof (notify_parent_keeps recursion_limit FINISHED now' r r st2
                (end_ None s1) (lookup_insert_eq _ _ _) (end_not_waiting _ _))
    as Hkeep.
  pose proof (notify_parent_raises recursion_limit FINISHED now' r st2) as Hraise.
  rewrite Hdone.
  destruct (notify_parent recursion_limit FINISHED now' r st2) as [st error].
  cbn [fst snd] in Hkeep, Hraise.
  assert (Hend : _active (end_ None s1) = false
                 /\ _otel_span (end_ None s1)
                    = _otel_span s ++ map RecordException (recorded x)
                      ++ [SetStatus {| status_code := OK; description := None |};
                          SetAttributes
                            (<[OPENINFERENCE_SPAN_KIND :=
                                 PStr (span_kind_or_chain (new_span_kind x))]>
                               (new_attributes x));
                          End (Some now_ns)]).
  { unfold end_, end_commit, s1.
    cbn [_active _otel_span _attributes _span_kind _end_time extracted
         set_end_time negb].
    rewrite Hactive. cbn [negb _active _otel_span].
    split; [reflexivity|]. rewrite <- List.app_assoc. reflexivity. }
  destruct error as [e|].
  - rewrite (Hraise e eq_refl).
    change (isinstance RecursionError "Exception") with true. cbv iota.
    split; [reflexivity|]. exists (end_ None s1).
    split; [exact Hkeep|exact Hend].
  - split; [reflexivity|]. exists (end_ None s1).
    split; [exact Hkeep|exact Hend].
Qed.

(** X21: the end of a stream reaches the span that waits above: when a
    waiting span receives the event that finishes its stream, or an
    exception event, it is ended as the rule of the event has left it,
    with the exception recorded if there is one, and its parent, if it
    waits for streaming too, is ended as well, always with status OK. *)
Theorem finished_stream_ends_waiting_parent (event : BaseEvent) (now : Q)
    (now_ns : Z) (self p : ref) (st : gmap ref _Span) (s parent : _Span) :
  recursion_limit <> 0%nat ->
  st !! self = Some s -> _parent s = Some p -> p <> self ->
  st !! p = Some parent ->
  waiting_for_streaming s = true -> waiting_for_streaming parent = true ->
  class event = StreamingFinished \/ class event = ExceptionEventClass ->
  raised (_process_event event s) = None ->
  let st' :=
    fst (process_event recursion_limit _process_event event now now_ns self st) in
  let error :=
    match class event with
    | ExceptionEventClass => exception event
    | _ => None
    end in
  st' !! self = Some (end_ error (extracted (_process_event event s) s))
  /\ st' !! p = Some (end_ None parent).
Proof.
  intros Hlimit Hself Hparent Hne Hp Hws Hwp Hclass Hrule st' error.
  set (s1 := extracted (_process_event event s) s).
  assert (Hw1 : waiting_for_streaming s1 = true) by exact Hws.
  set (st2 := <[self := end_ error s1]> (<[self := s1]> st)).
  assert (Hst' : st' = fst (notify_parent recursion_limit FINISHED now self st2)).
  { subst st' error. unfold st2, process_event. rewrite Hself. cbv zeta.
    rewrite Hrule. fold s1. rewrite Hw1. cbn [negb].
    destruct Hclass as [Hc|Hc]; rewrite Hc; reflexivity. }
  assert (H2self : st2 !! self = Some (end_ error s1)) by apply lookup_insert_eq.
  assert (H2p : st2 !! p = Some parent).
  { unfold st2. rewrite !lookup_insert_ne by congruence. exact Hp. }
  rewrite Hst'. split.
  - apply notify_parent_keeps; [exact H2self|apply end_not_waiting].
  - destruct recursion_limit as [|depth]; [contradiction|].
    cbn [notify_parent]. rewrite H2self.
    assert (Hpar : _parent (end_ error s1) = Some p).
    { unfold end_, end_commit. destruct (_active s1); cbn [negb]; [|exact Hparent].
      destruct error; exact Hparent. }
    rewrite Hpar, H2p, Hwp. cbn [negb].
    apply notify_parent_keeps; [apply lookup_insert_eq|apply end_not_waiting].
Qed.

(** X22: a streaming chunk keeps the waiting spans alive: the event is
    stamped on the span as its first token event unless one was stamped
    before (after whatever the rule of the event records on the span),
    the span and its waiting parent are marked as updated now and stay
    open, and neither counts as timed out for the next 60 seconds. *)
Theorem in_progress_event_keeps_alive (event : BaseEvent) (now : Q)
    (now_ns : Z) (self : ref) (st : gmap ref _Span) (s : _Span) :
  st !! self = Some s ->
  waiting_for_streaming s = true ->
  class event = StreamingInProgress ->
  raised (_process_event event s) = None ->
  let st' :=
    fst (process_event recursion_limit _process_event event now now_ns self st) in
  (exists s',
     st' !! self = Some s'
     /\ _active s' = true
     /\ _last_updated_at s' = now
     /\ _otel_span s'
        = _otel_span s ++ map RecordException (recorded (_process_event event s))
          ++ match _first_token_timestamp s with
             | None => [AddEvent "First Token Stream Event" [] (Some now_ns)]
             | Some _ => []
             end
     /\ forall t, (t - now <= 60)%Q -> timed_out t s' = false)
  /\ forall p parent,
       recursion_limit <> 0%nat ->
       _parent s = Some p -> p <> self -> st !! p = Some parent ->
       waiting_for_streaming parent = true ->
       st' !! p = Some (set_last_updated_at now parent)
       /\ forall t, (t - now <= 60)%Q ->
            timed_out t (set_last_updated_at now parent) = false.
Proof.
  intros Hself Hws Hclass Hrule st'.
  set (s1 := extracted (_process_event event s) s).
  assert (Hw1 : waiting_for_streaming s1 = true) by exact Hws.
  set (s2 := set_last_updated_at now (mark_first_token now_ns s1)).
  set (st2 := <[self := s2]> (<[self := s1]> st)).
  assert (Hst' : st' = fst (notify_parent recursion_limit IN_PROGRESS now self st2)).
  { subst st'. unfold process_event. rewrite Hself. cbv zeta. rewrite Hrule.
    fold s1. rewrite Hw1. cbn [negb]. rewrite Hclass. reflexivity. }
  assert (H2self : st2 !! self = Some s2) by apply lookup_insert_eq.
  assert (Hfresh : forall t (x : _Span), (t - now <= 60)%Q ->
            timed_out t (set_last_updated_at now x) = false).
  { intros t x Ht. unfold timed_out. cbn [_last_updated_at set_last_updated_at].
    apply negb_false_iff, Qle_bool_iff. exact Ht. }
  split.
  - exists s2. split; [|split; [|split; [|split]]].
    + rewrite Hst'.
      destruct (notify_in_progress_cases recursion_limit now self self st2)
        as [H|H]; cbv zeta in H; rewrite H, H2self; reflexivity.
    + unfold s2, mark_first_token.
      destruct (_first_token_timestamp s1);
        cbn [_active set_last_updated_at]; apply waiting_active; exact Hws.
    + reflexivity.
    + unfold s2, mark_first_token, s1.
      cbn [_first_token_timestamp extracted].
      destruct (_first_token_timestamp s);
        cbn [_otel_span set_last_updated_at extracted];
        [rewrite app_nil_r|rewrite <- List.app_assoc]; reflexivity.
    + intros t Ht. apply Hfresh. exact Ht.
  - intros p parent Hlimit Hparent Hne Hp Hwp. split; [|intros t Ht; apply Hfresh; exact Ht].
    assert (H2p : st2 !! p = Some parent).
    { unfold st2. rewrite !lookup_insert_ne by congruence. exact Hp. }
    assert (Hpar : _parent s2 = Some p).
    { unfold s2, mark_first_token.
      destruct (_first_token_timestamp s1); exact Hparent. }
    rewrite Hst'.
    destruct recursion_limit as [|depth]; [contradiction|].
    cbn [notify_parent]. rewrite H2self, Hpar, H2p, Hwp. cbn [negb].
    destruct (notify_in_progress_cases depth now p p
                (<[p := set_last_updated_at now parent]> st2)) as [H|H];
      cbv zeta in H; rewrite H, lookup_insert_eq; reflexivity.
Qed.

End WithRules.

Lemma streaming_exit_defers_end_witness :
  find "query-1"
    (_export_queue
       (fst (fst (prepare_to_exit_span false "query-1"
                    {| instance_is_llm := true; result_is_live_stream := true;
                       process_output := fun a => (a, None) |}
                    3 5 Statements.one_span_handler))))
  = Some 0%nat.
Proof.
  refine (proj1 (proj2
    (streaming_exit_defers_end 8 LlamaIndexRuns.no_extraction
       Statements.one_span_handler "query-1" 0%nat Statements.open_span
       {| instance_is_llm := true; result_is_live_stream := true;
          process_output := fun a => (a, None) |}
       3 4 5 6 ∅
       {| span_id := Some "query-1"; event_id := "event-2";
          class := StreamingFinished; qualname := "LLMChatEndEvent";
          exception := None; payload := PNone |}
       _ _ _ _ _ _ _ _ _ _ _ _)));
    try (vm_compute; reflexivity); discriminate.
Defined.

Lemma finished_stream_ends_waiting_parent_witness :
  fst (process_event 8 LlamaIndexRuns.no_extraction
         {| span_id := Some "chat-1"; event_id := "event-2";
            class := StreamingFinished; qualname := "LLMChatEndEvent";
            exception := None; payload := PNone |}
         1 2 1%nat
         {[ 0%nat := LlamaIndexRuns.streaming_span;
            1%nat := set_end_time 7 (new_Span [] true None (Some 0%nat) "chat-1" 0) ]})
    !! 0%nat
  = Some (end_ None LlamaIndexRuns.streaming_span).
Proof.
  refine (proj2
    (finished_stream_ends_waiting_parent 8 LlamaIndexRuns.no_extraction
       {| span_id := Some "chat-1"; event_id := "event-2";
          class := StreamingFinished; qualname := "LLMChatEndEvent";
          exception := None; payload := PNone |}
       1 2 1%nat 0%nat
       {[ 0%nat := LlamaIndexRuns.streaming_span;
          1%nat := set_end_time 7 (new_Span [] true None (Some 0%nat) "chat-1" 0) ]}
       (set_end_time 7 (new_Span [] true None (Some 0%nat) "chat-1" 0))
       LlamaIndexRuns.streaming_span _ _ _ _ _ _ _ _ _));
    try (vm_compute; reflexivity); try discriminate.
  left. reflexivity.
Defined.

Lemma in_progress_event_keeps_alive_witness :
  exists s',
    fst (process_event 8 LlamaIndexRuns.no_extraction
           {| span_id := Some "query-1"; event_id := "event-3";
              class := StreamingInProgress; qualname := "LLMChatInProgressEvent";
              exception := None; payload := PNone |}
           100 2 0%nat {[ 0%nat := LlamaIndexRuns.streaming_span ]}) !! 0%nat
    = Some s'
    /\ timed_out 160 s' = false.
Proof.
  destruct (proj1
    (in_progress_event_keeps_alive 8 LlamaIndexRuns.no_extraction
       {| span_id := Some "query-1"; event_id := "event-3";
          class := StreamingInProgress; qualname := "LLMChatInProgressEvent";
          exception := None; payload := PNone |}
       100 2 0%nat {[ 0%nat := LlamaIndexRuns.streaming_span ]}
       LlamaIndexRuns.streaming_span
       (lookup_singleton_eq _ _) eq_refl eq_refl eq_refl))
    as [s' [Hs' [_ [_ [_ Hfresh]]]]].
  exists s'. split; [exact Hs'|]. apply Hfresh. discriminate.
Defined.

End StreamingSpanFacts.

Module TokenCountIntFacts.
Import Py Semconv Otel LlamaIndex.

Section WithInt.

Variable int_of_str : string -> option Z.
Variable P : string * pyval -> Prop.

Lemma forall_gseq (g1 g2 : gen (string * pyval)) :
  List.Forall P (fst g1) -> List.Forall P (fst g2) ->
  List.Forall P (fst (gseq g1 g2)).
Proof.
  intros H1 H2. unfold gseq. destruct (snd g1); [|exact H1].
  cbn [fst]. apply List.Forall_app. split; assumption.
Qed.

Lemma forall_try_yield_int (key : string) (v : pyval) :
  (forall z, P (key, PInt z)) ->
  List.Forall P (fst (try_yield_int int_of_str key v)).
Proof.
  intros H. unfold try_yield_int. destruct (py_int int_of_str v) as [z|].
  - constructor; [apply H|constructor].
  - constructor.
Qed.

Lemma forall_if_present (get_value : pyval -> string -> option pyval)
    (obj : pyval) (key : string) (body : pyval -> gen (string * pyval)) :
  (forall x, List.Forall P (fst (body x))) ->
  List.Forall P (fst (if_present get_value obj key body)).
Proof.
  intros H. unfold if_present. destruct (get_value obj key) as [x|];
    [|constructor].
  destruct (is_none x); [constructor|apply H].
Qed.

Lemma forall_token_counts_impl (get_value : pyval -> string -> option pyval)
    (usage : pyval) :
  (forall key z, String.prefix "llm.token_count." key = true -> P (key, PInt z)) ->
  List.Forall P (fst (_get_token_counts_impl int_of_str get_value usage)).
Proof.
  intros H.
  assert (Hint : forall key v, String.prefix "llm.token_count." key = true ->
            List.Forall P (fst (try_yield_int int_of_str key v))).
  { intros key v Hk. apply forall_try_yield_int. intros z. apply H. exact Hk. }
  unfold _get_token_counts_impl.
  repeat first
    [ apply forall_gseq
    | apply forall_if_present; intros ?
    | apply Hint; reflexivity ].
  destruct (get_value usage "cache_creation_input_tokens") as [creation|];
    [|constructor].
  apply forall_gseq.
  { destruct (is_none creation); [constructor|apply Hint; reflexivity]. }
  destruct (get_value usage "cache_read_input_tokens") as [read|];
    [|constructor].
  apply forall_gseq.
  { destruct (is_none read); [constructor|apply Hint; reflexivity]. }
  repeat first
    [ apply forall_gseq
    | apply forall_if_present; intros ?
    | apply Hint; reflexivity ].
  destruct (add_if_present int_of_str _ read) as [n|].
  - constructor; [apply H; reflexivity|constructor].
  - constructor.
Qed.

End WithInt.

(** X23: whatever the usage payload holds, every token count the handler
    takes from it is an integer under an [llm.token_count.] key: a count
    that does not convert to an integer is left out, never passed on as
    it is. *)
Theorem token_counts_are_integers (int_of_str : string -> option Z)
    (usage : pyval) (key : string) (value : pyval) :
  In (key, value) (fst (_get_token_counts int_of_str usage)) ->
  String.prefix "llm.token_count." key = true /\ exists z, value = PInt z.
Proof.
  intros Hin.
  assert (H : List.Forall
                (fun kv => String.prefix "llm.token_count." (fst kv) = true
                           /\ exists z, snd kv = PInt z)
                (fst (_get_token_counts int_of_str usage))).
  { unfold _get_token_counts.
    destruct usage; apply forall_token_counts_impl;
      intros k n Hk; (split; [exact Hk|exists n; reflexivity]). }
  rewrite List.Forall_forall in H. exact (H _ Hin).
Qed.

Lemma token_counts_are_integers_witness :
  String.prefix "llm.token_count." LLM_TOKEN_COUNT_PROMPT = true
  /\ exists z, PInt 12 = PInt z.
Proof.
  apply (token_counts_are_integers (fun _ => Some 12%Z)
           (PDict [("prompt_tokens", PStr "12"); ("total_tokens", PList [])])
           LLM_TOKEN_COUNT_PROMPT (PInt 12)).
  vm_compute. left. reflexivity.
Defined.

End TokenCountIntFacts.

Module UsageFacts.
Import Py Semconv Otel LangChain.
Import GenFacts.

Lemma not_none (v : pyval) : is_none v = false -> v <> PNone.
Proof. intros H ->. discriminate H. Qed.

(** X24: the LangChain tracer passes the counts of the usage payload on as
    they are found: whatever the outputs hold, every pair
    [_token_counts] yields sits under an [llm.token_count.] key and its
    value is never [None]. *)
Theorem token_counts_never_none (outputs : pyval) (key : string) (value : pyval) :
  In (key, value) (fst (_token_counts outputs)) ->
  String.prefix "llm.token_count." key = true /\ value <> PNone.
Proof.
  unfold _token_counts, stop_on_exception. cbn [fst].
  destruct (or_else _ _) as [token_usage|]; [|intros []].
  destruct (truthy token_usage); cbn [negb]; [|intros []].
  intros H. apply in_gseq in H. destruct H as [H|H].
  - apply in_gfor in H. destruct H as [entry [Hentry H]].
    destruct (is_none (_get_first_value token_usage (snd entry))) eqn:Hv;
      [destruct H|].
    destruct H as [[= <- <-]|[]]. split; [|apply not_none; exact Hv].
    unfold token_count_keys in Hentry. cbn [In] in Hentry.
    repeat (destruct Hentry as [<-|Hentry]; [reflexivity|]).
    destruct Hentry.
  - apply in_gfor in H. destruct H as [entry [Hentry H]].
    destruct (py_get token_usage (snd (fst entry))) as [details|]; [|destruct H].
    destruct (is_none details); [destruct H|].
    destruct (is_none (_get_first_value details (snd entry))) eqn:Hv;
      [destruct H|].
    destruct H as [[= <- <-]|[]]. split; [|apply not_none; exact Hv].
    unfold token_count_detail_keys in Hentry. cbn [In] in Hentry.
    repeat (destruct Hentry as [<-|Hentry]; [reflexivity|]).
    destruct Hentry.
Qed.

Lemma token_counts_never_none_witness :
  String.prefix "llm.token_count." LLM_TOKEN_COUNT_TOTAL = true
  /\ PStr "many" <> PNone.
Proof.
  apply (token_counts_never_none
           (PDict [("llm_output",
                    PDict [("token_usage",
                            PDict [("prompt_tokens", PNone);
                                   ("total_tokens", PStr "many")])])])
           LLM_TOKEN_COUNT_TOTAL (PStr "many")).
  vm_compute. left. reflexivity.
Defined.

(** X25: the usage reported in the LLM output takes precedence: when
    [llm_output] holds a truthy [token_usage] (or [usage]), the token
    counts are taken from it alone, and nothing the generations carry,
    nor any other entry of the outputs, changes them. *)
Theorem llm_output_usage_takes_precedence
    (outputs outputs' llm_output : list (string * pyval)) :
  dict_get outputs "llm_output" = PDict llm_output ->
  dict_get outputs' "llm_output" = PDict llm_output ->
  truthy (_get_first_value (PDict llm_output) ["token_usage"; "usage"]) = true ->
  _token_counts (PDict outputs) = _token_counts (PDict outputs').
Proof.
  intros H H' Husage.
  assert (Hparse : forall o,
            dict_get o "llm_output" = PDict llm_output ->
            _parse_token_usage_for_non_streaming_outputs (PDict o)
            = Some (_get_first_value (PDict llm_output) ["token_usage"; "usage"])).
  { intros o Ho. unfold _parse_token_usage_for_non_streaming_outputs.
    assert (Hne : truthy (PDict o) = true).
    { destruct o; [discriminate Ho|reflexivity]. }
    assert (Hlo : truthy (PDict llm_output) = true).
    { destruct llm_output; [discriminate Husage|reflexivity]. }
    rewrite Hne. cbn [has_get andb py_get]. rewrite Ho, Hlo, Husage.
    reflexivity. }
  unfold _token_counts. rewrite (Hparse _ H), (Hparse _ H').
  unfold or_else. rewrite Husage. reflexivity.
Qed.

Lemma llm_output_usage_takes_precedence_witness :
  _token_counts
    (PDict [("llm_output", PDict [("token_usage", PDict [("total_tokens", PInt 7)])]);
            ("generations",
             PList [PList [PDict [("generation_info",
                                   PDict [("usage_metadata",
                                           PDict [("total_tokens", PInt 9)])])]]])])
  = _token_counts
      (PDict [("llm_output", PDict [("token_usage", PDict [("total_tokens", PInt 7)])])]).
Proof.
  exact (llm_output_usage_takes_precedence
           [("llm_output", PDict [("token_usage", PDict [("total_tokens", PInt 7)])]);
            ("generations",
             PList [PList [PDict [("generation_info",
                                   PDict [("usage_metadata",
                                           PDict [("total_tokens", PInt 9)])])]]])]
           [("llm_output", PDict [("token_usage", PDict [("total_tokens", PInt 7)])])]
           [("token_usage", PDict [("total_tokens", PInt 7)])]
           eq_refl eq_refl eq_refl).
Defined.

End UsageFacts.
